(** * SonoffLAN: the eWeLink device registry and command router

    A shallow embedding of [custom_components/sonoff/core/ewelink/__init__.py]
    (class [XRegistry]) and the properties of its routing and
    reconciliation logic.

    Python values are modelled as JSON-like terms, device records as mutable
    objects in a store addressed by reference, the registry as an
    insertion-ordered dictionary from device id to reference, and every call
    that leaves the class (dispatcher, transports, task creation, sleeping)
    as an event of a trace.  Exceptions keep the mutations made before they
    were raised, as in Python. *)

From Stdlib Require Import ZArith String List Bool Lia DecimalString.
From stdpp Require Import base list.
Import ListNotations.

Local Open Scope string_scope.
Local Open Scope list_scope.

(** ** Python values *)

Module Py.

(** Values carried by messages, device records and configuration. Floats
    are left out: time stamps are integers (seconds). *)
#[warnings="-register-all"] Inductive pyval : Type :=
| VNone
| VBool (b : bool)
| VInt (n : Z)
| VStr (s : string)
| VList (l : list pyval)
| VDict (d : list (string * pyval)).

(** A [dict] with string keys, in insertion order; the first binding of a
    key is the one that counts. *)
Definition dict := list (string * pyval).

Inductive exn : Type :=
| KeyError
| TypeError
| ValueError
| Failure (what : string).

Inductive outcome (A : Type) : Type :=
| Ok (a : A)
| Raise (e : exn).
Arguments Ok {A} a.
Arguments Raise {A} e.

(** [d.get(k)] *)
Fixpoint dget (k : string) (d : dict) : option pyval :=
  match d with
  | [] => None
  | (k', v) :: r => if String.eqb k' k then Some v else dget k r
  end.

(** [k in d] *)
Definition dmem (k : string) (d : dict) : bool :=
  match dget k d with Some _ => true | None => false end.

(** [d[k] = v]: an existing key keeps its position, a new one goes last. *)
Fixpoint dset (k : string) (v : pyval) (d : dict) : dict :=
  match d with
  | [] => [(k, v)]
  | (k', v') :: r =>
      if String.eqb k' k then (k', v) :: r else (k', v') :: dset k v r
  end.

(** [d.update(other)] *)
Definition dupdate (d other : dict) : dict :=
  fold_left (fun acc kv => dset (fst kv) (snd kv) acc) other d.

(** [d[k]] *)
Definition dindex (k : string) (d : dict) : outcome pyval :=
  match dget k d with Some v => Ok v | None => Raise KeyError end.

(** An element of the iterable given to [d.update]: a sequence of length
    two, the key and the value. A string of two characters and a dict of
    two keys are such sequences. *)
Definition update_pair (item : pyval) : outcome (pyval * pyval) :=
  match item with
  | VList [k; v] => Ok (k, v)
  | VStr (String a (String b EmptyString)) =>
      Ok (VStr (String a EmptyString), VStr (String b EmptyString))
  | VDict [(k, _); (k', _)] => Ok (VStr k, VStr k')
  | VList _ | VStr _ | VDict _ => Raise ValueError
  | VNone | VBool _ | VInt _ => Raise TypeError
  end.

(** [d.update(items)] for a list of pairs: the pairs are bound one after
    the other, and those before an element that raises stay bound. A key
    that is hashable and not a string has no place in [dict]: the model
    gives up there. *)
Fixpoint update_pairs (d : dict) (items : list pyval) : dict * outcome unit :=
  match items with
  | [] => (d, Ok tt)
  | item :: rest =>
      match update_pair item with
      | Raise e => (d, Raise e)
      | Ok (VStr k, v) => update_pairs (dset k v d) rest
      | Ok (VList _, _) | Ok (VDict _, _) => (d, Raise TypeError)
      | Ok (_, _) => (d, Raise (Failure "key is not a string"))
      end
  end.

(** [d.update(other)] for any object: the dict as the call leaves it, and
    how the call ends. A mapping is merged key by key, another iterable is
    read as pairs (the characters of a string are too short for pairs),
    other objects are not iterable. *)
Definition py_update (d : dict) (other : pyval) : dict * outcome unit :=
  match other with
  | VDict o => (dupdate d o, Ok tt)
  | VList items => update_pairs d items
  | VStr EmptyString => (d, Ok tt)
  | VStr (String _ _) => (d, Raise ValueError)
  | VNone | VBool _ | VInt _ => (d, Raise TypeError)
  end.

(** Truth value of an object, as tested by [if], [not], [and], [or]. *)
Definition truthy (v : pyval) : bool :=
  match v with
  | VNone => false
  | VBool b => b
  | VInt n => negb (n =? 0)%Z
  | VStr s => match s with EmptyString => false | String _ _ => true end
  | VList l => match l with [] => false | _ => true end
  | VDict d => match d with [] => false | _ => true end
  end.

(** [x or y] *)
Definition py_or (x y : pyval) : pyval := if truthy x then x else y.

Definition Z_of_bool (b : bool) : Z := if b then 1%Z else 0%Z.

(** [x == y]. Booleans compare as the integers 0 and 1, lists element by
    element, dictionaries key by key whatever the insertion order. *)
Fixpoint py_eq (x y : pyval) {struct x} : bool :=
  match x, y with
  | VNone, VNone => true
  | VBool a, VBool b => Bool.eqb a b
  | VBool a, VInt n => (Z_of_bool a =? n)%Z
  | VInt n, VBool a => (n =? Z_of_bool a)%Z
  | VInt a, VInt b => (a =? b)%Z
  | VStr a, VStr b => String.eqb a b
  | VList l1, VList l2 =>
      (fix go (l1 l2 : list pyval) {struct l1} : bool :=
         match l1, l2 with
         | [], [] => true
         | a :: r1, b :: r2 => py_eq a b && go r1 r2
         | _, _ => false
         end) l1 l2
  | VDict d1, VDict d2 =>
      (* every key of [d1] is bound in [d2] to an equal value ... *)
      (fix keys (e : dict) {struct e} : bool :=
         match e with
         | [] => true
         | (k, _) :: r =>
             (fix first (e1 : dict) {struct e1} : bool :=
                match e1 with
                | [] => false
                | (k1, v) :: r1 =>
                    if String.eqb k1 k then
                      (fix find (e2 : dict) {struct e2} : bool :=
                         match e2 with
                         | [] => false
                         | (k2, w) :: r2 =>
                             if String.eqb k2 k then py_eq v w else find r2
                         end) d2
                    else first r1
                end) d1
             && keys r
         end) d1
      (* ... and [d2] has no other key *)
      && forallb (fun kw => dmem (fst kw) d1) d2
  | _, _ => false
  end.

(** [k in v] for the string [k]: key of a dict, element of a list,
    substring of a string; other objects are not containers. *)
Definition py_contains (k : string) (v : pyval) : outcome bool :=
  match v with
  | VDict d => Ok (dmem k d)
  | VList l => Ok (existsb (py_eq (VStr k)) l)
  | VStr s => Ok (match String.index 0 k s with Some _ => true | None => false end)
  | _ => Raise TypeError
  end.

(** [v[k]] for the string [k] *)
Definition py_index (k : string) (v : pyval) : outcome pyval :=
  match v with
  | VDict d => dindex k d
  | _ => Raise TypeError
  end.

(** [x is None], [x is False] *)
Definition is_None (v : pyval) : bool :=
  match v with VNone => true | _ => false end.
Definition is_False (v : pyval) : bool :=
  match v with VBool false => true | _ => false end.

(** *** Induction through the nested containers *)

Section pyval_nested_ind.
Variable P : pyval -> Prop.
Hypothesis HNone : P VNone.
Hypothesis HBool : forall b, P (VBool b).
Hypothesis HInt : forall n, P (VInt n).
Hypothesis HStr : forall s, P (VStr s).
Hypothesis HList : forall l, Forall P l -> P (VList l).
Hypothesis HDict : forall d, Forall (fun kv => P (snd kv)) d -> P (VDict d).

Fixpoint pyval_nested_ind (v : pyval) : P v :=
  match v with
  | VNone => HNone
  | VBool b => HBool b
  | VInt n => HInt n
  | VStr s => HStr s
  | VList l =>
      HList l
        ((fix all (l : list pyval) : Forall P l :=
            match l with
            | [] => List.Forall_nil P
            | x :: r => List.Forall_cons P x r (pyval_nested_ind x) (all r)
            end) l)
  | VDict d =>
      HDict d
        ((fix all (d : dict) : Forall (fun kv => P (snd kv)) d :=
            match d with
            | [] => List.Forall_nil _
            | kv :: r =>
                List.Forall_cons (fun kv => P (snd kv)) kv r
                  (pyval_nested_ind (snd kv)) (all r)
            end) d)
  end.
End pyval_nested_ind.

(** The test [py_eq] makes for a key of two dictionaries. *)
Definition dict_agree (d1 d2 : dict) (k : string) : bool :=
  match dget k d1, dget k d2 with
  | Some v, Some w => py_eq v w
  | _, _ => false
  end.

End Py.

(** ** The registry: store, trace and exceptions *)

Module Registry.
Import Py.

(** A reference to a device record (a Python [dict] object). *)
Abbreviation addr := nat.

(** An entity built by a handler class for a device: [cls(self, device)]. *)
Record entity : Type := Entity { ent_class : string; ent_device : addr }.

(** A value of the [childs] of an RF bridge: the entity built for a learned
    channel, or the dict of a channel that was not learned. *)
Inductive child_value : Type :=
| BuiltChild (e : entity)
| RawChild (d : dict).

(** What [dispatcher_send(signal, *args)] is given after the signal. *)
Inductive args : Type :=
| NoArgs
| Params (params : pyval)
| Entities (entities : list entity)
| ChildValues (values : list child_value).

(** Calls that leave [XRegistry]. An argument left to the callee's default
    is [None]. *)
Inductive event : Type :=
| DispatcherSend (signal : string) (a : args)
| LocalSend (device : addr) (params : pyval) (seq : string) (timeout : Z)
| CloudSend (device : addr) (params : option pyval) (seq : option string)
    (timeout : option Z)
| CheckOffline (device : addr)
| CreatePowHelper (tid : nat)
| Sleep (seconds : Z)
| CloudStop
| LocalStop.

Definition SIGNAL_ADD_ENTITIES : string := "add_entities".

(** The objects the handlers read and write: the device records ([heap]),
    [self.devices], [self.config], [self.local.online], [self.cloud.online]. *)
Record memory : Type := Memory {
  heap : list dict;
  devices : list (string * addr);
  config : pyval;
  local_online : bool;
  cloud_online : bool
}.

Definition with_heap (h : list dict) (m : memory) : memory :=
  Memory h (devices m) (config m) (local_online m) (cloud_online m).
Definition with_devices (r : list (string * addr)) (m : memory) : memory :=
  Memory (heap m) r (config m) (local_online m) (cloud_online m).

(** [self.devices.get(did)] *)
Fixpoint lookup_device (did : string) (r : list (string * addr)) : option addr :=
  match r with
  | [] => None
  | (k, a) :: r' => if String.eqb k did then Some a else lookup_device did r'
  end.

(** [self.devices[did] = device] *)
Fixpoint store_device (did : string) (a : addr) (r : list (string * addr))
  : list (string * addr) :=
  match r with
  | [] => [(did, a)]
  | (k, b) :: r' =>
      if String.eqb k did then (k, a) :: r' else (k, b) :: store_device did a r'
  end.

(** A computation on the memory that logs events and may raise. *)
Definition M (A : Type) : Type := memory -> memory * list event * outcome A.

Definition ret {A} (a : A) : M A := fun m => (m, [], Ok a).
Definition raise {A} (e : exn) : M A := fun m => (m, [], Raise e).
Definition bind {A B} (c : M A) (k : A -> M B) : M B :=
  fun m =>
    match c m with
    | (m1, t1, Ok a) =>
        match k a m1 with (m2, t2, r) => (m2, t1 ++ t2, r) end
    | (m1, t1, Raise e) => (m1, t1, Raise e)
    end.

Declare Scope reg_scope.
Delimit Scope reg_scope with reg.
Notation "x <- c ;; k" := (bind c (fun x => k))
  (at level 100, c at next level, k at level 200, right associativity) : reg_scope.
Notation "c ;; k" := (bind c (fun _ => k))
  (at level 100, k at level 200, right associativity) : reg_scope.
Local Open Scope reg_scope.

Definition lift {A} (r : outcome A) : M A := fun m => (m, [], r).
Definition get : M memory := fun m => (m, [], Ok m).
Definition emit (e : event) : M unit := fun m => (m, [e], Ok tt).

(** Reading and writing a record through its reference. *)
Definition load (a : addr) : M dict :=
  fun m =>
    match heap m !! a with
    | Some d => (m, [], Ok d)
    | None => (m, [], Raise (Failure "dangling reference"))
    end.
Definition store (a : addr) (d : dict) : M unit :=
  fun m => (with_heap (<[a := d]> (heap m)) m, [], Ok tt).
Definition alloc (d : dict) : M addr :=
  fun m => (with_heap (heap m ++ [d]) m, [], Ok (length (heap m))).
Definition register (did : string) (a : addr) : M unit :=
  fun m => (with_devices (store_device did a (devices m)) m, [], Ok tt).

(** [self.dispatcher_send(signal, *args)] *)
Definition dispatcher_send (signal : string) (a : args) : M unit :=
  emit (DispatcherSend signal a).

(** Device ids are the keys of [self.devices : Dict[str, dict]]. *)
Definition as_str (v : pyval) : outcome string :=
  match v with
  | VStr s => Ok s
  | VList _ | VDict _ => Raise TypeError
  | _ => Raise (Failure "device id is not a string")
  end.

Definition obind {A B} (r : outcome A) (k : A -> outcome B) : outcome B :=
  match r with Ok a => k a | Raise e => Raise e end.

(** [msg["deviceid"]], [device["deviceid"]] *)
Definition deviceid_of (msg : dict) : outcome string :=
  obind (dindex "deviceid" msg) as_str.

(** [d.get(k)], [None] when the key is missing *)
Definition dget_none (k : string) (d : dict) : pyval :=
  match dget k d with Some v => v | None => VNone end.

(** [self.devices.get(did)] followed by the test [not device]. *)
Definition known_device (m : memory) (did : string) : option (addr * dict) :=
  match lookup_device did (devices m) with
  | None => None
  | Some a =>
      match heap m !! a with
      | Some d => if truthy (VDict d) then Some (a, d) else None
      | None => None
      end
  end.

(** *** [cloud_update] *)

Definition cloud_update (msg : dict) : M unit :=
  did <- lift (deviceid_of msg) ;;
  m <- get ;;
  match known_device m did with
  | None => ret tt
  | Some (a, device) =>
      params <- lift (dindex "params" msg) ;;
      has_online <- lift (py_contains "online" params) ;;
      if has_online then
        cur <- lift (dindex "online" device) ;;
        new <- lift (py_index "online" params) ;;
        if py_eq cur new then ret tt
        else
          store a (dset "online" new device) ;;
          dispatcher_send did (Params params)
      else
        cur <- lift (dindex "online" device) ;;
        (if is_False cur then store a (dset "online" (VBool true) device)
         else ret tt) ;;
        dispatcher_send did (Params params)
  end.

(** *** [send] *)

(** [ok_local] and [ok_cloud] are what the awaited [self.local.send] and the
    first [self.cloud.send] return when they are called; [seq] is
    [self.sequence()]. *)
Definition send (device : addr) (params params_lan : pyval)
    (query_cloud : bool) (seq : string) (ok_local ok_cloud : pyval) : M unit :=
  m <- get ;;
  d <- load device ;;
  let can_local := local_online m && truthy (dget_none "host" d) in
  let can_cloud := cloud_online m && truthy (dget_none "online" d) in
  if can_local && can_cloud then
    emit (LocalSend device (py_or params_lan params) seq 1) ;;
    if negb (py_eq ok_local (VStr "online")) then
      emit (CloudSend device (Some params) (Some seq) None) ;;
      if negb (py_eq ok_cloud (VStr "online")) then emit (CheckOffline device)
      else if query_cloud then emit (CloudSend device None None (Some 0%Z))
      else ret tt
    else ret tt
  else if can_local then
    emit (LocalSend device (py_or params_lan params) seq 5) ;;
    if negb (py_eq ok_local (VStr "online")) then emit (CheckOffline device)
    else ret tt
  else if can_cloud then
    emit (CloudSend device (Some params) (Some seq) None) ;;
    if py_eq ok_cloud (VStr "online") && query_cloud
    then emit (CloudSend device None None (Some 0%Z))
    else ret tt
  else ret tt.

(** ** Handlers that call the collaborators *)

Section Collaborators.

(** [self.local.decrypt_msg(msg, devicekey)], from [local.py]. *)
Variable decrypt_msg : dict -> pyval -> outcome pyval.

(** [setup_diy(msg)], from [devices.py]: the provisional record of a device
    found on the local network. The record is taken to be an object of its
    own, filled from the message. *)
Variable setup_diy : dict -> outcome dict.

(** [get_spec(device)], from [devices.py]: the handler classes of a device,
    by name. *)
Variable get_spec : dict -> outcome (list string).

(** [cls(self, device)] for a handler class [cls] that [get_spec] names:
    the calls the constructor makes (an RF bridge publishes its child
    entities, [remote.py]) and the entity, or the exception it ends with.
    A constructor reads the registry and the record and is taken not to
    write them. *)
Variable construct : string -> addr -> memory -> list event * outcome entity.

(** [POW_UI_ACTIVE], from [devices.py]: capability id to refresh interval
    (seconds) and activation params. *)
Variable POW_UI_ACTIVE : list (Z * (Z * pyval)).

(** *** [setup_devices] *)

(** [self.config["devices"][deviceid]] *)
Definition config_device (cfg : pyval) (did : string) : outcome pyval :=
  obind (py_index "devices" cfg) (py_index did).

(** [try: device.update(self.config["devices"][deviceid]) except Exception:
    pass]: the record as the statement leaves it. What [update] bound
    before it raised stays bound. *)
Definition merge_override (cfg : pyval) (did : string) (device : dict)
  : outcome dict :=
  match config_device cfg did with
  | Raise _ => Ok device
  | Ok override =>
      match py_update device override with
      | (_, Raise (Failure what)) => Raise (Failure what)
      | (device', _) => Ok device'
      end
  end.

(** The format [{uiid:04}] of the debug line, evaluated whatever the log
    level: integers and booleans accept it, other objects raise (a string
    does so before Python 3.10, which is what is modelled). *)
Definition format_04 (uiid : pyval) : outcome unit :=
  match uiid with
  | VInt _ | VBool _ => Ok tt
  | VStr _ => Raise ValueError
  | _ => Raise TypeError
  end.

(** [device['extra']['uiid']] *)
Definition device_uiid (device : dict) : outcome pyval :=
  obind (dindex "extra" device) (py_index "uiid").

(** [[cls(self, device) for cls in spec]]: the constructors run in the
    order of [spec]; the first one that raises ends the comprehension. *)
Fixpoint construct_all (spec : list string) (a : addr) : M (list entity) :=
  match spec with
  | [] => ret []
  | cls :: rest =>
      e <- (fun m => let '(tr, r) := construct cls a m in (m, tr, r)) ;;
      es <- construct_all rest a ;;
      ret (e :: es)
  end.

Fixpoint setup_devices (devs : list addr) : M unit :=
  match devs with
  | [] => ret tt
  | a :: rest =>
      device <- load a ;;
      deviceid <- lift (deviceid_of device) ;;
      m <- get ;;
      device <- lift (merge_override (config m) deviceid device) ;;
      store a device ;;
      uiid <- lift (device_uiid device) ;;
      lift (format_04 uiid) ;;
      lift (dindex "params" device) ;;
      spec <- lift (get_spec device) ;;
      entities <- construct_all spec a ;;
      dispatcher_send SIGNAL_ADD_ENTITIES (Entities entities) ;;
      register deviceid a ;;
      setup_devices rest
  end.

(** [setup_devices] called with records that are not yet in the store. *)
Fixpoint alloc_all (records : list dict) : M (list addr) :=
  match records with
  | [] => ret []
  | d :: r =>
      a <- alloc d ;;
      rest <- alloc_all r ;;
      ret (a :: rest)
  end.

Definition setup_records (records : list dict) : M unit :=
  devs <- alloc_all records ;;
  setup_devices devs.

(** *** [local_update] *)

(** The [try] block of the unknown-device branch: the key from the
    persisted configuration, then the decryption. *)
Definition decrypt_with_config (cfg : pyval) (did : string) (msg : dict)
  : outcome pyval :=
  obind (obind (config_device cfg did) (py_index "devicekey")) (decrypt_msg msg).

(** The common handling, from the debug line on. *)
Definition local_common (did : string) (msg : dict) (a : addr) (params : pyval)
  : M unit :=
  has_online <- lift (py_contains "online" params) ;;
  if has_online then
    online <- lift (py_index "online" params) ;;
    if is_None online then emit (CheckOffline a)
    else if is_False online then
      signal <- lift (deviceid_of msg) ;;
      dispatcher_send signal NoArgs
    else ret tt
  else
    device <- load a ;;
    store a (dset "host" (dget_none "host" msg) device) ;;
    dispatcher_send did (Params params).

(** [device = setup_diy(msg); self.setup_devices([device])] and on. *)
Definition local_register (did : string) (msg : dict) (params : pyval) : M unit :=
  record <- lift (setup_diy msg) ;;
  a <- alloc record ;;
  setup_devices [a] ;;
  local_common did msg a params.

Definition local_update (msg : dict) : M unit :=
  did <- lift (deviceid_of msg) ;;
  m <- get ;;
  let params := dget_none "params" msg in
  match known_device m did with
  | None =>
      if negb (truthy params) then
        match decrypt_with_config (config m) did msg with
        | Raise _ =>
            a <- alloc msg ;;
            register did a
        | Ok params =>
            local_register did (dset "params" params msg) params
        end
      else local_register did msg params
  | Some (a, device) =>
      if negb (truthy params) then
        if negb (dmem "devicekey" device) then ret tt
        else
          key <- lift (dindex "devicekey" device) ;;
          match decrypt_msg msg key with
          | Raise _ => ret tt
          | Ok params => local_common did msg a params
          end
      else local_common did msg a params
  end.

(** *** [pow_helper] *)

(** The key [uiid] of a lookup in [POW_UI_ACTIVE]: booleans hash as the
    integers 0 and 1, lists and dicts are unhashable. *)
Definition pow_key (uiid : pyval) : outcome (option Z) :=
  match uiid with
  | VInt n => Ok (Some n)
  | VBool b => Ok (Some (Z_of_bool b))
  | VNone | VStr _ => Ok None
  | VList _ | VDict _ => Raise TypeError
  end.

Fixpoint pow_find (n : Z) (table : list (Z * (Z * pyval))) : option (Z * pyval) :=
  match table with
  | [] => None
  | (k, c) :: r => if (k =? n)%Z then Some c else pow_find n r
  end.

Definition pow_lookup (uiid : pyval) : outcome (option (Z * pyval)) :=
  obind (pow_key uiid) (fun k =>
    Ok (match k with Some n => pow_find n POW_UI_ACTIVE | None => None end)).

(** ["extra" in device and device["extra"]["uiid"] in POW_UI_ACTIVE] *)
Definition pow_eligible (device : dict) : outcome bool :=
  if dmem "extra" device then
    obind (device_uiid device) (fun uiid =>
    obind (pow_lookup uiid) (fun c =>
    Ok (match c with Some _ => true | None => false end)))
  else Ok false.

(** The list comprehension over [self.devices.values()]. *)
Fixpoint pow_devices (h : list dict) (r : list (string * addr))
  : outcome (list addr) :=
  match r with
  | [] => Ok []
  | (_, a) :: r' =>
      match h !! a with
      | None => Raise (Failure "dangling reference")
      | Some device =>
          obind (pow_eligible device) (fun keep =>
          obind (pow_devices h r') (fun rest =>
          Ok (if keep then a :: rest else rest)))
      end
  end.

(** [device.get("pow_ts", 0) > ts] *)
Definition pow_ts_after (device : dict) (ts : Z) : outcome bool :=
  match dget "pow_ts" device with
  | None => Ok (0 >? ts)%Z
  | Some (VInt n) => Ok (n >? ts)%Z
  | Some (VBool b) => Ok (Z_of_bool b >? ts)%Z
  | Some _ => Raise TypeError
  end.

(** [POW_UI_ACTIVE[device["extra"]["uiid"]]] *)
Definition pow_command (device : dict) : outcome (Z * pyval) :=
  obind (device_uiid device) (fun uiid =>
  obind (pow_lookup uiid) (fun c =>
  match c with Some c => Ok c | None => Raise KeyError end)).

(** Where the coroutine is suspended. [devs] is the local variable
    [devices]; [PowSending] is the [await self.cloud.send] of the [for]
    loop, with [ts] and the devices still to visit. *)
Inductive pow_pc : Type :=
| PowNew
| PowSleeping (devs : list addr)
| PowSending (devs : list addr) (ts : Z) (rest : list addr)
| PowDone.

(** The [for] loop, up to its next [await]. *)
Fixpoint pow_for (devs : list addr) (ts : Z) (rest : list addr) : M pow_pc :=
  match rest with
  | [] => emit (Sleep 150) ;; ret (PowSleeping devs)
  | a :: rest' =>
      device <- load a ;;
      online <- lift (dindex "online" device) ;;
      if negb (truthy online) then pow_for devs ts rest'
      else
        later <- lift (pow_ts_after device ts) ;;
        if later then pow_for devs ts rest'
        else
          cmd <- lift (pow_command device) ;;
          store a (dset "pow_ts" (VInt (ts + fst cmd)) device) ;;
          emit (CloudSend a (Some (snd cmd)) None (Some 0%Z)) ;;
          ret (PowSending devs ts rest')
  end.

(** One turn of [while True], with [now] the value of [time.time()]. *)
Definition pow_loop (now : Z) (devs : list addr) : M pow_pc :=
  m <- get ;;
  if negb (cloud_online m) then emit (Sleep 60) ;; ret (PowSleeping devs)
  else pow_for devs now devs.

Definition pow_start (now : Z) : M pow_pc :=
  m <- get ;;
  devs <- lift (pow_devices (heap m) (devices m)) ;;
  match devs with
  | [] => ret PowDone
  | _ => pow_loop now devs
  end.

(** Running the coroutine from where it is suspended to its next [await]
    or to its end. *)
Definition pow_helper (now : Z) (pc : pow_pc) : M pow_pc :=
  match pc with
  | PowNew => pow_start now
  | PowSleeping devs => pow_loop now devs
  | PowSending devs ts rest => pow_for devs ts rest
  | PowDone => ret PowDone
  end.

(** A sweep that nothing interrupts: the coroutine is resumed at once
    after each [await] of the [for] loop, at most [fuel] times. *)
Fixpoint pow_run (fuel : nat) (pc : pow_pc) : M pow_pc :=
  match fuel with
  | O => ret pc
  | S n =>
      match pc with
      | PowSending devs ts rest =>
          pc' <- pow_for devs ts rest ;;
          pow_run n pc'
      | _ => ret pc
      end
  end.

(** Whether the device at [a] is online and due at [ts] in [m]. *)
Definition pow_due (m : memory) (ts : Z) (a : addr) : bool :=
  match heap m !! a with
  | Some device =>
      truthy (dget_none "online" device)
      && match pow_ts_after device ts with Ok false => true | _ => false end
  | None => false
  end.

(** The activation call for the device at [a] in [m]. *)
Definition pow_activation (m : memory) (a : addr) : list event :=
  match heap m !! a with
  | Some device =>
      match pow_command device with
      | Ok cmd => [CloudSend a (Some (snd cmd)) None (Some 0%Z)]
      | Raise _ => []
      end
  | None => []
  end.

(** A record the [for] loop can handle at [ts]: it has [online], a numeric
    or missing [pow_ts], and an activation command. *)
Definition pow_regular (m : memory) (ts : Z) (a : addr) : Prop :=
  exists device online later cmd,
    heap m !! a = Some device
    /\ dget "online" device = Some online
    /\ pow_ts_after device ts = Ok later
    /\ pow_command device = Ok cmd.

(** The value of the local variable [devices] of a suspended coroutine. *)
Definition pc_devices (pc : pow_pc) : option (list addr) :=
  match pc with
  | PowSleeping devs | PowSending devs _ _ => Some devs
  | PowNew | PowDone => None
  end.

(** ** Tasks: [self.task] and the event loop *)

Record task_state : Type := Task { pc : pow_pc; cancelling : bool }.

(** [XRegistry] with the [pow_helper] tasks it has created; [task] is
    [self.task], an index in [tasks]. *)
Record state : Type := State {
  mem : memory;
  task : option nat;
  tasks : list task_state
}.

(** [task.done()] *)
Definition done (t : task_state) : bool :=
  match pc t with PowDone => true | _ => false end.

(** The negation of [not self.task or self.task.done()]. *)
Definition task_running (s : state) : bool :=
  match task s with
  | None => false
  | Some tid =>
      match tasks s !! tid with
      | Some t => negb (done t)
      | None => false
      end
  end.

(** *** [cloud_connected] *)
Definition cloud_connected (s : state) : state * list event :=
  let signals := map (fun kv => DispatcherSend (fst kv) NoArgs) (devices (mem s)) in
  if task_running s then (s, signals)
  else
    let tid := length (tasks s) in
    (State (mem s) (Some tid) (tasks s ++ [Task PowNew false]),
     signals ++ [CreatePowHelper tid]).

(** [task.cancel()]: the request is served when the task next runs. *)
Definition cancel (t : task_state) : task_state :=
  if done t then t else Task (pc t) true.

(** [stop]: the registry is emptied, the transports are stopped and the
    task is cancelled. The handlers of the dispatcher are not part of the
    model. *)
Definition stop (s : state) : state * list event :=
  (State (with_devices [] (mem s)) (task s)
     (match task s with
      | Some tid => alter cancel tid (tasks s)
      | None => tasks s
      end),
   [CloudStop; LocalStop]).

(** The event loop runs task [tid] to its next suspension. *)
Definition run_task (tid : nat) (now : Z) (s : state) : state * list event :=
  match tasks s !! tid with
  | None => (s, [])
  | Some t =>
      if done t then (s, [])
      else if cancelling t then
        (State (mem s) (task s) (<[tid := Task PowDone false]> (tasks s)), [])
      else
        match pow_helper now (pc t) (mem s) with
        | (m, tr, Ok pc') =>
            (State m (task s) (<[tid := Task pc' false]> (tasks s)), tr)
        | (m, tr, Raise _) =>
            (State m (task s) (<[tid := Task PowDone false]> (tasks s)), tr)
        end
  end.

(** A handler run on the memory of a state. *)
Definition handle {A} (c : M A) (s : state) : state :=
  State (fst (fst (c (mem s)))) (task s) (tasks s).

(** What can happen between two suspensions: a handler is called, a task
    runs, or the world changes the configuration and the transports'
    flags. *)
Inductive step : state -> state -> Prop :=
| step_cloud_connected s : step s (fst (cloud_connected s))
| step_cloud_update s msg : step s (handle (cloud_update msg) s)
| step_local_update s msg : step s (handle (local_update msg) s)
| step_setup_devices s records :
    step s (handle (setup_records records) s)
| step_run_task s tid now : step s (fst (run_task tid now s))
| step_stop s : step s (fst (stop s))
| step_world s cfg lo co :
    step s (State (Memory (heap (mem s)) (devices (mem s)) cfg lo co)
              (task s) (tasks s)).

(** The states the registry can be in, from a start state. *)
Inductive reachable (s0 : state) : state -> Prop :=
| reachable_start : reachable s0 s0
| reachable_step s s' : reachable s0 s -> step s s' -> reachable s0 s'.

End Collaborators.

(** [XRegistry(session)] before anything has happened. *)
Definition init (cfg : pyval) : state :=
  State (Memory [] [] cfg false false) None [].

(** The number of [pow_helper] tasks that are not done. *)
Definition running_tasks (s : state) : nat :=
  length (List.filter (fun t => negb (done t)) (tasks s)).

(** Every task that is not done is the one [self.task] refers to. *)
Definition single_task (s : state) : Prop :=
  forall tid t, tasks s !! tid = Some t -> done t = false -> task s = Some tid.

(** The signals published in a trace, in order, with their arguments. *)
Definition published (tr : list event) : list (string * args) :=
  flat_map (fun e =>
    match e with DispatcherSend signal a => [(signal, a)] | _ => [] end) tr.

(** The calls of [self.cloud.send] in a trace, in order. *)
Definition cloud_sends (tr : list event) : list event :=
  List.filter (fun e => match e with CloudSend _ _ _ _ => true | _ => false end) tr.

(** The calls of [self.local.send] in a trace, in order. *)
Definition local_sends (tr : list event) : list event :=
  List.filter (fun e => match e with LocalSend _ _ _ _ => true | _ => false end) tr.

(** The attribute [k] of the record at [a]. *)
Definition field (m : memory) (a : addr) (k : string) : option pyval :=
  match heap m !! a with
  | Some d => dget k d
  | None => None
  end.

End Registry.

(** * The RF bridge ([remote.py]) *)

Module Remote.
Import Py.

(** Exceptions of this file that [XRegistry] does not meet, and inputs
    outside the types the code is written for. *)
Inductive error : Type :=
| StopIteration
| AttributeError
| Python (e : exn)
| IllTyped (what : string).

Inductive result (A : Type) : Type :=
| Val (a : A)
| Err (e : error).
Arguments Val {A} a.
Arguments Err {A} e.

Definition rbind {A B} (r : result A) (k : A -> result B) : result B :=
  match r with Val a => k a | Err e => Err e end.

Definition of_py {A} (r : outcome A) : result A :=
  match r with Ok a => Val a | Raise e => Err (Python e) end.

(** [d.pop(k)], for a key that is there: the dictionary without [k]. *)
Fixpoint dremove (k : string) (d : dict) : dict :=
  match d with
  | [] => []
  | (k', v) :: r =>
      if String.eqb k' k then dremove k r else (k', v) :: dremove k r
  end.

(** [childs]: channel to child, in insertion order. *)
Definition childs_t := list (string * dict).

Fixpoint cget (k : string) (c : childs_t) : option dict :=
  match c with
  | [] => None
  | (k', v) :: r => if String.eqb k' k then Some v else cget k r
  end.

Fixpoint cset (k : string) (v : dict) (c : childs_t) : childs_t :=
  match c with
  | [] => [(k, v)]
  | (k', v') :: r =>
      if String.eqb k' k then (k', v) :: r else (k', v') :: cset k v r
  end.

Fixpoint cremove (k : string) (c : childs_t) : childs_t :=
  match c with
  | [] => []
  | (k', v) :: r =>
      if String.eqb k' k then cremove k r else (k', v) :: cremove k r
  end.

(** [try: yaml = XRegistry.config["rfbridge"] except Exception: yaml = {}] *)
Definition rfbridge_yaml (config : pyval) : pyval :=
  match py_index "rfbridge" config with
  | Ok yaml => yaml
  | Raise _ => VDict []
  end.

(** [next(iter(button))] for a button [{channel: name}]. *)
Definition first_key (button : pyval) : result string :=
  match button with
  | VDict [] => Err StopIteration
  | VDict ((k, _) :: _) => Val k
  | VNone | VBool _ | VInt _ => Err (Python TypeError)
  | VStr _ | VList _ => Err (IllTyped "button is not a mapping")
  end.

(** [name in yaml], for the mapping of the configuration. *)
Definition yaml_has (yaml name : pyval) : result bool :=
  match yaml with
  | VDict y =>
      match name with
      | VStr s => Val (dmem s y)
      | VList _ | VDict _ => Err (Python TypeError)
      | _ => Val false
      end
  | VNone | VBool _ | VInt _ => Err (Python TypeError)
  | VStr _ | VList _ => Err (IllTyped "rfbridge is not a mapping")
  end.

(** [yaml[name]], evaluated after [name in yaml]. *)
Definition yaml_get (yaml name : pyval) : result pyval :=
  match yaml, name with
  | VDict y, VStr s => of_py (dindex s y)
  | _, _ => Err (IllTyped "rfbridge is not a mapping")
  end.

(** [child.update(override)] *)
Definition child_update (child : dict) (override : pyval) : result dict :=
  match override with
  | VDict o => Val (dupdate child o)
  | VNone | VBool _ | VInt _ => Err (Python TypeError)
  | VStr _ | VList _ => Err (IllTyped "override is not a mapping")
  end.

(** [child.get("device_class") == "button" and ("payload_off" in child or
    "timeout" in child)] *)
Definition button_with_state (child : dict) : bool :=
  py_eq (Registry.dget_none "device_class" child) (VStr "button")
  && (dmem "payload_off" child || dmem "timeout" child).

(** The body of the inner loop: the channel of the button, its child, and
    the [payload_off] that goes to [duals]. *)
Definition make_child (yaml remote button : pyval)
  : result (string * dict * option pyval) :=
  rbind (first_key button) (fun channel =>
  rbind (of_py (py_index "remote_type" remote)) (fun remote_type =>
  rbind (if negb (py_eq remote_type (VStr "6"))
         then rbind (of_py (py_index channel button)) (fun name =>
              Val [("name", name); ("device_class", VStr "button")])
         else rbind (of_py (py_index "name" remote)) (fun name =>
              Val [("name", name)])) (fun child =>
  rbind (of_py (dindex "name" child)) (fun name =>
  rbind (yaml_has yaml name) (fun overridden =>
  if overridden then
    rbind (yaml_get yaml name) (fun override =>
    rbind (child_update child override) (fun child =>
    let dual := dget "payload_off" child in
    let child :=
      if button_with_state child then dremove "device_class" child else child in
    Val (channel, dset "channel" (VStr channel) child, dual)))
  else Val (channel, dset "channel" (VStr channel) child, None)))))).

(** [for button in remote["buttonName"]], on the pair of [childs] and
    [duals]. *)
Fixpoint buttons_loop (yaml remote : pyval) (buttons : list pyval)
    (st : childs_t * dict) : result (childs_t * dict) :=
  match buttons with
  | [] => Val st
  | button :: rest =>
      rbind (make_child yaml remote button) (fun r =>
      let '(channel, child, dual) := r in
      let duals :=
        match dual with
        | Some payload_off => dset channel payload_off (snd st)
        | None => snd st
        end in
      buttons_loop yaml remote rest (cset channel child (fst st), duals))
  end.

(** The value iterated by [for button in ...], a list of buttons. *)
Definition as_list (v : pyval) : result (list pyval) :=
  match v with
  | VList l => Val l
  | VNone | VBool _ | VInt _ => Err (Python TypeError)
  | VStr _ | VDict _ => Err (IllTyped "buttonName is not a list")
  end.

(** [for remote in remotes] *)
Fixpoint remotes_loop (yaml : pyval) (remotes : list pyval)
    (st : childs_t * dict) : result (childs_t * dict) :=
  match remotes with
  | [] => Val st
  | remote :: rest =>
      rbind (of_py (py_index "buttonName" remote)) (fun names =>
      rbind (as_list names) (fun buttons =>
      rbind (buttons_loop yaml remote buttons st) (fun st =>
      remotes_loop yaml rest st)))
  end.

(** [next(k for k, v in childs.items() if v["name"] == name)] *)
Fixpoint find_named (name : pyval) (c : childs_t) : result string :=
  match c with
  | [] => Err StopIteration
  | (k, v) :: r =>
      rbind (of_py (dindex "name" v)) (fun n =>
      if py_eq n name then Val k else find_named name r)
  end.

(** [for ch, name in duals.items()]: the child named by a [payload_off]
    goes to the end of [childs] and gets the channel that switches it on. *)
Fixpoint duals_loop (duals : dict) (c : childs_t) : result childs_t :=
  match duals with
  | [] => Val c
  | (ch, name) :: rest =>
      rbind (find_named name c) (fun ch_off =>
      match cget ch_off c with
      | Some child =>
          duals_loop rest
            (cremove ch_off c ++ [(ch_off, dset "channel_on" (VStr ch) child)])
      | None => Err (Python KeyError)
      end)
  end.

Definition rfbridge_childs (config : pyval) (remotes : list pyval)
  : result childs_t :=
  rbind (remotes_loop (rfbridge_yaml config) remotes ([], [])) (fun st =>
  duals_loop (snd st) (fst st)).

(** *** [XRemote.__init__] *)

(** The items of [for x in v]: the elements of a list, the keys of a dict,
    the characters of a string. *)
Definition iterate (v : pyval) : result (list pyval) :=
  match v with
  | VList l => Val l
  | VDict d => Val (map (fun kv => VStr (fst kv)) d)
  | VStr s =>
      Val (map (fun c => VStr (String c EmptyString)) (list_ascii_of_string s))
  | VNone | VBool _ | VInt _ => Err (Python TypeError)
  end.

(** [childs] while [__init__] replaces the dicts of the learned channels by
    entities. *)
Definition values_t := list (string * Registry.child_value).

Fixpoint vget (k : string) (c : values_t) : option Registry.child_value :=
  match c with
  | [] => None
  | (k', v) :: r => if String.eqb k' k then Some v else vget k r
  end.

Fixpoint vset (k : string) (v : Registry.child_value) (c : values_t) : values_t :=
  match c with
  | [] => [(k, v)]
  | (k', v') :: r =>
      if String.eqb k' k then (k', v) :: r else (k', v') :: vset k v r
  end.

(** [childs[child["channel_on"]]], evaluated after ["channel_on" in child]. *)
Definition sensor_of (child : dict) (cur : values_t)
  : result Registry.child_value :=
  match dget "channel_on" child with
  | Some (VStr ch) =>
      match vget ch cur with
      | Some sensor => Val sensor
      | None => Err (Python KeyError)
      end
  | Some (VList _) | Some (VDict _) => Err (Python TypeError)
  | Some _ | None => Err (Python KeyError)
  end.

Section Init.

(** [str(x)], a builtin. *)
Variable str_of : pyval -> string.

(** The classes of the child entities, from [binary_sensor.py] and
    [button.py], by name: [XRemoteSensorOff(child, sensor)],
    [XRemoteButton(ewelink, device, child)] and [XRemoteSensor(ewelink,
    device, child)], with the calls the constructor makes and the entity or
    the exception it ends with. *)
Variable new_child :
  string -> Registry.addr -> Registry.memory -> dict ->
  option Registry.child_value -> list Registry.event * outcome Registry.entity.

(** [XEntity.__init__(self, ewelink, device)], from [core/entity.py]. *)
Variable xentity_init :
  Registry.addr -> Registry.memory -> list Registry.event * outcome unit.

(** The constructors of the handler classes of the other platform files. *)
Variable other_class :
  string -> Registry.addr -> Registry.memory ->
  list Registry.event * outcome Registry.entity.

(** [[str(c["rfChl"]) for c in ...]] *)
Fixpoint learned_channels (items : list pyval) : result (list string) :=
  match items with
  | [] => Val []
  | c :: rest =>
      rbind (of_py (py_index "rfChl" c)) (fun ch =>
      rbind (learned_channels rest) (fun chs =>
      Val (str_of ch :: chs)))
  end.

(** The entity of a learned channel: the branches of the loop body. *)
Definition build_child (a : Registry.addr) (m : Registry.memory)
    (child : dict) (cur : values_t)
  : list Registry.event * result Registry.entity :=
  if dmem "channel_on" child then
    match sensor_of child cur with
    | Err e => ([], Err e)
    | Val sensor =>
        let '(tr, r) := new_child "XRemoteSensorOff" a m child (Some sensor) in
        (tr, of_py r)
    end
  else if py_eq (Registry.dget_none "device_class" child) (VStr "button") then
    let '(tr, r) := new_child "XRemoteButton" a m child None in (tr, of_py r)
  else
    let '(tr, r) := new_child "XRemoteSensor" a m child None in (tr, of_py r).

(** [for ch, child in childs.items()], with [cur] the dict being updated. *)
Fixpoint childs_loop (a : Registry.addr) (m : Registry.memory)
    (channels : list string) (items : childs_t) (cur : values_t)
  : list Registry.event * result values_t :=
  match items with
  | [] => ([], Val cur)
  | (ch, child) :: rest =>
      if negb (existsb (String.eqb ch) channels) then
        childs_loop a m channels rest cur
      else
        match build_child a m child cur with
        | (tr, Err e) => (tr, Err e)
        | (tr, Val e) =>
            let '(tr', r) :=
              childs_loop a m channels rest (vset ch (Registry.BuiltChild e) cur) in
            (tr ++ tr', r)
        end
  end.

(** The [try] block: the learned channels, the childs, their entities, and
    the publication of the values of [childs]. [XRegistry.config] is the
    attribute that [self.config] reads. *)
Definition xremote_setup (a : Registry.addr) (m : Registry.memory)
    (device : dict) : list Registry.event * result unit :=
  match rbind (of_py (Registry.obind (dindex "params" device)
                        (py_index "rfList")))
          (fun rfList => rbind (iterate rfList) learned_channels) with
  | Err e => ([], Err e)
  | Val channels =>
      match rbind (of_py (Registry.obind (dindex "tags" device)
                            (py_index "zyx_info")))
              (fun remotes =>
               rbind (iterate remotes) (rfbridge_childs (Registry.config m))) with
      | Err e => ([], Err e)
      | Val childs =>
          match childs_loop a m channels childs
                  (map (fun kv => (fst kv, Registry.RawChild (snd kv))) childs) with
          | (tr, Err e) => (tr, Err e)
          | (tr, Val cur) =>
              (tr ++ [Registry.DispatcherSend Registry.SIGNAL_ADD_ENTITIES
                        (Registry.ChildValues (map snd cur))],
               Val tt)
          end
      end
  end.

(** [XRemote(ewelink, device)]: [except Exception] swallows what the [try]
    block raises, then the entity is initialised. An input outside the
    types of [rfbridge_childs] ends the model. *)
Definition xremote_init (a : Registry.addr) (m : Registry.memory)
  : list Registry.event * outcome Registry.entity :=
  match Registry.heap m !! a with
  | None => ([], Raise (Failure "dangling reference"))
  | Some device =>
      match xremote_setup a m device with
      | (tr, Err (IllTyped what)) => (tr, Raise (Failure what))
      | (tr, _) =>
          match xentity_init a m with
          | (tr', Ok _) => (tr ++ tr', Ok (Registry.Entity "XRemote" a))
          | (tr', Raise e) => (tr ++ tr', Raise e)
          end
      end
  end.

(** [cls(self, device)] for the classes that [get_spec] names. *)
Definition construct (cls : string) (a : Registry.addr) (m : Registry.memory)
  : list Registry.event * outcome Registry.entity :=
  if String.eqb cls "XRemote" then xremote_init a m else other_class cls a m.

End Init.

(** *** [XRemote.set_state] *)

(** A value of [self.childs] as [__init__] leaves it: an entity built for
    a learned channel, with its attributes [channel] and [name], or the
    dict of a channel that was not learned. *)
Inductive child : Type :=
| ChildEntity (channel name : pyval)
| ChildDict (d : dict).

(** The attributes of the bridge that [set_state] uses; [childs] is [None]
    when [__init__] could not set the bridge up. *)
Record xremote : Type := XRemote {
  is_on : bool;
  ts : pyval;
  childs : option (list (string * child));
  attributes : option dict;
  entity_id : pyval
}.

Definition with_ts (v : pyval) (x : xremote) : xremote :=
  XRemote (is_on x) v (childs x) (attributes x) (entity_id x).
Definition with_attributes (data : dict) (x : xremote) : xremote :=
  XRemote (is_on x) (ts x) (childs x) (Some data) (entity_id x).

(** [child.internal_update(ts)] for the child under [key], and
    [self.hass.bus.async_fire(event_type, data)]. *)
Inductive action : Type :=
| InternalUpdate (key : string) (ts : pyval)
| BusFire (event_type : string) (data : dict).

Fixpoint child_get (k : string) (c : list (string * child)) : option child :=
  match c with
  | [] => None
  | (k', v) :: r => if String.eqb k' k then Some v else child_get k r
  end.

(** [param.startswith("rfTrig")] and [param[6:]] *)
Definition is_trigger (param : string) : bool := String.prefix "rfTrig" param.
Definition trigger_channel (param : string) : string :=
  String.substring 6 (String.length param - 6) param.

Section SetState.

(** [int(s)] for a string, a builtin. *)
Variable int_of_str : string -> option Z.

(** [int(child.channel)] *)
Definition py_int (v : pyval) : result Z :=
  match v with
  | VInt n => Val n
  | VBool b => Val (Z_of_bool b)
  | VStr s =>
      match int_of_str s with
      | Some n => Val n
      | None => Err (Python ValueError)
      end
  | VNone | VList _ | VDict _ => Err (Python TypeError)
  end.

(** [for param, ts in params.items()] *)
Fixpoint set_state_loop (params items : dict) (x : xremote)
  : xremote * list action * result unit :=
  match items with
  | [] => (x, [], Val tt)
  | (param, t) :: rest =>
      if negb (is_trigger param) then set_state_loop params rest x
      else if is_None (ts x) && truthy (Registry.dget_none "arming" params)
      then (with_ts t x, [], Val tt)
      else if py_eq t (ts x) then (x, [], Val tt)
      else
        let x := with_ts t x in
        match childs x with
        | None => (x, [], Err AttributeError)
        | Some cs =>
            match child_get (trigger_channel param) cs with
            | None | Some (ChildDict []) => (x, [], Val tt)
            | Some (ChildDict (_ :: _)) => (x, [], Err AttributeError)
            | Some (ChildEntity channel name) =>
                let update := InternalUpdate (trigger_channel param) t in
                match py_int channel with
                | Err e => (x, [update], Err e)
                | Val command =>
                    let data :=
                      [("command", VInt command); ("name", name);
                       ("entity_id", entity_id x); ("ts", t)] in
                    let '(x', tr, r) :=
                      set_state_loop params rest (with_attributes data x) in
                    (x', update :: BusFire "sonoff.remote" data :: tr, r)
                end
            end
        end
  end.

Definition set_state (params : dict) (x : xremote)
  : xremote * list action * result unit :=
  if negb (is_on x) || dmem "init" params then (x, [], Val tt)
  else set_state_loop params params x.

End SetState.

End Remote.

(** ** Sample data *)

Module Sample.
Import Py Registry.

Definition switch_on : dict := [("switch", VStr "on")].

(** A cloud message with telemetry and no [online] field. *)
Definition cloud_msg : dict :=
  [("deviceid", VStr "A1"); ("params", VDict switch_on)].

(** A record that has not heard from the cloud: no [online] attribute. *)
Definition unset_record : dict := [("deviceid", VStr "A1")].
Definition unset_memory : memory :=
  Memory [unset_record] [("A1", 0)] VNone true true.

(** A record the cloud reported offline. *)
Definition offline_record : dict :=
  [("deviceid", VStr "A1"); ("online", VBool false)].
Definition offline_memory : memory :=
  Memory [offline_record] [("A1", 0)] VNone true true.

(** A record reachable on both transports. *)
Definition online_record : dict :=
  [("deviceid", VStr "A1"); ("online", VBool true); ("host", VStr "10.0.0.7")].
Definition online_memory : memory :=
  Memory [online_record] [("A1", 0)] VNone true true.

(** Collaborators for the examples: a cipher that accepts one key, a DIY
    factory that adds the capability id 1, one handler class per device and
    one power-metering capability. *)
Definition decrypt_msg (msg : dict) (key : pyval) : outcome pyval :=
  if py_eq key (VStr "k1") then Ok (VDict switch_on) else Raise ValueError.
Definition setup_diy (msg : dict) : outcome dict :=
  Ok (dset "extra" (VDict [("uiid", VInt 1)]) msg).
Definition get_spec (device : dict) : outcome (list string) := Ok ["XSwitch"].

(** Constructors for the examples: child entities and handler classes that
    make no call, and the RF bridge of [remote.py]. The text of a list or
    of a dict is not spelled out. *)
Definition str_of (v : pyval) : string :=
  match v with
  | VStr s => s
  | VInt n => NilZero.string_of_int (Z.to_int n)
  | VBool true => "True"
  | VBool false => "False"
  | VNone => "None"
  | VList _ | VDict _ => "..."
  end.
Definition plain_child (cls : string) (a : addr) (m : memory) (child : dict)
    (sensor : option child_value) : list event * outcome entity :=
  ([], Ok (Entity cls a)).
Definition plain_init (a : addr) (m : memory) : list event * outcome unit :=
  ([], Ok tt).
Definition plain_class (cls : string) (a : addr) (m : memory)
  : list event * outcome entity :=
  ([], Ok (Entity cls a)).
Definition construct : string -> addr -> memory -> list event * outcome entity :=
  Remote.construct str_of plain_child plain_init plain_class.
Definition POW_UI_ACTIVE : list (Z * (Z * pyval)) :=
  [(32%Z, (3600%Z, VDict [("uiActive", VInt 7200)]))].

(** An encrypted local broadcast of a device the registry does not know. *)
Definition broadcast : dict :=
  [("deviceid", VStr "B2"); ("host", VStr "10.0.0.9")].

(** A configuration with the key of that device. *)
Definition keyed_config : pyval :=
  VDict [("devices", VDict [("B2", VDict [("devicekey", VStr "k1")])])].

(** An RF bridge found on the local network, with no remote and no learned
    channel yet: the configuration has its key and its remotes, the cipher
    gives its params, and its handler class is [XRemote]. *)
Definition bridge_override : dict :=
  [("devicekey", VStr "k1"); ("tags", VDict [("zyx_info", VList [])])].
Definition bridge_config : pyval :=
  VDict [("devices", VDict [("B2", VDict bridge_override)])].
Definition bridge_memory : memory :=
  Memory [online_record] [("A1", 0)] bridge_config true true.
Definition bridge_params : dict := [("rfList", VList [])].
Definition bridge_decrypt (msg : dict) (key : pyval) : outcome pyval :=
  if py_eq key (VStr "k1") then Ok (VDict bridge_params) else Raise ValueError.
Definition bridge_diy (msg : dict) : outcome dict :=
  Ok (dset "extra" (VDict [("uiid", VInt 28)]) msg).
Definition bridge_spec (device : dict) : outcome (list string) := Ok ["XRemote"].
Definition bridge_record : dict :=
  dupdate (dset "extra" (VDict [("uiid", VInt 28)])
             (dset "params" (VDict bridge_params) broadcast))
    bridge_override.

(** A local message that carries a connectivity flag. *)
Definition online_msg (v : pyval) : dict :=
  [("deviceid", VStr "A1"); ("host", VStr "10.0.0.7");
   ("params", VDict [("online", v)])].

Definition keyed_memory : memory :=
  Memory [online_record] [("A1", 0)] keyed_config true true.

(** A configuration whose key for that device is not the right one. *)
Definition wrong_key_config : pyval :=
  VDict [("devices", VDict [("B2", VDict [("devicekey", VStr "k0")])])].
Definition wrong_key_memory : memory :=
  Memory [online_record] [("A1", 0)] wrong_key_config true true.

(** Two power-metering devices, the second one offline. *)
Definition pow_record (did : string) (online : bool) : dict :=
  [("deviceid", VStr did); ("online", VBool online);
   ("extra", VDict [("uiid", VInt 32)])].
Definition pow_memory : memory :=
  Memory [pow_record "P1" true; pow_record "P2" false]
    [("P1", 0); ("P2", 1)] VNone true true.

(** A registry with the placeholder of an undecrypted device and three
    power-metering devices: one that is online and not yet due, one that
    has not heard from the cloud (no [online]), one that is online and
    due. *)
Definition silent_pow_record : dict :=
  [("deviceid", VStr "P1"); ("extra", VDict [("uiid", VInt 32)])].
Definition starved_memory : memory :=
  Memory [[("deviceid", VStr "B2"); ("host", VStr "10.0.0.9")];
          dset "pow_ts" (VInt 4600) (pow_record "P0" true);
          silent_pow_record;
          pow_record "P2" true]
    [("B2", 0); ("P0", 1); ("P1", 2); ("P2", 3)] VNone true true.

(** The same registry when the second device is offline instead. *)
Definition offline_pow_memory : memory :=
  Memory [[("deviceid", VStr "B2"); ("host", VStr "10.0.0.9")];
          dset "pow_ts" (VInt 4600) (pow_record "P0" true);
          pow_record "P1" false;
          pow_record "P2" true]
    [("B2", 0); ("P0", 1); ("P1", 2); ("P2", 3)] VNone true true.

(** A record with the key of its device, and an encrypted message for it. *)
Definition keyed_record : dict :=
  [("deviceid", VStr "A1"); ("devicekey", VStr "k1")].
Definition keyed_record_memory : memory :=
  Memory [keyed_record] [("A1", 0)] VNone true true.
Definition encrypted_msg : dict :=
  [("deviceid", VStr "A1"); ("host", VStr "10.0.0.7")].

(** A plaintext telemetry message. *)
Definition telemetry_msg : dict :=
  [("deviceid", VStr "A1"); ("host", VStr "10.0.0.8");
   ("params", VDict switch_on)].

(** A record as the cloud lists it, a configuration that renames it, and
    a record that lacks [extra]. *)
Definition cloud_record : dict :=
  [("deviceid", VStr "A1"); ("name", VStr "Lamp"); ("online", VBool true);
   ("extra", VDict [("uiid", VInt 1)]); ("params", VDict switch_on)].
Definition rename_override : dict := [("name", VStr "Desk")].
Definition rename_config : pyval :=
  VDict [("devices", VDict [("A1", VDict rename_override)])].
Definition bare_record : dict :=
  [("deviceid", VStr "C3"); ("params", VDict switch_on)].
Definition fresh_memory (cfg : pyval) : memory :=
  Memory [cloud_record; bare_record] [] cfg true true.

(** The same renaming written as a list of pairs. *)
Definition pairs_config : pyval :=
  VDict [("devices", VDict [("A1", VList [VList [VStr "name"; VStr "Desk"]])])].

(** An RF bridge as the cloud lists it, with one remote of one button on
    the learned channel 0. *)
Definition learned_params : dict :=
  [("rfList", VList [VDict [("rfChl", VInt 0); ("rfVal", VStr "2EE0")]])].
Definition cloud_bridge : dict :=
  [("deviceid", VStr "A1"); ("name", VStr "Bridge"); ("online", VBool true);
   ("extra", VDict [("uiid", VInt 28)]); ("params", VDict learned_params);
   ("tags",
    VDict [("zyx_info",
            VList [VDict [("remote_type", VStr "4"); ("name", VStr "Remote");
                          ("buttonName",
                           VList [VDict [("0", VStr "Button1")]])]])])].
Definition cloud_bridge_memory (cfg : pyval) : memory :=
  Memory [cloud_bridge] [] cfg true true.

(** A remote with two buttons and an alarm, a configuration that turns
    the first button into a door sensor switched off by the second, and a
    configuration whose [payload_off] names no button. *)
Definition rf_remotes : list pyval :=
  [VDict [("remote_type", VStr "4"); ("name", VStr "Remote");
          ("buttonName",
           VList [VDict [("0", VStr "Button1")]; VDict [("1", VStr "Button2")]])];
   VDict [("remote_type", VStr "6"); ("name", VStr "Alarm1");
          ("buttonName", VList [VDict [("2", VStr "x")]])]].
Definition rf_config : pyval :=
  VDict [("rfbridge",
          VDict [("Button1",
                  VDict [("name", VStr "Door"); ("device_class", VStr "door");
                         ("payload_off", VStr "Button2")]);
                 ("Alarm1", VDict [("timeout", VInt 5)])])].
Definition rf_childs : Remote.childs_t :=
  [("0", [("name", VStr "Door"); ("device_class", VStr "door");
          ("payload_off", VStr "Button2"); ("channel", VStr "0")]);
   ("2", [("name", VStr "Alarm1"); ("timeout", VInt 5); ("channel", VStr "2")]);
   ("1", [("name", VStr "Button2"); ("device_class", VStr "button");
          ("channel", VStr "1"); ("channel_on", VStr "0")])].
Definition rf_plain_childs : Remote.childs_t :=
  [("0", [("name", VStr "Button1"); ("device_class", VStr "button");
          ("channel", VStr "0")]);
   ("1", [("name", VStr "Button2"); ("device_class", VStr "button");
          ("channel", VStr "1")]);
   ("2", [("name", VStr "Alarm1"); ("channel", VStr "2")])].
Definition rf_typo_config : pyval :=
  VDict [("rfbridge", VDict [("Button1", VDict [("payload_off", VStr "Nope")])])].
Definition rf_typo_childs : Remote.childs_t :=
  [("0", [("name", VStr "Button1"); ("payload_off", VStr "Nope");
          ("channel", VStr "0")]);
   ("1", [("name", VStr "Button2"); ("device_class", VStr "button");
          ("channel", VStr "1")]);
   ("2", [("name", VStr "Alarm1"); ("channel", VStr "2")])].

(** A bridge with one learned button, the LAN and the cloud copy of a
    trigger of that button, and a reader of channel numbers. *)
Definition bridge : Remote.xremote :=
  Remote.XRemote true VNone
    (Some [("0", Remote.ChildEntity (VStr "0") (VStr "Button1"))])
    None (VStr "remote.bridge").
Definition trigger_time : pyval := VStr "2022-05-01T10:00:00.000Z".
Definition lan_trigger : dict :=
  [("arming", VBool true); ("rfTrig0", trigger_time)].
Definition cloud_trigger : dict := [("rfTrig0", trigger_time)].
Definition int_of_str (s : string) : option Z :=
  if String.eqb s "0" then Some 0%Z else None.

End Sample.

(** ** Predicates on handlers *)

Module Frame.
Import Py Registry.

(** A computation that removes no device id from the registry. *)
Definition keeps_ids {A} (c : M A) : Prop :=
  forall m k,
    is_Some (lookup_device k (devices m)) ->
    is_Some (lookup_device k (devices (fst (fst (c m))))).

(** The constructors of the classes of [spec] all return, for the record
    at [a] in [m]: the calls they make, in order, and their entities. *)
Inductive constructed
    (construct : string -> addr -> memory -> list event * outcome entity)
    (a : addr) (m : memory) : list string -> list event -> list entity -> Prop :=
| constructed_nil : constructed construct a m [] [] []
| constructed_cons cls spec tr e trs es :
    construct cls a m = (tr, Ok e) ->
    constructed construct a m spec trs es ->
    constructed construct a m (cls :: spec) (tr ++ trs) (e :: es).

(** A record whose [extra], when it has one, is a dict with an integer
    capability id. *)
Definition plain (h : list dict) (a : addr) : Prop :=
  exists device,
    h !! a = Some device
    /\ (dget "extra" device = None
        \/ exists extra n,
             dget "extra" device = Some (VDict extra)
             /\ dget "uiid" extra = Some (VInt n)).

(** Whether the record at [a] has a capability id that [table] lists. *)
Definition activates (table : list (Z * (Z * pyval))) (h : list dict) (a : addr)
  : bool :=
  match h !! a with
  | Some device =>
      match dget "extra" device with
      | Some (VDict extra) =>
          match dget "uiid" extra with
          | Some (VInt n) => existsb (fun kc => (fst kc =? n)%Z) table
          | _ => false
          end
      | _ => false
      end
  | None => false
  end.

(** A record that a sweep at [ts] passes over: it is offline, or its
    [pow_ts] is later than [ts]. *)
Definition passed_over (m : memory) (ts : Z) (a : addr) : Prop :=
  exists device online,
    heap m !! a = Some device
    /\ dget "online" device = Some online
    /\ (truthy online = false
        \/ exists n, dget "pow_ts" device = Some (VInt n) /\ (ts < n)%Z).

(** A result of [config["devices"][deviceid]] that [dict.update] takes
    nothing from: an exception, [None], a boolean, a number or a string. *)
Definition unusable (r : outcome pyval) : Prop :=
  match r with
  | Ok (VDict _) | Ok (VList _) => False
  | _ => True
  end.

(** The publications of ["add_entities"] in a trace, in order. *)
Definition added (tr : list event) : list (string * args) :=
  List.filter (fun s => String.eqb (fst s) SIGNAL_ADD_ENTITIES) (published tr).

(** The channels of [childs] are distinct and every child has the
    property [P] under its channel. *)
Definition all_childs (P : string -> dict -> Prop) (c : Remote.childs_t) : Prop :=
  List.NoDup (map fst c) /\ forall ch child, In (ch, child) c -> P ch child.

(** The items of [params] that [set_state] takes for triggers. *)
Definition triggers (params : dict) : dict :=
  List.filter (fun kv => Remote.is_trigger (fst kv)) params.

End Frame.

Import Py Registry.
Local Open Scope reg_scope.

(** * Properties *)

(** ** Equality of values *)

Lemma py_eq_dict d1 d2 :
  py_eq (VDict d1) (VDict d2) =
  forallb (fun kv => dict_agree d1 d2 (fst kv)) d1
  && forallb (fun kw => dmem (fst kw) d1) d2.
Proof.
  cbn [py_eq]. f_equal.
  match goal with
  | |- ?f d1 = _ =>
      enough (H : forall e, f e = forallb (fun kv => dict_agree d1 d2 (fst kv)) e)
        by apply H
  end.
  induction e as [|[k v0] e IH]; [reflexivity|].
  cbn [forallb fst]. rewrite <- IH. f_equal.
  unfold dict_agree. clear.
  induction d1 as [|[k1 v] r1 IH1]; [reflexivity|].
  cbn [dget]. destruct (String.eqb k1 k); [|exact IH1].
  clear. induction d2 as [|[k2 w] r2 IH2]; [reflexivity|].
  cbn [dget]. destruct (String.eqb k2 k); [reflexivity|exact IH2].
Qed.

Lemma py_eq_list_cons a r1 b r2 :
  py_eq (VList (a :: r1)) (VList (b :: r2)) =
  py_eq a b && py_eq (VList r1) (VList r2).
Proof. reflexivity. Qed.

Lemma dget_In k v (d : dict) : dget k d = Some v -> In (k, v) d.
Proof.
  induction d as [|[k' v'] r IH]; cbn [dget]; [discriminate|].
  destruct (String.eqb k' k) eqn:E.
  - intros [= ->]. apply String.eqb_eq in E. subst. now left.
  - intros H. right. now apply IH.
Qed.

Lemma In_dmem k v (d : dict) : In (k, v) d -> dmem k d = true.
Proof.
  unfold dmem. induction d as [|[k' v'] r IH]; cbn [dget In]; [tauto|].
  intros [[= -> ->]|H].
  - now rewrite String.eqb_refl.
  - destruct (String.eqb k' k); [reflexivity|]. now apply IH.
Qed.

(** [x == x] holds for every value of the model. *)
Lemma py_eq_refl : forall x, py_eq x x = true.
Proof.
  induction x as [| b | n | s | l IH | d IH] using pyval_nested_ind.
  - reflexivity.
  - destruct b; reflexivity.
  - apply Z.eqb_refl.
  - apply String.eqb_refl.
  - induction IH as [|a r Ha _ IHr]; [reflexivity|].
    rewrite py_eq_list_cons, Ha. exact IHr.
  - rewrite py_eq_dict. apply andb_true_intro. split.
    + apply forallb_forall. intros [k v] Hin. cbn [fst].
      unfold dict_agree.
      pose proof (In_dmem _ _ _ Hin) as Hm. unfold dmem in Hm.
      destruct (dget k d) as [v1|] eqn:E; [|discriminate].
      apply dget_In in E.
      rewrite List.Forall_forall in IH. exact (IH _ E).
    + apply forallb_forall. intros [k v] Hin. cbn [fst].
      exact (In_dmem _ _ _ Hin).
Qed.

(** ** Lookups in records and in the registry *)

Lemma dget_dset_eq k v (d : dict) : dget k (dset k v d) = Some v.
Proof.
  induction d as [|[k' v'] r IH]; cbn [dset dget].
  - now rewrite String.eqb_refl.
  - destruct (String.eqb k' k) eqn:E; cbn [dget]; rewrite E; [reflexivity|exact IH].
Qed.

Lemma dget_dset_ne k k' v (d : dict) :
  k <> k' -> dget k' (dset k v d) = dget k' d.
Proof.
  intros Hne. induction d as [|[k0 v0] r IH]; cbn [dset dget].
  - destruct (String.eqb k k') eqn:E; [|reflexivity].
    apply String.eqb_eq in E. contradiction.
  - destruct (String.eqb k0 k) eqn:E; cbn [dget].
    + apply String.eqb_eq in E. subst k0.
      destruct (String.eqb k k') eqn:E'; [|reflexivity].
      apply String.eqb_eq in E'. contradiction.
    + destruct (String.eqb k0 k'); [reflexivity|exact IH].
Qed.

Lemma dget_truthy k v (d : dict) : dget k d = Some v -> truthy (VDict d) = true.
Proof. destruct d; [discriminate|reflexivity]. Qed.

Lemma store_device_new did a (r : list (string * addr)) :
  lookup_device did r = None -> store_device did a r = r ++ [(did, a)].
Proof.
  induction r as [|[k b] r IH]; cbn [lookup_device store_device]; [reflexivity|].
  destruct (String.eqb k did); [discriminate|].
  intros H. cbn [app]. now rewrite IH.
Qed.

Lemma lookup_device_new did a (r : list (string * addr)) :
  lookup_device did r = None -> lookup_device did (r ++ [(did, a)]) = Some a.
Proof.
  induction r as [|[k b] r IH]; cbn [lookup_device app].
  - now rewrite String.eqb_refl.
  - destruct (String.eqb k did); [discriminate|exact IH].
Qed.

(** Projections of an updated memory. *)
Lemma heap_with_heap h m : heap (with_heap h m) = h.
Proof. reflexivity. Qed.
Lemma devices_with_heap h m : devices (with_heap h m) = devices m.
Proof. reflexivity. Qed.
Lemma config_with_heap h m : config (with_heap h m) = config m.
Proof. reflexivity. Qed.
Lemma heap_with_devices r m : heap (with_devices r m) = heap m.
Proof. reflexivity. Qed.
Lemma devices_with_devices r m : devices (with_devices r m) = r.
Proof. reflexivity. Qed.
Lemma config_with_devices r m : config (with_devices r m) = config m.
Proof. reflexivity. Qed.
Lemma with_heap_with_heap h h' m : with_heap h (with_heap h' m) = with_heap h m.
Proof. reflexivity. Qed.
Lemma with_devices_with_heap r h m :
  with_devices r (with_heap h m)
  = Memory h r (config m) (local_online m) (cloud_online m).
Proof. reflexivity. Qed.

Create Rewrite HintDb memory.
#[local] Hint Rewrite heap_with_heap devices_with_heap config_with_heap
  heap_with_devices devices_with_devices config_with_devices
  with_heap_with_heap with_devices_with_heap : memory.

Lemma known_device_intro (m : memory) did a d :
  lookup_device did (devices m) = Some a ->
  heap m !! a = Some d ->
  truthy (VDict d) = true ->
  known_device m did = Some (a, d).
Proof. intros H1 H2 H3. unfold known_device. now rewrite H1, H2, H3. Qed.

Lemma known_device_absent (m : memory) did :
  lookup_device did (devices m) = None -> known_device m did = None.
Proof. intros H. unfold known_device. now rewrite H. Qed.

Lemma deviceid_of_intro (msg : dict) did :
  dget "deviceid" msg = Some (VStr did) -> deviceid_of msg = Ok did.
Proof. intros H. unfold deviceid_of, dindex. now rewrite H. Qed.

(** Unfolding the plumbing of a handler. *)
Ltac run :=
  cbv beta iota delta
    [bind ret raise lift get emit load store alloc register dispatcher_send obind];
  cbn [fst snd app].

(** ** Cloud update reconciliation *)

(** C4. A cloud update whose [online] equals the stored [online] is dropped:
    the memory is unchanged and nothing is published. *)
Theorem cloud_update_same_online
    (m : memory) (msg : dict) (did : string) (a : addr)
    (device params : dict) (x : pyval) :
  dget "deviceid" msg = Some (VStr did) ->
  lookup_device did (devices m) = Some a ->
  heap m !! a = Some device ->
  dget "online" device = Some x ->
  dget "params" msg = Some (VDict params) ->
  dget "online" params = Some x ->
  cloud_update msg m = (m, [], Ok tt).
Proof.
  intros Hid Hreg Hheap Hcur Hparams Hnew.
  unfold cloud_update. run.
  rewrite (deviceid_of_intro _ _ Hid).
  rewrite (known_device_intro _ _ _ _ Hreg Hheap (dget_truthy _ _ _ Hcur)).
  unfold dindex, py_contains, py_index, dindex, dmem.
  rewrite Hparams, Hnew, Hcur, py_eq_refl. reflexivity.
Qed.

Lemma cloud_update_same_online_witness :
  cloud_update
    [("deviceid", VStr "A1"); ("params", VDict [("online", VBool false)])]
    Sample.offline_memory
  = (Sample.offline_memory, [], Ok tt).
Proof.
  apply (cloud_update_same_online _ _ "A1" 0 Sample.offline_record
           [("online", VBool false)] (VBool false)); reflexivity.
Defined.




(** A stored [None] is not [False] either: the update is published and
    [online] stays [None]. *)
Example cloud_update_none_online :
  let m := Memory [[("deviceid", VStr "A1"); ("online", VNone)]] [("A1", 0)]
             VNone true true in
  cloud_update Sample.cloud_msg m
  = (m, [DispatcherSend "A1" (Params (VDict Sample.switch_on))], Ok tt).
Proof. reflexivity. Qed.

(** ** Command dispatch *)

(** C3. With both transports available and a local send that does not
    answer ['online'], [send] makes one cloud send with the full params,
    and queries the cloud state (no params, timeout 0) exactly when
    [query_cloud] is set and that cloud send answered ['online']. *)
Theorem send_falls_back_to_cloud
    (m : memory) (device : addr) (d : dict) (params params_lan : pyval)
    (query_cloud : bool) (seq : string) (ok_local ok_cloud : pyval) :
  heap m !! device = Some d ->
  local_online m = true -> truthy (dget_none "host" d) = true ->
  cloud_online m = true -> truthy (dget_none "online" d) = true ->
  py_eq ok_local (VStr "online") = false ->
  let full := CloudSend device (Some params) (Some seq) None in
  let query := CloudSend device None None (Some 0%Z) in
  let asked := py_eq ok_cloud (VStr "online") && query_cloud in
  exists tr,
    send device params params_lan query_cloud seq ok_local ok_cloud m
    = (m, tr, Ok tt)
    /\ local_sends tr = [LocalSend device (py_or params_lan params) seq 1]
    /\ cloud_sends tr = full :: (if asked then [query] else [])
    /\ (In query tr <-> query_cloud = true /\ py_eq ok_cloud (VStr "online") = true).
Proof.
  intros Hd Hl Hh Hc Ho Hno full query asked.
  unfold send. run. rewrite Hd, Hl, Hh, Hc, Ho, Hno. cbn [andb negb].
  subst asked.
  destruct (py_eq ok_cloud (VStr "online")), query_cloud; cbn [andb negb];
    eexists; (split; [reflexivity|]); cbn; (split; [reflexivity|]);
    (split; [reflexivity|]); subst full query;
    split; try (intros [? ?]; discriminate); try tauto;
    intros [H|[H|H]]; try discriminate H; try destruct H as [H|H];
    try discriminate H; try tauto.
Qed.

Lemma send_falls_back_to_cloud_witness :
  exists tr,
    send 0 (VDict Sample.switch_on) VNone true "1700000000000"
      (VStr "timeout") (VStr "online") Sample.online_memory
    = (Sample.online_memory, tr, Ok tt)
    /\ local_sends tr = [LocalSend 0 (VDict Sample.switch_on) "1700000000000" 1]
    /\ cloud_sends tr =
         [CloudSend 0 (Some (VDict Sample.switch_on)) (Some "1700000000000") None;
          CloudSend 0 None None (Some 0%Z)]
    /\ (In (CloudSend 0 None None (Some 0%Z)) tr
        <-> true = true /\ py_eq (VStr "online") (VStr "online") = true).
Proof.
  apply (send_falls_back_to_cloud Sample.online_memory 0 Sample.online_record
           (VDict Sample.switch_on) VNone true "1700000000000"
           (VStr "timeout") (VStr "online")); reflexivity.
Defined.

(** C8. With neither transport available [send] returns without calling a
    transport and without raising. *)
Theorem send_without_transport
    (m : memory) (device : addr) (d : dict) (params params_lan : pyval)
    (query_cloud : bool) (seq : string) (ok_local ok_cloud : pyval) :
  heap m !! device = Some d ->
  local_online m && truthy (dget_none "host" d) = false ->
  cloud_online m && truthy (dget_none "online" d) = false ->
  send device params params_lan query_cloud seq ok_local ok_cloud m
  = (m, [], Ok tt).
Proof.
  intros Hd Hl Hc. unfold send. run. rewrite Hd, Hl, Hc. reflexivity.
Qed.

Lemma send_without_transport_witness :
  send 0 (VDict Sample.switch_on) VNone true "1700000000000"
    (VStr "online") (VStr "online")
    (Memory [Sample.unset_record] [("A1", 0)] VNone true false)
  = (Memory [Sample.unset_record] [("A1", 0)] VNone true false, [], Ok tt).
Proof.
  apply (send_without_transport _ 0 Sample.unset_record); reflexivity.
Defined.

(** ** Local update reconciliation *)

Section LocalUpdate.

Variable decrypt_msg : dict -> pyval -> outcome pyval.
Variable setup_diy : dict -> outcome dict.
Variable get_spec : dict -> outcome (list string).
Variable construct : string -> addr -> memory -> list event * outcome entity.

Local Abbreviation local_update :=
  (Registry.local_update decrypt_msg setup_diy get_spec construct).

(** A local message with an [online] flag for a known device: what the
    flag decides, all cases together. *)
Lemma local_update_online_flag
    (m : memory) (msg : dict) (did : string) (a : addr)
    (device params : dict) (v : pyval) :
  dget "deviceid" msg = Some (VStr did) ->
  lookup_device did (devices m) = Some a ->
  heap m !! a = Some device ->
  truthy (VDict device) = true ->
  dget "params" msg = Some (VDict params) ->
  dget "online" params = Some v ->
  local_update msg m
  = (m,
     if is_None v then [CheckOffline a]
     else if is_False v then [DispatcherSend did NoArgs]
     else [],
     Ok tt).
Proof.
  intros Hid Hreg Hheap Hdev Hparams Hv.
  unfold Registry.local_update. run.
  rewrite (deviceid_of_intro _ _ Hid).
  rewrite (known_device_intro _ _ _ _ Hreg Hheap Hdev).
  unfold dget_none at 1. rewrite Hparams.
  rewrite (dget_truthy _ _ _ Hv). cbn [negb].
  unfold local_common. run.
  unfold dget_none, py_contains, py_index, dindex, dmem.
  rewrite Hparams, Hv.
  destruct (is_None v); [reflexivity|].
  destruct (is_False v); [|reflexivity].
  rewrite (deviceid_of_intro _ _ Hid). reflexivity.
Qed.

(** C5. For a known device, a local message whose params hold [online]
    schedules the offline probe when the value is [None] and publishes the
    device signal without arguments when it is [False]; either way the
    record is left as it was (no [host]) and no params are published. *)
Theorem local_update_connectivity
    (m : memory) (msg : dict) (did : string) (a : addr)
    (device params : dict) (v : pyval) :
  dget "deviceid" msg = Some (VStr did) ->
  lookup_device did (devices m) = Some a ->
  heap m !! a = Some device ->
  truthy (VDict device) = true ->
  dget "params" msg = Some (VDict params) ->
  dget "online" params = Some v ->
  (v = VNone -> local_update msg m = (m, [CheckOffline a], Ok tt))
  /\ (v = VBool false ->
      local_update msg m = (m, [DispatcherSend did NoArgs], Ok tt)).
Proof.
  intros Hid Hreg Hheap Hdev Hparams Hv.
  pose proof (local_update_online_flag m msg did a device params v
                Hid Hreg Hheap Hdev Hparams Hv) as H.
  split; intros ->; exact H.
Qed.

(** C10. For a known device, a local message whose [online] is neither
    [None] nor [False] changes nothing: no record is written, no probe is
    scheduled and nothing is published. *)
Theorem local_update_online_true
    (m : memory) (msg : dict) (did : string) (a : addr)
    (device params : dict) (v : pyval) :
  dget "deviceid" msg = Some (VStr did) ->
  lookup_device did (devices m) = Some a ->
  heap m !! a = Some device ->
  truthy (VDict device) = true ->
  dget "params" msg = Some (VDict params) ->
  dget "online" params = Some v ->
  v <> VNone -> v <> VBool false ->
  local_update msg m = (m, [], Ok tt).
Proof.
  intros Hid Hreg Hheap Hdev Hparams Hv HN HF.
  rewrite (local_update_online_flag m msg did a device params v
             Hid Hreg Hheap Hdev Hparams Hv).
  destruct v as [| [] | | | |]; try reflexivity; contradiction.
Qed.

(** C2, as the code has it. An encrypted local message of an unknown device
    that cannot be decrypted is kept in the registry as the record of that
    device, so the registry grows by one, and nothing is published. *)
Theorem local_update_keeps_undecryptable
    (m : memory) (msg : dict) (did : string) (e : exn) :
  dget "deviceid" msg = Some (VStr did) ->
  lookup_device did (devices m) = None ->
  truthy (dget_none "params" msg) = false ->
  decrypt_with_config decrypt_msg (config m) did msg = Raise e ->
  let a := length (heap m) in
  let m' := Memory (heap m ++ [msg]) (devices m ++ [(did, a)])
              (config m) (local_online m) (cloud_online m) in
  local_update msg m = (m', [], Ok tt)
  /\ length (devices m') = S (length (devices m))
  /\ lookup_device did (devices m') = Some a
  /\ heap m' !! a = Some msg.
Proof.
  intros Hid Hreg Hparams Hdec a m'. split; [|split; [|split]].
  - unfold Registry.local_update. run.
    rewrite (deviceid_of_intro _ _ Hid), (known_device_absent _ _ Hreg).
    rewrite Hparams, Hdec. cbn [negb]. run.
    unfold with_devices, with_heap. cbn [heap devices config local_online cloud_online].
    rewrite (store_device_new _ _ _ Hreg). reflexivity.
  - unfold m'. cbn [devices]. rewrite length_app. cbn [length]. lia.
  - apply lookup_device_new. exact Hreg.
  - unfold m', a. cbn [heap]. apply list_lookup_middle. reflexivity.
Qed.

(** The common handling leaves the registry alone and publishes on the
    signal of the device only. *)
Lemma local_common_frame
    (did : string) (msg : dict) (a : addr) (params : pyval) (m : memory) :
  deviceid_of msg = Ok did ->
  devices (fst (fst (local_common did msg a params m))) = devices m
  /\ Forall (fun p => fst p = did)
       (published (snd (fst (local_common did msg a params m)))).
Proof.
  intros Hid. unfold local_common. run. rewrite Hid.
  destruct (py_contains "online" params) as [[|]|e]; cbn [fst snd].
  - destruct (py_index "online" params) as [v|e]; cbn [fst snd].
    + destruct (is_None v); [split; [reflexivity|constructor]|].
      destruct (is_False v); split; try reflexivity; repeat constructor.
    + split; [reflexivity|constructor].
  - destruct (heap m !! a); split; try reflexivity; repeat constructor.
  - split; [reflexivity|constructor].
Qed.

Lemma insert_last {A} (l : list A) (x y : A) :
  <[length l := y]> (l ++ [x]) = l ++ [y].
Proof.
  rewrite insert_app_r_alt by lia. now rewrite Nat.sub_diag.
Qed.

(** The comprehension over [spec] when every constructor returns. *)
Lemma construct_all_constructed (a : addr) (m : memory) spec trs es :
  Frame.constructed construct a m spec trs es ->
  construct_all construct spec a m = (m, trs, Ok es).
Proof.
  induction 1 as [|cls spec tr e trs es Hc _ IH]; [reflexivity|].
  cbn [construct_all]. unfold bind at 1. rewrite Hc.
  unfold bind at 1. rewrite IH. unfold ret. now rewrite app_nil_r.
Qed.

Lemma published_app (t1 t2 : list event) :
  published (t1 ++ t2) = published t1 ++ published t2.
Proof. unfold published. apply flat_map_app. Qed.

Lemma added_app (t1 t2 : list event) :
  Frame.added (t1 ++ t2) = Frame.added t1 ++ Frame.added t2.
Proof. unfold Frame.added. now rewrite published_app, List.filter_app. Qed.

(** Registering one new record that is complete. *)
Lemma setup_devices_one
    (m : memory) (record merged : dict) (did : string) (uiid p : pyval)
    (spec : list string) (ctr : list event) (entities : list entity) :
  dget "deviceid" record = Some (VStr did) ->
  merge_override (config m) did record = Ok merged ->
  device_uiid merged = Ok uiid ->
  format_04 uiid = Ok tt ->
  dget "params" merged = Some p ->
  get_spec merged = Ok spec ->
  Frame.constructed construct (length (heap m))
    (with_heap (heap m ++ [merged]) m) spec ctr entities ->
  setup_devices get_spec construct [length (heap m)]
    (with_heap (heap m ++ [record]) m)
  = (Memory (heap m ++ [merged])
       (store_device did (length (heap m)) (devices m))
       (config m) (local_online m) (cloud_online m),
     ctr ++ [DispatcherSend SIGNAL_ADD_ENTITIES (Entities entities)],
     Ok tt).
Proof.
  intros Hid Hm Huiid Hfmt Hparams Hspec Hcons.
  cbn [setup_devices]. run. autorewrite with memory.
  rewrite list_lookup_middle by reflexivity.
  rewrite (deviceid_of_intro _ _ Hid).
  autorewrite with memory.
  rewrite Hm, Huiid, Hfmt. unfold dindex. rewrite Hparams, Hspec.
  autorewrite with memory.
  rewrite insert_last.
  rewrite (construct_all_constructed _ _ _ _ _ Hcons).
  cbn [fst snd app]. autorewrite with memory.
  reflexivity.
Qed.

(** C6, as the code has it. An encrypted local message of an unknown
    device, decrypted with the key of the device in the configuration, adds
    one entry for that device id to the registry, and the registry
    publishes ["add_entities"] once with the entities of the device, after
    whatever the constructors of these entities publish on that signal
    themselves: that one publication is the only one when the constructors
    make none. The DIY factory keeps the device id, the merged record has
    an integer capability id and params, the handler classes are found and
    their constructors return. *)
Theorem local_update_registers_decrypted
    (m : memory) (msg record merged : dict) (did : string)
    (params uiid p : pyval) (spec : list string)
    (ctr : list event) (entities : list entity) :
  dget "deviceid" msg = Some (VStr did) ->
  did <> SIGNAL_ADD_ENTITIES ->
  lookup_device did (devices m) = None ->
  truthy (dget_none "params" msg) = false ->
  decrypt_with_config decrypt_msg (config m) did msg = Ok params ->
  setup_diy (dset "params" params msg) = Ok record ->
  dget "deviceid" record = Some (VStr did) ->
  merge_override (config m) did record = Ok merged ->
  device_uiid merged = Ok uiid ->
  format_04 uiid = Ok tt ->
  dget "params" merged = Some p ->
  get_spec merged = Ok spec ->
  Frame.constructed construct (length (heap m))
    (with_heap (heap m ++ [merged]) m) spec ctr entities ->
  let a := length (heap m) in
  let result := local_update msg m in
  let own := (SIGNAL_ADD_ENTITIES, Entities entities) in
  devices (fst (fst result)) = devices m ++ [(did, a)]
  /\ length (devices (fst (fst result))) = S (length (devices m))
  /\ Frame.added (snd (fst result)) = Frame.added ctr ++ [own]
  /\ (Frame.added ctr = [] -> Frame.added (snd (fst result)) = [own]).
Proof.
  intros Hid Hne Hreg Hparams Hdec Hdiy Hrid Hm Huiid Hfmt Hp Hspec Hcons
    a result own.
  assert (Hmid : deviceid_of (dset "params" params msg) = Ok did).
  { apply deviceid_of_intro. rewrite dget_dset_ne by discriminate. exact Hid. }
  assert (Hres : exists m1,
    devices m1 = devices m ++ [(did, a)] /\
    result =
      let r := local_common did (dset "params" params msg) a params m1 in
      (fst (fst r),
       (ctr ++ [DispatcherSend SIGNAL_ADD_ENTITIES (Entities entities)])
       ++ snd (fst r),
       snd r)).
  { exists (Memory (heap m ++ [merged])
              (store_device did a (devices m))
              (config m) (local_online m) (cloud_online m)).
    split; cycle 1.
    - unfold result, Registry.local_update. run.
      rewrite (deviceid_of_intro _ _ Hid), (known_device_absent _ _ Hreg).
      rewrite Hparams, Hdec. cbn [negb].
      unfold local_register. run. rewrite Hdiy.
      fold (with_heap (heap m ++ [record]) m).
      rewrite (setup_devices_one m record merged did uiid p spec ctr entities
                 Hrid Hm Huiid Hfmt Hp Hspec Hcons).
      fold a.
      cbn zeta.
      match goal with
      | |- context [local_common ?d ?ms ?x ?ps ?mm] =>
          destruct (local_common d ms x ps mm) as [[m2 t2] r2]
      end.
      cbn [fst snd app]. reflexivity.
    - cbn [devices]. apply store_device_new. exact Hreg. }
  destruct Hres as (m1 & Hdev & ->).
  destruct (local_common_frame did _ a params m1 Hmid) as [Hd Hpub].
  cbn zeta. cbn [fst snd].
  assert (Hadd : Frame.added
                   ((ctr ++ [DispatcherSend SIGNAL_ADD_ENTITIES (Entities entities)])
                    ++ snd (fst (local_common did (dset "params" params msg)
                                   a params m1)))
                 = Frame.added ctr ++ [own]).
  { rewrite !added_app.
    replace (Frame.added (snd (fst (local_common did (dset "params" params msg)
                                      a params m1)))) with (@nil (string * args)).
    - now rewrite app_nil_r.
    - unfold Frame.added.
      induction Hpub as [|[sg ar] l Hs _ IH]; [reflexivity|].
      cbn [List.filter fst] in *. subst sg.
      destruct (String.eqb did SIGNAL_ADD_ENTITIES) eqn:E; [|exact IH].
      apply String.eqb_eq in E. contradiction. }
  split; [|split; [|split]].
  - rewrite Hd. exact Hdev.
  - rewrite Hd, Hdev, length_app. cbn [length]. lia.
  - exact Hadd.
  - intros Hnone. rewrite Hadd, Hnone. reflexivity.
Qed.

End LocalUpdate.

Lemma local_update_connectivity_witness :
  (VNone = VNone ->
   local_update Sample.decrypt_msg Sample.setup_diy Sample.get_spec Sample.construct
     (Sample.online_msg VNone) Sample.online_memory
   = (Sample.online_memory, [CheckOffline 0], Ok tt))
  /\ (VNone = VBool false ->
      local_update Sample.decrypt_msg Sample.setup_diy Sample.get_spec Sample.construct
        (Sample.online_msg VNone) Sample.online_memory
      = (Sample.online_memory, [DispatcherSend "A1" NoArgs], Ok tt)).
Proof.
  apply (local_update_connectivity Sample.decrypt_msg Sample.setup_diy
           Sample.get_spec Sample.construct Sample.online_memory (Sample.online_msg VNone)
           "A1" 0 Sample.online_record [("online", VNone)] VNone);
    reflexivity.
Defined.

Lemma local_update_online_true_witness :
  local_update Sample.decrypt_msg Sample.setup_diy Sample.get_spec Sample.construct
    (Sample.online_msg (VBool true)) Sample.online_memory
  = (Sample.online_memory, [], Ok tt).
Proof.
  apply (local_update_online_true Sample.decrypt_msg Sample.setup_diy
           Sample.get_spec Sample.construct Sample.online_memory (Sample.online_msg (VBool true))
           "A1" 0 Sample.online_record [("online", VBool true)] (VBool true));
    try reflexivity; discriminate.
Defined.

Lemma local_update_keeps_undecryptable_witness :
  let m' := Memory [Sample.online_record; Sample.broadcast]
              [("A1", 0); ("B2", 1)] Sample.wrong_key_config true true in
  local_update Sample.decrypt_msg Sample.setup_diy Sample.get_spec Sample.construct
    Sample.broadcast Sample.wrong_key_memory = (m', [], Ok tt)
  /\ length (devices m') = S (length (devices Sample.wrong_key_memory))
  /\ lookup_device "B2" (devices m') = Some 1
  /\ heap m' !! 1 = Some Sample.broadcast.
Proof.
  apply (local_update_keeps_undecryptable Sample.decrypt_msg Sample.setup_diy
           Sample.get_spec Sample.construct Sample.wrong_key_memory Sample.broadcast "B2"
           ValueError);
    reflexivity.
Defined.

(** C2, as the claim has it, fails: the device count goes from one to two
    when the broadcast of the unknown device ["B2"] cannot be decrypted
    with the key of the configuration. *)
Lemma local_update_undecryptable_counterexample :
  lookup_device "B2" (devices Sample.wrong_key_memory) = None
  /\ dget "params" Sample.broadcast = None
  /\ decrypt_with_config Sample.decrypt_msg (config Sample.wrong_key_memory)
       "B2" Sample.broadcast = Raise ValueError
  /\ length (devices Sample.wrong_key_memory) = 1
  /\ length (devices (fst (fst (local_update Sample.decrypt_msg Sample.setup_diy
                                  Sample.get_spec Sample.construct Sample.broadcast
                                  Sample.wrong_key_memory)))) = 2
  /\ ~ (length (devices (fst (fst (local_update Sample.decrypt_msg
                                     Sample.setup_diy Sample.get_spec Sample.construct
                                     Sample.broadcast Sample.wrong_key_memory))))
        = length (devices Sample.wrong_key_memory)).
Proof.
  repeat split; try reflexivity. vm_compute. discriminate.
Qed.

Lemma local_update_registers_decrypted_witness :
  let result :=
    local_update Sample.bridge_decrypt Sample.bridge_diy Sample.bridge_spec
      Sample.construct Sample.broadcast Sample.bridge_memory in
  let childs := DispatcherSend SIGNAL_ADD_ENTITIES (ChildValues []) in
  let own := (SIGNAL_ADD_ENTITIES, Entities [Entity "XRemote" 1]) in
  devices (fst (fst result)) = [("A1", 0)] ++ [("B2", 1)]
  /\ length (devices (fst (fst result))) = 2
  /\ Frame.added (snd (fst result)) = Frame.added ([childs] ++ []) ++ [own]
  /\ (Frame.added ([childs] ++ []) = [] -> Frame.added (snd (fst result)) = [own]).
Proof.
  apply (local_update_registers_decrypted Sample.bridge_decrypt
           Sample.bridge_diy Sample.bridge_spec Sample.construct
           Sample.bridge_memory Sample.broadcast
           (dset "extra" (VDict [("uiid", VInt 28)])
              (dset "params" (VDict Sample.bridge_params) Sample.broadcast))
           Sample.bridge_record
           "B2" (VDict Sample.bridge_params) (VInt 28)
           (VDict Sample.bridge_params) ["XRemote"]
           ([DispatcherSend SIGNAL_ADD_ENTITIES (ChildValues [])] ++ [])
           [Entity "XRemote" 1]);
    try reflexivity; try discriminate.
  apply Frame.constructed_cons; [reflexivity | apply Frame.constructed_nil].
Defined.

(** C6, as the claim has it, fails for an RF bridge: the constructor of
    [XRemote] publishes ["add_entities"] for the childs of the bridge
    ([remote.py], line 97) before [setup_devices] publishes it for the
    bridge itself, so the message of the unknown bridge ["B2"], decrypted
    with the key of the configuration, is followed by two publications. *)
Lemma local_update_bridge_counterexample :
  let m := Sample.bridge_memory in
  let result :=
    local_update Sample.bridge_decrypt Sample.bridge_diy Sample.bridge_spec
      Sample.construct Sample.broadcast m in
  lookup_device "B2" (devices m) = None
  /\ dget "params" Sample.broadcast = None
  /\ decrypt_with_config Sample.bridge_decrypt (config m) "B2" Sample.broadcast
     = Ok (VDict Sample.bridge_params)
  /\ snd result = Ok tt
  /\ lookup_device "B2" (devices (fst (fst result))) = Some 1
  /\ Frame.added (snd (fst result))
     = [(SIGNAL_ADD_ENTITIES, ChildValues []);
        (SIGNAL_ADD_ENTITIES, Entities [Entity "XRemote" 1])]
  /\ ~ (length (Frame.added (snd (fst result))) = 1).
Proof.
  repeat split; try reflexivity. vm_compute. discriminate.
Qed.

(** ** The cloud-connection hook and the activation task *)

Section Tasks.

Variable decrypt_msg : dict -> pyval -> outcome pyval.
Variable setup_diy : dict -> outcome dict.
Variable get_spec : dict -> outcome (list string).
Variable construct : string -> addr -> memory -> list event * outcome entity.
Variable POW_UI_ACTIVE : list (Z * (Z * pyval)).

Local Abbreviation step :=
  (Registry.step decrypt_msg setup_diy get_spec construct POW_UI_ACTIVE).
Local Abbreviation reachable :=
  (Registry.reachable decrypt_msg setup_diy get_spec construct POW_UI_ACTIVE).

Lemma single_task_init cfg : single_task (init cfg).
Proof. intros tid t H. destruct tid; discriminate H. Qed.

Lemma done_cancel t : done (cancel t) = done t.
Proof. unfold cancel. destruct (done t) eqn:E; [exact E|]. exact E. Qed.

(** A write at [tid] of a state whose task [tid] was running keeps the
    invariant. *)
Lemma single_task_insert (s : state) (m : memory) tid t t' :
  single_task s ->
  tasks s !! tid = Some t -> done t = false ->
  single_task (State m (task s) (<[tid := t']> (tasks s))).
Proof.
  intros Hs Ht Hd tid' u Hu Hud. cbn [tasks task] in *.
  destruct (decide (tid = tid')) as [<-|Hne].
  - exact (Hs _ _ Ht Hd).
  - rewrite list_lookup_insert_ne in Hu by exact Hne. exact (Hs _ _ Hu Hud).
Qed.

Lemma single_task_step s s' : step s s' -> single_task s -> single_task s'.
Proof.
  intros Hstep Hs. destruct Hstep as [s|s msg|s msg|s records|s tid now|s|s cfg lo co];
    try exact Hs.
  - (* cloud_connected *)
    unfold cloud_connected. destruct (task_running s) eqn:Hrun; [exact Hs|].
    cbn [fst]. intros tid t Ht Hd. cbn [tasks task] in *.
    destruct (decide (tid < length (tasks s))) as [Hlt|Hge].
    + rewrite lookup_app_l in Ht by exact Hlt.
      pose proof (Hs _ _ Ht Hd) as Hself.
      unfold task_running in Hrun. rewrite Hself, Ht, Hd in Hrun. discriminate.
    + apply lookup_lt_Some in Ht as Hlen. rewrite length_app in Hlen.
      cbn [length] in Hlen. f_equal. lia.
  - (* a task runs *)
    unfold run_task. destruct (tasks s !! tid) as [t|] eqn:Ht; [|exact Hs].
    destruct (done t) eqn:Hd; [exact Hs|].
    destruct (cancelling t).
    + cbn [fst]. exact (single_task_insert s (mem s) tid t _ Hs Ht Hd).
    + destruct (pow_helper POW_UI_ACTIVE now (pc t) (mem s)) as [[m tr] [pc'|e]];
        cbn [fst]; exact (single_task_insert s m tid t _ Hs Ht Hd).
  - (* stop *)
    unfold stop. cbn [fst]. intros tid t Ht Hd. cbn [tasks task] in *.
    destruct (task s) as [tid0|] eqn:Hself; [|rewrite <- Hself; exact (Hs _ _ Ht Hd)].
    rewrite <- Hself.
    destruct (decide (tid0 = tid)) as [->|Hne].
    + rewrite list_lookup_alter_eq in Ht.
      destruct (tasks s !! tid) as [u|] eqn:Hu; [|discriminate].
      cbn in Ht. injection Ht as <-. rewrite done_cancel in Hd.
      exact (Hs _ _ Hu Hd).
    + rewrite list_lookup_alter_ne in Ht by exact Hne. exact (Hs _ _ Ht Hd).
Qed.

Lemma single_task_reachable s0 s :
  single_task s0 -> reachable s0 s -> single_task s.
Proof.
  intros H0 Hr. induction Hr as [|s s' _ IH Hstep]; [exact H0|].
  exact (single_task_step _ _ Hstep IH).
Qed.

Lemma no_running_filter (l : list task_state) :
  (forall i t, l !! i = Some t -> done t = true) ->
  List.filter (fun t => negb (done t)) l = [].
Proof.
  induction l as [|x l IH]; intros H; [reflexivity|].
  cbn [List.filter]. rewrite (H 0 x eq_refl). cbn [negb].
  apply IH. intros i t Ht. exact (H (S i) t Ht).
Qed.

Lemma same_index_count (l : list task_state) :
  (forall i j t u, l !! i = Some t -> l !! j = Some u ->
     done t = false -> done u = false -> i = j) ->
  length (List.filter (fun t => negb (done t)) l) <= 1.
Proof.
  induction l as [|x l IH]; intros H; [cbn; lia|].
  cbn [List.filter]. destruct (done x) eqn:Hx; cbn [negb].
  - apply IH. intros i j t u Ht Hu Hdt Hdu.
    assert (S i = S j) by exact (H (S i) (S j) t u Ht Hu Hdt Hdu). lia.
  - rewrite no_running_filter; [cbn; lia|].
    intros i t Ht. destruct (done t) eqn:Hdt; [reflexivity|].
    assert (0 = S i) by exact (H 0 (S i) x t eq_refl Ht Hx Hdt). lia.
Qed.

Lemma single_task_count s : single_task s -> running_tasks s <= 1.
Proof.
  intros Hs. apply same_index_count. intros i j t u Ht Hu Hdt Hdu.
  pose proof (Hs _ _ Ht Hdt) as Hi. pose proof (Hs _ _ Hu Hdu) as Hj.
  congruence.
Qed.

(** C9. [cloud_connected] publishes the signal of every device id of the
    registry, in order and without arguments; it creates a [pow_helper]
    task exactly when [self.task] is unset or done; and in every state the
    registry can reach at most one such task is not done. *)
Theorem cloud_connected_single_task :
  (forall s,
     snd (cloud_connected s)
     = map (fun kv => DispatcherSend (fst kv) NoArgs) (devices (mem s))
       ++ (if task_running s then [] else [CreatePowHelper (length (tasks s))]))
  /\ (forall s, task_running s = true -> fst (cloud_connected s) = s)
  /\ (forall s, task_running s = false ->
        fst (cloud_connected s)
        = State (mem s) (Some (length (tasks s)))
            (tasks s ++ [Task PowNew false]))
  /\ (forall cfg s, reachable (init cfg) s -> running_tasks s <= 1).
Proof.
  split; [|split; [|split]].
  - intros s. unfold cloud_connected. destruct (task_running s); cbn [snd].
    + now rewrite app_nil_r.
    + reflexivity.
  - intros s H. unfold cloud_connected. now rewrite H.
  - intros s H. unfold cloud_connected. now rewrite H.
  - intros cfg s Hr. apply single_task_count.
    exact (single_task_reachable _ _ (single_task_init cfg) Hr).
Qed.

End Tasks.

Lemma cloud_connected_single_task_witness :
  let s1 := fst (cloud_connected (init VNone)) in
  let s2 := fst (run_task Sample.POW_UI_ACTIVE 0 1000 s1) in
  let s3 := fst (cloud_connected s2) in
  running_tasks s3 <= 1.
Proof.
  intros s1 s2 s3.
  apply (proj2 (proj2 (proj2
           (cloud_connected_single_task Sample.decrypt_msg Sample.setup_diy
              Sample.get_spec Sample.construct Sample.POW_UI_ACTIVE))) VNone s3).
  eapply reachable_step; [|apply step_cloud_connected].
  eapply reachable_step; [|apply step_run_task].
  eapply reachable_step; [|apply step_cloud_connected].
  apply reachable_start.
Defined.

(** ** The periodic activation loop *)

Section PowHelper.

Variable POW_UI_ACTIVE : list (Z * (Z * pyval)).

Local Abbreviation pow_helper := (Registry.pow_helper POW_UI_ACTIVE).
Local Abbreviation pow_loop := (Registry.pow_loop POW_UI_ACTIVE).
Local Abbreviation pow_for := (Registry.pow_for POW_UI_ACTIVE).
Local Abbreviation pow_devices := (Registry.pow_devices POW_UI_ACTIVE).
Local Abbreviation pow_command := (Registry.pow_command POW_UI_ACTIVE).

(** A device that is online and due gets the activation command. *)
Lemma pow_for_send devs ts a rest (m : memory) device online cmd :
  heap m !! a = Some device ->
  dget "online" device = Some online ->
  truthy online = true ->
  pow_ts_after device ts = Ok false ->
  pow_command device = Ok cmd ->
  pow_for devs ts (a :: rest) m
  = (with_heap (<[a := dset "pow_ts" (VInt (ts + fst cmd)) device]> (heap m)) m,
     [CloudSend a (Some (snd cmd)) None (Some 0%Z)],
     Ok (PowSending devs ts rest)).
Proof.
  intros Hd Ho Ht Hts Hc. cbn [Registry.pow_for]. run.
  unfold dindex. rewrite Hd, Ho, Ht, Hts, Hc. reflexivity.
Qed.

(** A device that is offline, or not yet due, is passed over. *)
Lemma pow_for_skip devs ts a rest (m : memory) device online :
  heap m !! a = Some device ->
  dget "online" device = Some online ->
  truthy online = false \/ pow_ts_after device ts = Ok true ->
  pow_for devs ts (a :: rest) m = pow_for devs ts rest m.
Proof.
  intros Hd Ho Hskip. cbn [Registry.pow_for]. run.
  unfold dindex. rewrite Hd, Ho.
  destruct (truthy online); cbn [negb].
  - destruct Hskip as [Hf|Hl]; [discriminate|]. rewrite Hl.
    destruct (pow_for devs ts rest m) as [[m' tr] r]. reflexivity.
  - destruct (pow_for devs ts rest m) as [[m' tr] r]. reflexivity.
Qed.

(** The [for] loop sends only to devices it was given, that are online and
    due in the memory it runs on. *)
Lemma pow_for_sends_sound devs ts rest (m : memory) a p s t :
  In (CloudSend a p s t) (snd (fst (pow_for devs ts rest m))) ->
  In a rest
  /\ exists device online cmd,
       heap m !! a = Some device
       /\ dget "online" device = Some online /\ truthy online = true
       /\ pow_ts_after device ts = Ok false
       /\ pow_command device = Ok cmd
       /\ p = Some (snd cmd) /\ s = None /\ t = Some 0%Z.
Proof.
  induction rest as [|b rest IH]; cbn [Registry.pow_for]; run.
  - cbn. intros [H|[]]. discriminate H.
  - destruct (heap m !! b) as [device|] eqn:Hd; [|intros []].
    unfold dindex. destruct (dget "online" device) as [online|] eqn:Ho;
      [|intros []].
    assert (Hrec : In (CloudSend a p s t) (snd (fst (pow_for devs ts rest m))) ->
                   In a (b :: rest) /\ exists device online cmd,
                     heap m !! a = Some device
                     /\ dget "online" device = Some online /\ truthy online = true
                     /\ pow_ts_after device ts = Ok false
                     /\ pow_command device = Ok cmd
                     /\ p = Some (snd cmd) /\ s = None /\ t = Some 0%Z).
    { intros H. destruct (IH H) as [Hin Hex]. split; [now right|exact Hex]. }
    destruct (truthy online) eqn:Ht; cbn [negb].
    + destruct (pow_ts_after device ts) as [[|]|e] eqn:Hts; [| |intros []].
      * destruct (pow_for devs ts rest m) as [[m' tr] r]. exact Hrec.
      * destruct (pow_command device) as [cmd|e] eqn:Hc; [|intros []].
        cbn. intros [H|[]]. injection H as <- <- <- <-.
        split; [now left|]. exists device, online, cmd. repeat split; assumption.
    + destruct (pow_for devs ts rest m) as [[m' tr] r]. exact Hrec.
Qed.

(** Once in the loop, the coroutine keeps its list of devices. *)
Lemma pow_for_keeps_devices devs ts rest (m : memory) pc' :
  snd (pow_for devs ts rest m) = Ok pc' -> pc_devices pc' = Some devs.
Proof.
  induction rest as [|b rest IH]; cbn [Registry.pow_for]; run.
  - cbn. intros [= <-]. reflexivity.
  - destruct (heap m !! b) as [device|]; [|discriminate].
    destruct (dindex "online" device) as [online|]; [|discriminate].
    destruct (truthy online); cbn [negb].
    + destruct (pow_ts_after device ts) as [[|]|e]; [| |discriminate].
      * destruct (pow_for devs ts rest m) as [[m' tr] r]. exact IH.
      * destruct (pow_command device) as [cmd|e]; [|discriminate].
        cbn. intros [= <-]. reflexivity.
    + destruct (pow_for devs ts rest m) as [[m' tr] r]. exact IH.
Qed.

Lemma pow_loop_keeps_devices now devs (m : memory) pc' :
  snd (pow_loop now devs m) = Ok pc' -> pc_devices pc' = Some devs.
Proof.
  unfold Registry.pow_loop. run. destruct (cloud_online m); cbn [negb].
  - destruct (pow_for devs now devs m) as [[m' tr] r] eqn:E. cbn [snd].
    intros H. apply (pow_for_keeps_devices devs now devs m).
    rewrite E. exact H.
  - cbn. intros [= <-]. reflexivity.
Qed.

Lemma pow_run_sleeping fuel devs (m : memory) :
  Registry.pow_run POW_UI_ACTIVE fuel (PowSleeping devs) m
  = (m, [], Ok (PowSleeping devs)).
Proof. destruct fuel; reflexivity. Qed.

Lemma pow_run_sending fuel devs ts rest (m : memory) :
  Registry.pow_run POW_UI_ACTIVE (S fuel) (PowSending devs ts rest) m
  = bind (pow_for devs ts rest) (Registry.pow_run POW_UI_ACTIVE fuel) m.
Proof. reflexivity. Qed.

(** An uninterrupted sweep over regular records, no record twice: the
    sends are those of the devices that were online and due when the sweep
    began, in order, and the coroutine ends in its 150 s sleep. [m0] is the
    memory at the start of the sweep, [m] the memory at [rest]. *)
Lemma pow_run_sweep devs ts rest :
  forall (m0 m : memory) fuel,
    NoDup rest ->
    Forall (pow_regular POW_UI_ACTIVE m0 ts) rest ->
    (forall b, In b rest -> heap m !! b = heap m0 !! b) ->
    length rest < fuel ->
    exists m',
      Registry.pow_run POW_UI_ACTIVE fuel (PowSending devs ts rest) m
      = (m',
         flat_map (pow_activation POW_UI_ACTIVE m0)
           (List.filter (pow_due m0 ts) rest) ++ [Sleep 150],
         Ok (PowSleeping devs)).
Proof.
  induction rest as [|a rest IH]; intros m0 m fuel Hnd Hreg Hsame Hfuel.
  - destruct fuel as [|n]; [cbn in Hfuel; lia|].
    exists m. rewrite pow_run_sending. unfold bind.
    cbn [Registry.pow_for]. run. rewrite pow_run_sleeping. reflexivity.
  - destruct fuel as [|n]; [cbn in Hfuel; lia|]. cbn [length] in Hfuel.
    apply NoDup_cons in Hnd as [Hnotin Hnd].
    apply Forall_cons in Hreg as [Ha Hreg].
    destruct Ha as (device & online & later & cmd & Hd & Ho & Hts & Hc).
    assert (Hdm : heap m !! a = Some device)
      by (rewrite (Hsame a (or_introl eq_refl)); exact Hd).
    assert (Hrest : forall b, In b rest -> heap m !! b = heap m0 !! b)
      by (intros b Hb; apply Hsame; now right).
    assert (Hdue : pow_due m0 ts a = truthy online && negb later).
    { unfold pow_due, dget_none. rewrite Hd, Ho, Hts. now destruct later. }
    assert (Hact : pow_activation POW_UI_ACTIVE m0 a
                   = [CloudSend a (Some (snd cmd)) None (Some 0%Z)]).
    { unfold pow_activation. now rewrite Hd, Hc. }
    cbn [List.filter]. rewrite Hdue.
    destruct (truthy online) eqn:Ht; [destruct later|]; cbn [andb negb].
    + (* online, not due *)
      destruct (IH m0 m (S n) Hnd Hreg Hrest ltac:(lia)) as [m' Hm'].
      exists m'. rewrite pow_run_sending in *.
      unfold bind in *.
      rewrite (pow_for_skip devs ts a rest m device online Hdm Ho (or_intror Hts)).
      exact Hm'.
    + (* online and due *)
      set (m1 := with_heap
                   (<[a := dset "pow_ts" (VInt (ts + fst cmd)) device]> (heap m)) m).
      assert (Hrest1 : forall b, In b rest -> heap m1 !! b = heap m0 !! b).
      { intros b Hb. unfold m1. rewrite heap_with_heap.
        rewrite list_lookup_insert_ne; [exact (Hrest b Hb)|].
        intros ->. apply Hnotin. apply list_elem_of_In. exact Hb. }
      destruct (IH m0 m1 n Hnd Hreg Hrest1 ltac:(lia)) as [m' Hm'].
      exists m'. rewrite pow_run_sending. unfold bind.
      rewrite (pow_for_send devs ts a rest m device online cmd Hdm Ho Ht Hts Hc).
      fold m1. rewrite Hm'.
      cbn [flat_map]. rewrite Hact. reflexivity.
    + (* offline *)
      destruct (IH m0 m (S n) Hnd Hreg Hrest ltac:(lia)) as [m' Hm'].
      exists m'. rewrite pow_run_sending in *.
      unfold bind in *.
      rewrite (pow_for_skip devs ts a rest m device online Hdm Ho (or_introl Ht)).
      exact Hm'.
Qed.

(** What the loop does where nothing goes wrong. [pow_helper] computes its
    devices when it starts and ends at once
    when there are none; afterwards it keeps that list. A sweep starts
    only when the cloud is online, visits the devices in order, and for
    each one that is online and due it stores [pow_ts = ts + dt] and sends
    the activation command through the cloud with timeout 0; a device that
    is offline or not yet due is passed over, and no other send is made.
    Over records that all have [online] and a command, a sweep that runs
    without interruption sends to exactly the devices that were online and
    due, in order, and then sleeps 150 s. *)
Theorem pow_helper_sweeps :
  (* start *)
  (forall now m,
     pow_devices (heap m) (devices m) = Ok [] ->
     pow_helper now PowNew m = (m, [], Ok PowDone))
  /\ (forall now m devs,
        pow_devices (heap m) (devices m) = Ok devs -> devs <> [] ->
        pow_helper now PowNew m = pow_loop now devs m)
  (* resuming; the list of devices is not computed again *)
  /\ (forall now devs ts rest m,
        pow_helper now (PowSleeping devs) m = pow_loop now devs m
        /\ pow_helper now (PowSending devs ts rest) m = pow_for devs ts rest m)
  /\ (forall now pc devs m pc',
        pc_devices pc = Some devs ->
        snd (pow_helper now pc m) = Ok pc' -> pc_devices pc' = Some devs)
  (* a turn of the loop *)
  /\ (forall now devs m,
        cloud_online m = false ->
        pow_loop now devs m = (m, [Sleep 60], Ok (PowSleeping devs)))
  /\ (forall now devs m,
        cloud_online m = true -> pow_loop now devs m = pow_for devs now devs m)
  (* a device that is online and due *)
  /\ (forall devs ts a rest m device online cmd,
        heap m !! a = Some device ->
        dget "online" device = Some online -> truthy online = true ->
        pow_ts_after device ts = Ok false ->
        pow_command device = Ok cmd ->
        pow_for devs ts (a :: rest) m
        = (with_heap
             (<[a := dset "pow_ts" (VInt (ts + fst cmd)) device]> (heap m)) m,
           [CloudSend a (Some (snd cmd)) None (Some 0%Z)],
           Ok (PowSending devs ts rest)))
  (* a device that is offline or not due *)
  /\ (forall devs ts a rest m device online,
        heap m !! a = Some device ->
        dget "online" device = Some online ->
        truthy online = false \/ pow_ts_after device ts = Ok true ->
        pow_for devs ts (a :: rest) m = pow_for devs ts rest m)
  (* the end of a sweep *)
  /\ (forall devs ts m,
        pow_for devs ts [] m = (m, [Sleep 150], Ok (PowSleeping devs)))
  (* a sweep that no other task interrupts *)
  /\ (forall devs ts m fuel,
        NoDup devs ->
        Forall (pow_regular POW_UI_ACTIVE m ts) devs ->
        length devs < fuel ->
        exists m',
          Registry.pow_run POW_UI_ACTIVE fuel (PowSending devs ts devs) m
          = (m',
             flat_map (pow_activation POW_UI_ACTIVE m)
               (List.filter (pow_due m ts) devs) ++ [Sleep 150],
             Ok (PowSleeping devs)))
  (* no other send *)
  /\ (forall devs ts rest m a p s t,
        In (CloudSend a p s t) (snd (fst (pow_for devs ts rest m))) ->
        In a rest
        /\ exists device online cmd,
             heap m !! a = Some device
             /\ dget "online" device = Some online /\ truthy online = true
             /\ pow_ts_after device ts = Ok false
             /\ pow_command device = Ok cmd
             /\ p = Some (snd cmd) /\ s = None /\ t = Some 0%Z).
Proof.
  repeat apply conj.
  - intros now m H. unfold Registry.pow_helper, pow_start. run. now rewrite H.
  - intros now m devs H Hne. unfold Registry.pow_helper, pow_start. run.
    rewrite H. destruct devs as [|a devs]; [contradiction|].
    destruct (pow_loop now (a :: devs) m) as [[m' tr] r]. reflexivity.
  - intros. split; reflexivity.
  - intros now pc devs m pc' Hpc H. destruct pc; try discriminate Hpc;
      injection Hpc as ->; cbn [Registry.pow_helper] in H.
    + exact (pow_loop_keeps_devices _ _ _ _ H).
    + exact (pow_for_keeps_devices _ _ _ _ _ H).
  - intros now devs m H. unfold Registry.pow_loop. run. now rewrite H.
  - intros now devs m H. unfold Registry.pow_loop. run. rewrite H. cbn [negb].
    destruct (pow_for devs now devs m) as [[m' tr] r]. reflexivity.
  - exact pow_for_send.
  - exact pow_for_skip.
  - reflexivity.
  - intros devs ts m fuel Hnd Hreg Hfuel.
    exact (pow_run_sweep devs ts devs m m fuel Hnd Hreg (fun _ _ => eq_refl) Hfuel).
  - exact pow_for_sends_sound.
Qed.

Lemma pow_find_listed n (table : list (Z * (Z * pyval))) :
  match pow_find n table with Some _ => true | None => false end
  = existsb (fun kc => (fst kc =? n)%Z) table.
Proof.
  induction table as [|[k c] table IH]; cbn [pow_find existsb fst];
    [reflexivity|].
  destruct (k =? n)%Z; [reflexivity|exact IH].
Qed.

(** The devices of the loop, over records whose [extra] is well formed:
    those of the registry, in its order, whose capability id is listed. *)
Lemma pow_devices_plain (h : list dict) (r : list (string * addr)) :
  Forall (Frame.plain h) (map snd r) ->
  pow_devices h r
  = Ok (List.filter (Frame.activates POW_UI_ACTIVE h) (map snd r)).
Proof.
  induction r as [|[k a] r IH]; cbn [map snd]; [reflexivity|].
  intros Hall. apply Forall_cons in Hall as [Ha Hall].
  cbn [Registry.pow_devices List.filter]. rewrite (IH Hall).
  destruct Ha as (device & Hd & Hextra).
  assert (Hact : Registry.pow_eligible POW_UI_ACTIVE device
                 = Ok (Frame.activates POW_UI_ACTIVE h a)).
  { unfold Frame.activates. rewrite Hd.
    unfold Registry.pow_eligible, dmem, device_uiid, dindex.
    destruct Hextra as [Hno|(extra & n & He & Hu)].
    - now rewrite Hno.
    - rewrite He. cbn [obind py_index]. unfold dindex. rewrite Hu.
      unfold pow_lookup. cbn [pow_key obind].
      rewrite <- pow_find_listed.
      now destruct (pow_find n POW_UI_ACTIVE). }
  rewrite Hd, Hact. reflexivity.
Qed.

(** The sweep goes past the records it passes over. *)
Lemma pow_for_passed devs ts before tail (m : memory) :
  Forall (Frame.passed_over m ts) before ->
  pow_for devs ts (before ++ tail) m = pow_for devs ts tail m.
Proof.
  induction 1 as [|b before Hb _ IH]; [reflexivity|].
  destruct Hb as (device & online & Hd & Ho & Hskip).
  cbn [app]. rewrite <- IH.
  apply (pow_for_skip devs ts b (before ++ tail) m device online Hd Ho).
  destruct Hskip as [Hoff|(n & Hn & Hlt)]; [now left|right].
  unfold pow_ts_after. rewrite Hn. f_equal. apply Z.gtb_lt. lia.
Qed.

(** C7, where the code departs from it. The devices of the loop are the
    records of the registry whose capability id is in [POW_UI_ACTIVE], in
    the order of the registry. When the sweep, having passed over the
    devices that are offline or not yet due, comes to one whose record
    has no [online] attribute, [device["online"]] raises [KeyError]:
    nothing is sent, the task ends, and the devices after it get no
    activation command, in this sweep or later, whether or not they are
    online and due. *)
Theorem pow_helper_unset_online_aborts
    (now : Z) (m : memory) (before rest : list addr) (a : addr)
    (device : dict) :
  Forall (Frame.plain (heap m)) (map snd (devices m)) ->
  List.filter (Frame.activates POW_UI_ACTIVE (heap m)) (map snd (devices m))
  = before ++ a :: rest ->
  cloud_online m = true ->
  Forall (Frame.passed_over m now) before ->
  heap m !! a = Some device ->
  dget "online" device = None ->
  pow_helper now PowNew m = (m, [], Raise KeyError)
  /\ forall (s : state) (tid : nat),
       mem s = m ->
       tasks s !! tid = Some (Task PowNew false) ->
       run_task POW_UI_ACTIVE tid now s
       = (State m (task s) (<[tid := Task PowDone false]> (tasks s)), []).
Proof.
  intros Hplain Hdevs Hcloud Hpassed Hd Ho.
  assert (Hrun : pow_helper now PowNew m = (m, [], Raise KeyError)).
  { unfold Registry.pow_helper, pow_start. run.
    rewrite (pow_devices_plain _ _ Hplain), Hdevs.
    assert (Hloop : pow_loop now (before ++ a :: rest) m
                    = (m, [], Raise KeyError)).
    { unfold Registry.pow_loop. run. rewrite Hcloud. cbn [negb].
      rewrite (pow_for_passed _ _ _ _ _ Hpassed).
      cbn [Registry.pow_for]. run. unfold dindex. now rewrite Hd, Ho. }
    destruct (before ++ a :: rest) as [|b l] eqn:E.
    - now destruct before.
    - now rewrite Hloop. }
  split; [exact Hrun|].
  intros s tid Hm Ht. unfold run_task. rewrite Ht. cbn [done pc cancelling].
  now rewrite Hm, Hrun.
Qed.

End PowHelper.

Lemma pow_helper_unset_online_aborts_witness :
  let s := fst (cloud_connected (State Sample.starved_memory None [])) in
  pow_helper Sample.POW_UI_ACTIVE 1000 PowNew Sample.starved_memory
  = (Sample.starved_memory, [], Raise KeyError)
  /\ run_task Sample.POW_UI_ACTIVE 0 1000 s
     = (State Sample.starved_memory (Some 0) [Task PowDone false], []).
Proof.
  intros s.
  destruct (pow_helper_unset_online_aborts Sample.POW_UI_ACTIVE 1000%Z
              Sample.starved_memory [1] [3] 2 Sample.silent_pow_record)
    as [Hrun Htask]; try reflexivity.
  - repeat apply List.Forall_cons; try apply List.Forall_nil.
    + eexists. split; [reflexivity|]. left. reflexivity.
    + eexists. split; [reflexivity|]. right. eexists _, _. split; reflexivity.
    + eexists. split; [reflexivity|]. right. eexists _, _. split; reflexivity.
    + eexists. split; [reflexivity|]. right. eexists _, _. split; reflexivity.
  - repeat constructor. eexists _, _. split; [reflexivity|].
    split; [reflexivity|]. right. exists 4600%Z. split; [reflexivity|lia].
  - split; [exact Hrun|]. exact (Htask s 0 eq_refl eq_refl).
Defined.

(** With the second device offline instead of unset, the same sweep goes
    on to the third device and sends it the activation command. *)
Example pow_helper_offline_first :
  pow_helper Sample.POW_UI_ACTIVE 1000 PowNew Sample.offline_pow_memory
  = (with_heap (<[3 := dset "pow_ts" (VInt 4600) (Sample.pow_record "P2" true)]>
                  (heap Sample.offline_pow_memory)) Sample.offline_pow_memory,
     [CloudSend 3 (Some (VDict [("uiActive", VInt 7200)])) None (Some 0%Z)],
     Ok (PowSending [1; 2; 3] 1000 [])).
Proof. reflexivity. Qed.

Lemma pow_helper_sweeps_witness :
  pow_helper Sample.POW_UI_ACTIVE 1000 PowNew Sample.online_memory
  = (Sample.online_memory, [], Ok PowDone)
  /\ Registry.pow_for Sample.POW_UI_ACTIVE [0; 1] 1000 [0; 1] Sample.pow_memory
     = (with_heap
          [dset "pow_ts" (VInt 4600) (Sample.pow_record "P1" true);
           Sample.pow_record "P2" false] Sample.pow_memory,
        [CloudSend 0 (Some (VDict [("uiActive", VInt 7200)])) None (Some 0%Z)],
        Ok (PowSending [0; 1] 1000 [1]))
  /\ Registry.pow_for Sample.POW_UI_ACTIVE [0; 1] 1000 [1] Sample.pow_memory
     = Registry.pow_for Sample.POW_UI_ACTIVE [0; 1] 1000 [] Sample.pow_memory
  /\ exists m',
       pow_run Sample.POW_UI_ACTIVE 3 (PowSending [0; 1] 1000 [0; 1])
         Sample.pow_memory
       = (m',
          flat_map (pow_activation Sample.POW_UI_ACTIVE Sample.pow_memory)
            (List.filter (pow_due Sample.pow_memory 1000) [0; 1])
          ++ [Sleep 150],
          Ok (PowSleeping [0; 1])).
Proof.
  destruct (pow_helper_sweeps Sample.POW_UI_ACTIVE)
    as (Hstart & _ & _ & _ & _ & _ & Hsend & Hskip & _ & Hsweep & _).
  split; [|split; [|split]].
  - apply Hstart. reflexivity.
  - apply (Hsend [0; 1] 1000%Z 0 [1] Sample.pow_memory
             (Sample.pow_record "P1" true) (VBool true)
             (3600%Z, VDict [("uiActive", VInt 7200)])); reflexivity.
  - apply (Hskip [0; 1] 1000%Z 1 [] Sample.pow_memory
             (Sample.pow_record "P2" false) (VBool false)); try reflexivity.
    left. reflexivity.
  - apply (Hsweep [0; 1] 1000%Z Sample.pow_memory 3).
    + repeat constructor; cbn; intros H; inversion H as [|? ? ? H']; inversion H'.
    + repeat constructor.
      * exists (Sample.pow_record "P1" true), (VBool true), false,
          (3600%Z, VDict [("uiActive", VInt 7200)]). repeat split.
      * exists (Sample.pow_record "P2" false), (VBool false), false,
          (3600%Z, VDict [("uiActive", VInt 7200)]). repeat split.
    + cbn. lia.
Defined.

(** * Further properties of the registry *)

(** ** Cloud updates *)

Lemma known_device_inv (m : memory) did a d :
  known_device m did = Some (a, d) ->
  lookup_device did (devices m) = Some a
  /\ heap m !! a = Some d
  /\ truthy (VDict d) = true.
Proof.
  unfold known_device. destruct (lookup_device did (devices m)) as [b|]; [|discriminate].
  destruct (heap m !! b) as [d'|] eqn:Hd; [|discriminate].
  destruct (truthy (VDict d')) eqn:Ht; [|discriminate].
  intros [= <- <-]. auto.
Qed.

(** What [cloud_update] does with a message that carries [online]. *)
Lemma cloud_update_online_step
    (m : memory) (msg : dict) (did : string) (a : addr)
    (device params : dict) (cur new : pyval) :
  dget "deviceid" msg = Some (VStr did) ->
  lookup_device did (devices m) = Some a ->
  heap m !! a = Some device ->
  dget "online" device = Some cur ->
  dget "params" msg = Some (VDict params) ->
  dget "online" params = Some new ->
  cloud_update msg m
  = if py_eq cur new then (m, [], Ok tt)
    else (with_heap (<[a := dset "online" new device]> (heap m)) m,
          [DispatcherSend did (Params (VDict params))], Ok tt).
Proof.
  intros Hid Hreg Hheap Hcur Hparams Hnew.
  unfold cloud_update. run.
  rewrite (deviceid_of_intro _ _ Hid).
  rewrite (known_device_intro _ _ _ _ Hreg Hheap (dget_truthy _ _ _ Hcur)).
  unfold dindex, py_contains, py_index, dindex, dmem.
  rewrite Hparams, Hnew, Hcur. destruct (py_eq cur new); reflexivity.
Qed.

(** X1. A cloud update whose [online] differs from the stored one stores
    the new value, keeps the other attributes of the record, and publishes
    the device signal once with the params. *)
Theorem cloud_update_online_change
    (m : memory) (msg : dict) (did : string) (a : addr)
    (device params : dict) (cur new : pyval) :
  dget "deviceid" msg = Some (VStr did) ->
  lookup_device did (devices m) = Some a ->
  heap m !! a = Some device ->
  dget "online" device = Some cur ->
  dget "params" msg = Some (VDict params) ->
  dget "online" params = Some new ->
  py_eq cur new = false ->
  exists m',
    cloud_update msg m
    = (m', [DispatcherSend did (Params (VDict params))], Ok tt)
    /\ field m' a "online" = Some new
    /\ (forall k, k <> "online" -> field m' a k = dget k device)
    /\ devices m' = devices m.
Proof.
  intros Hid Hreg Hheap Hcur Hparams Hnew Hne.
  eexists. split; [|split; [|split]].
  - rewrite (cloud_update_online_step m msg did a device params cur new);
      try assumption. rewrite Hne. reflexivity.
  - unfold field. rewrite heap_with_heap.
    rewrite list_lookup_insert_eq by (eapply lookup_lt_Some; eassumption).
    apply dget_dset_eq.
  - intros k Hk. unfold field. rewrite heap_with_heap.
    rewrite list_lookup_insert_eq by (eapply lookup_lt_Some; eassumption).
    apply dget_dset_ne. congruence.
  - reflexivity.
Qed.

Lemma cloud_update_online_change_witness :
  exists m',
    cloud_update
      [("deviceid", VStr "A1"); ("params", VDict [("online", VBool true)])]
      Sample.offline_memory
    = (m', [DispatcherSend "A1" (Params (VDict [("online", VBool true)]))], Ok tt)
    /\ field m' 0 "online" = Some (VBool true)
    /\ (forall k, k <> "online" -> field m' 0 k = dget k Sample.offline_record)
    /\ devices m' = devices Sample.offline_memory.
Proof.
  apply (cloud_update_online_change Sample.offline_memory _ "A1" 0
           Sample.offline_record [("online", VBool true)]
           (VBool false) (VBool true)); reflexivity.
Defined.

(** X2. The same [online] update received twice is published at most once:
    whatever the first delivery did, the second one changes nothing and
    publishes nothing. *)
Theorem cloud_update_online_twice
    (m : memory) (msg : dict) (did : string) (a : addr)
    (device params : dict) (cur new : pyval) :
  dget "deviceid" msg = Some (VStr did) ->
  lookup_device did (devices m) = Some a ->
  heap m !! a = Some device ->
  dget "online" device = Some cur ->
  dget "params" msg = Some (VDict params) ->
  dget "online" params = Some new ->
  let m1 := fst (fst (cloud_update msg m)) in
  cloud_update msg m1 = (m1, [], Ok tt).
Proof.
  intros Hid Hreg Hheap Hcur Hparams Hnew m1. subst m1.
  rewrite (cloud_update_online_step m msg did a device params cur new);
    try assumption.
  destruct (py_eq cur new) eqn:E; cbn [fst].
  - rewrite (cloud_update_online_step m msg did a device params cur new);
      try assumption. now rewrite E.
  - rewrite (cloud_update_online_step _ msg did a
               (dset "online" new device) params new new); try assumption.
    + now rewrite py_eq_refl.
    + rewrite heap_with_heap.
      apply list_lookup_insert_eq. eapply lookup_lt_Some; eassumption.
    + apply dget_dset_eq.
Qed.

Lemma cloud_update_online_twice_witness :
  let msg := [("deviceid", VStr "A1"); ("params", VDict [("online", VBool true)])] in
  let m1 := fst (fst (cloud_update msg Sample.offline_memory)) in
  cloud_update msg m1 = (m1, [], Ok tt).
Proof.
  apply (cloud_update_online_twice Sample.offline_memory _ "A1" 0
           Sample.offline_record [("online", VBool true)]
           (VBool false) (VBool true)); reflexivity.
Defined.

(** X3. When [cloud_update] raises, it has changed nothing and published
    nothing: every subscript that can fail is read before the first
    write. *)
Theorem cloud_update_raise_no_effect (msg : dict) (m : memory) (e : exn) :
  snd (cloud_update msg m) = Raise e ->
  cloud_update msg m = (m, [], Raise e).
Proof.
  unfold cloud_update. run.
  destruct (deviceid_of msg) as [did|e0]; [|now intros [= ->]].
  destruct (known_device m did) as [[a device]|]; [|discriminate].
  destruct (dindex "params" msg) as [params|e0]; [|now intros [= ->]].
  destruct (py_contains "online" params) as [[|]|e0]; [| |now intros [= ->]].
  - destruct (dindex "online" device) as [cur|e0]; [|now intros [= ->]].
    destruct (py_index "online" params) as [new|e0]; [|now intros [= ->]].
    destruct (py_eq cur new); discriminate.
  - destruct (dindex "online" device) as [cur|e0]; [|now intros [= ->]].
    destruct (is_False cur); discriminate.
Qed.

Lemma cloud_update_raise_no_effect_witness :
  cloud_update Sample.cloud_msg Sample.unset_memory
  = (Sample.unset_memory, [], Raise KeyError).
Proof.
  apply (cloud_update_raise_no_effect Sample.cloud_msg Sample.unset_memory
           KeyError). reflexivity.
Defined.

Lemma cloud_update_unchanged (msg : dict) (m : memory) :
  let m' := fst (fst (cloud_update msg m)) in
  devices m' = devices m
  /\ config m' = config m
  /\ local_online m' = local_online m
  /\ cloud_online m' = cloud_online m
  /\ length (heap m') = length (heap m)
  /\ forall a k, k <> "online" -> field m' a k = field m a k.
Proof.
  assert (Hstore : forall a0 device v,
    heap m !! a0 = Some device ->
    let m' := with_heap (<[a0 := dset "online" v device]> (heap m)) m in
    devices m' = devices m /\ config m' = config m
    /\ local_online m' = local_online m /\ cloud_online m' = cloud_online m
    /\ length (heap m') = length (heap m)
    /\ forall a k, k <> "online" -> field m' a k = field m a k).
  { intros a0 device v Hd m'. repeat split.
    - unfold m'. rewrite heap_with_heap. apply length_insert.
    - intros a k Hk. unfold field, m'. rewrite heap_with_heap.
      destruct (decide (a0 = a)) as [<-|Hne].
      + rewrite list_lookup_insert_eq by (eapply lookup_lt_Some; eassumption).
        rewrite Hd. apply dget_dset_ne. congruence.
      + now rewrite list_lookup_insert_ne. }
  assert (Hsame : devices m = devices m /\ config m = config m
    /\ local_online m = local_online m /\ cloud_online m = cloud_online m
    /\ length (heap m) = length (heap m)
    /\ forall a k, k <> "online" -> field m a k = field m a k)
    by (repeat split; reflexivity).
  unfold cloud_update. run.
  destruct (deviceid_of msg) as [did|e0]; [|exact Hsame].
  destruct (known_device m did) as [[a0 device]|] eqn:Hk; [|exact Hsame].
  apply known_device_inv in Hk as (_ & Hd & _).
  destruct (dindex "params" msg) as [params|e0]; [|exact Hsame].
  destruct (py_contains "online" params) as [[|]|e0]; [| |exact Hsame].
  - destruct (dindex "online" device) as [cur|e0]; [|exact Hsame].
    destruct (py_index "online" params) as [new|e0]; [|exact Hsame].
    destruct (py_eq cur new); [exact Hsame|].
    exact (Hstore a0 device new Hd).
  - destruct (dindex "online" device) as [cur|e0]; [|exact Hsame].
    destruct (is_False cur); [|exact Hsame].
    exact (Hstore a0 device (VBool true) Hd).
Qed.

(** X4. [cloud_update] touches one attribute of one record: the registry,
    the configuration and the transports' flags are as before, no record
    is added, and every attribute other than [online] of every record is
    as before. *)
Theorem cloud_update_frame (msg : dict) (m : memory) :
  let m' := fst (fst (cloud_update msg m)) in
  devices m' = devices m
  /\ config m' = config m
  /\ local_online m' = local_online m
  /\ cloud_online m' = cloud_online m
  /\ length (heap m') = length (heap m)
  /\ forall a k, k <> "online" -> field m' a k = field m a k.
Proof. exact (cloud_update_unchanged msg m). Qed.

Lemma cloud_update_frame_witness :
  let m' := fst (fst (cloud_update Sample.cloud_msg Sample.offline_memory)) in
  field m' 0 "deviceid" = field Sample.offline_memory 0 "deviceid".
Proof.
  intros m'.
  apply (proj2 (proj2 (proj2 (proj2 (proj2
           (cloud_update_frame Sample.cloud_msg Sample.offline_memory)))))).
  discriminate.
Defined.

(** X5. [cloud_update] publishes at most one signal, on the device id of
    the message and with the params of the message, and makes no other
    call; a message for an unknown device id publishes nothing and is not
    an error even when it has no params. *)
Theorem cloud_update_signal (msg : dict) (m : memory) :
  let tr := snd (fst (cloud_update msg m)) in
  (tr = []
   \/ exists did params,
        dget "deviceid" msg = Some (VStr did)
        /\ dget "params" msg = Some params
        /\ tr = [DispatcherSend did (Params params)])
  /\ (forall did,
        deviceid_of msg = Ok did -> known_device m did = None ->
        cloud_update msg m = (m, [], Ok tt)).
Proof.
  split.
  - unfold cloud_update. run.
    unfold deviceid_of, dindex, obind.
    destruct (dget "deviceid" msg) as [v|] eqn:Hid; [|now left].
    destruct v as [| | |did| |]; try now left. cbn [as_str].
    destruct (known_device m did) as [[a0 device]|]; [|now left].
    destruct (dget "params" msg) as [params|] eqn:Hp; [|now left].
    destruct (py_contains "online" params) as [[|]|e0]; [| |now left].
    + destruct (dget "online" device) as [cur|]; [|now left].
      destruct (py_index "online" params) as [new|e0]; [|now left].
      destruct (py_eq cur new); [now left|].
      right. exists did, params. auto.
    + destruct (dget "online" device) as [cur|]; [|now left].
      right. exists did, params. destruct (is_False cur); auto.
  - intros did Hid Hk. unfold cloud_update. run. now rewrite Hid, Hk.
Qed.

Lemma cloud_update_signal_witness :
  cloud_update [("deviceid", VStr "Z9")] Sample.offline_memory
  = (Sample.offline_memory, [], Ok tt).
Proof.
  apply (proj2 (cloud_update_signal [("deviceid", VStr "Z9")]
                  Sample.offline_memory) "Z9"); reflexivity.
Defined.

(** ** Command dispatch, the remaining branches *)

(** The result of [send], branch by branch. *)
Lemma send_cases
    (m : memory) (device : addr) (d : dict) (params params_lan : pyval)
    (query_cloud : bool) (seq : string) (ok_local ok_cloud : pyval) :
  heap m !! device = Some d ->
  let can_local := local_online m && truthy (dget_none "host" d) in
  let can_cloud := cloud_online m && truthy (dget_none "online" d) in
  let lan t := LocalSend device (py_or params_lan params) seq t in
  let full := CloudSend device (Some params) (Some seq) None in
  let query := CloudSend device None None (Some 0%Z) in
  let local_ok := py_eq ok_local (VStr "online") in
  let cloud_ok := py_eq ok_cloud (VStr "online") in
  send device params params_lan query_cloud seq ok_local ok_cloud m
  = (m,
     if can_local then
       if can_cloud then
         lan 1%Z ::
           (if local_ok then []
            else full :: (if cloud_ok then (if query_cloud then [query] else [])
                          else [CheckOffline device]))
       else lan 5%Z :: (if local_ok then [] else [CheckOffline device])
     else if can_cloud then
       full :: (if cloud_ok && query_cloud then [query] else [])
     else [],
     Ok tt).
Proof.
  intros Hd can_local can_cloud lan full query local_ok cloud_ok.
  unfold send. run. rewrite Hd.
  fold can_local can_cloud local_ok cloud_ok.
  destruct can_local, can_cloud, local_ok, cloud_ok, query_cloud; reflexivity.
Qed.

(** X6. [send] reads and never writes: it returns normally with the memory
    as it was and publishes no signal, and it calls a transport only when
    that transport is available for the device. *)
Theorem send_respects_availability
    (m : memory) (device : addr) (d : dict) (params params_lan : pyval)
    (query_cloud : bool) (seq : string) (ok_local ok_cloud : pyval) :
  heap m !! device = Some d ->
  exists tr,
    send device params params_lan query_cloud seq ok_local ok_cloud m
    = (m, tr, Ok tt)
    /\ published tr = []
    /\ (local_online m && truthy (dget_none "host" d) = false ->
        local_sends tr = [] /\ ~ In (CheckOffline device) tr)
    /\ (cloud_online m && truthy (dget_none "online" d) = false ->
        cloud_sends tr = []).
Proof.
  intros Hd. eexists. split; [exact (send_cases m device d params params_lan
    query_cloud seq ok_local ok_cloud Hd)|].
  destruct (local_online m && truthy (dget_none "host" d)),
    (cloud_online m && truthy (dget_none "online" d)),
    (py_eq ok_local (VStr "online")), (py_eq ok_cloud (VStr "online")),
    query_cloud; cbn;
    repeat split; try reflexivity; try discriminate; intros; intuition discriminate.
Qed.

Lemma send_respects_availability_witness :
  exists tr,
    send 0 (VDict Sample.switch_on) VNone true "1700000000000"
      (VStr "online") (VStr "online")
      (Memory [Sample.online_record] [("A1", 0)] VNone false true)
    = (Memory [Sample.online_record] [("A1", 0)] VNone false true, tr, Ok tt)
    /\ published tr = []
    /\ (false && truthy (dget_none "host" Sample.online_record) = false ->
        local_sends tr = [] /\ ~ In (CheckOffline 0) tr)
    /\ (true && truthy (dget_none "online" Sample.online_record) = false ->
        cloud_sends tr = []).
Proof.
  apply (send_respects_availability
           (Memory [Sample.online_record] [("A1", 0)] VNone false true)
           0 Sample.online_record). reflexivity.
Defined.

(** X7. The LAN params stay on the LAN: every local send carries
    [params_lan or params] and the sequence, every cloud send is either
    the command with [params] and the sequence or the query without
    params and with timeout 0, and all calls are for the device given. *)
Theorem send_payloads
    (m : memory) (device : addr) (d : dict) (params params_lan : pyval)
    (query_cloud : bool) (seq : string) (ok_local ok_cloud : pyval) :
  heap m !! device = Some d ->
  let tr := snd (fst (send device params params_lan query_cloud seq
                        ok_local ok_cloud m)) in
  (forall dev p s t,
     In (LocalSend dev p s t) tr ->
     dev = device /\ p = py_or params_lan params /\ s = seq
     /\ (t = 1%Z \/ t = 5%Z))
  /\ (forall dev p s t,
        In (CloudSend dev p s t) tr ->
        dev = device
        /\ ((p = Some params /\ s = Some seq /\ t = None)
            \/ (p = None /\ s = None /\ t = Some 0%Z)))
  /\ (forall dev, In (CheckOffline dev) tr -> dev = device).
Proof.
  intros Hd tr. subst tr.
  rewrite (send_cases m device d params params_lan query_cloud seq
             ok_local ok_cloud Hd). cbn [fst snd].
  destruct (local_online m && truthy (dget_none "host" d)),
    (cloud_online m && truthy (dget_none "online" d)),
    (py_eq ok_local (VStr "online")), (py_eq ok_cloud (VStr "online")),
    query_cloud; cbn;
    (split; [|split]); intros;
    repeat match goal with
           | H : _ \/ _ |- _ => destruct H
           | H : False |- _ => destruct H
           | H : @eq event _ _ |- _ => first [discriminate H | injection H as <- <- <- <- | injection H as <-]
           end; auto.
Qed.

Lemma send_payloads_witness :
  0 = 0
  /\ ((@None pyval = Some (VDict Sample.switch_on)
       /\ @None string = Some "1700000000000" /\ Some 0%Z = None)
      \/ (@None pyval = None /\ @None string = None /\ Some 0%Z = Some 0%Z)).
Proof.
  apply (proj1 (proj2 (send_payloads Sample.online_memory 0 Sample.online_record
           (VDict Sample.switch_on) (VDict [("light", VStr "on")]) true
           "1700000000000" (VStr "timeout") (VStr "online") eq_refl))
           0 None None (Some 0%Z)).
  right. right. left. reflexivity.
Defined.

(** When the local transport is available and answers ['online'],
    [send] stops there: one local send (bounded by 1 s when the cloud is
    available too, by 5 s otherwise), no cloud call, no probe. *)
Theorem send_local_confirms
    (m : memory) (device : addr) (d : dict) (params params_lan : pyval)
    (query_cloud : bool) (seq : string) (ok_local ok_cloud : pyval) :
  heap m !! device = Some d ->
  local_online m = true -> truthy (dget_none "host" d) = true ->
  py_eq ok_local (VStr "online") = true ->
  send device params params_lan query_cloud seq ok_local ok_cloud m
  = (m,
     [LocalSend device (py_or params_lan params) seq
        (if cloud_online m && truthy (dget_none "online" d) then 1%Z else 5%Z)],
     Ok tt).
Proof.
  intros Hd Hl Hh Hok.
  rewrite (send_cases m device d params params_lan query_cloud seq
             ok_local ok_cloud Hd).
  rewrite Hl, Hh, Hok. cbn [andb].
  destruct (cloud_online m && truthy (dget_none "online" d)); reflexivity.
Qed.

Lemma send_local_confirms_witness :
  send 0 (VDict Sample.switch_on) VNone true "1700000000000"
    (VStr "online") (VStr "timeout") Sample.online_memory
  = (Sample.online_memory,
     [LocalSend 0 (VDict Sample.switch_on) "1700000000000" 1%Z], Ok tt).
Proof.
  apply (send_local_confirms Sample.online_memory 0 Sample.online_record);
    reflexivity.
Defined.

(** X8. With the local transport only, [send] waits up to 5 s for the
    device and schedules the offline probe when the answer is not
    ['online']; the cloud is not called. *)
Theorem send_local_only
    (m : memory) (device : addr) (d : dict) (params params_lan : pyval)
    (query_cloud : bool) (seq : string) (ok_local ok_cloud : pyval) :
  heap m !! device = Some d ->
  local_online m = true -> truthy (dget_none "host" d) = true ->
  cloud_online m && truthy (dget_none "online" d) = false ->
  send device params params_lan query_cloud seq ok_local ok_cloud m
  = (m,
     LocalSend device (py_or params_lan params) seq 5%Z
       :: (if py_eq ok_local (VStr "online") then [] else [CheckOffline device]),
     Ok tt).
Proof.
  intros Hd Hl Hh Hc.
  rewrite (send_cases m device d params params_lan query_cloud seq
             ok_local ok_cloud Hd).
  rewrite Hl, Hh, Hc. reflexivity.
Qed.

Lemma send_local_only_witness :
  send 0 (VDict Sample.switch_on) VNone true "1700000000000"
    (VStr "timeout") (VStr "online")
    (Memory [Sample.online_record] [("A1", 0)] VNone true false)
  = (Memory [Sample.online_record] [("A1", 0)] VNone true false,
     [LocalSend 0 (VDict Sample.switch_on) "1700000000000" 5%Z; CheckOffline 0],
     Ok tt).
Proof.
  apply (send_local_only _ 0 Sample.online_record); reflexivity.
Defined.

(** X9. With the cloud only, [send] makes the cloud send and then the
    status query exactly when the answer is ['online'] and [query_cloud]
    is set; the local transport is not called and no probe is scheduled. *)
Theorem send_cloud_only
    (m : memory) (device : addr) (d : dict) (params params_lan : pyval)
    (query_cloud : bool) (seq : string) (ok_local ok_cloud : pyval) :
  heap m !! device = Some d ->
  local_online m && truthy (dget_none "host" d) = false ->
  cloud_online m = true -> truthy (dget_none "online" d) = true ->
  send device params params_lan query_cloud seq ok_local ok_cloud m
  = (m,
     CloudSend device (Some params) (Some seq) None
       :: (if py_eq ok_cloud (VStr "online") && query_cloud
           then [CloudSend device None None (Some 0%Z)] else []),
     Ok tt).
Proof.
  intros Hd Hl Hc Ho.
  rewrite (send_cases m device d params params_lan query_cloud seq
             ok_local ok_cloud Hd).
  rewrite Hl, Hc, Ho. reflexivity.
Qed.

Lemma send_cloud_only_witness :
  send 0 (VDict Sample.switch_on) VNone false "1700000000000"
    (VStr "online") (VStr "online")
    (Memory [Sample.online_record] [("A1", 0)] VNone false true)
  = (Memory [Sample.online_record] [("A1", 0)] VNone false true,
     [CloudSend 0 (Some (VDict Sample.switch_on)) (Some "1700000000000") None],
     Ok tt).
Proof.
  apply (send_cloud_only _ 0 Sample.online_record); reflexivity.
Defined.

(** ** Local updates, the remaining branches *)

Lemma dget_none_dset_ne k k' v (d : dict) :
  k <> k' -> dget_none k' (dset k v d) = dget_none k' d.
Proof. intros H. unfold dget_none. now rewrite dget_dset_ne. Qed.

Section LocalUpdateMore.

Variable decrypt_msg : dict -> pyval -> outcome pyval.
Variable setup_diy : dict -> outcome dict.
Variable get_spec : dict -> outcome (list string).
Variable construct : string -> addr -> memory -> list event * outcome entity.

Local Abbreviation local_update :=
  (Registry.local_update decrypt_msg setup_diy get_spec construct).

(** The common handling of params without [online]. *)
Lemma local_common_telemetry
    (m : memory) (msg : dict) (did : string) (a : addr)
    (device params : dict) :
  heap m !! a = Some device ->
  dget "online" params = None ->
  local_common did msg a (VDict params) m
  = (with_heap (<[a := dset "host" (dget_none "host" msg) device]> (heap m)) m,
     [DispatcherSend did (Params (VDict params))], Ok tt).
Proof.
  intros Hd Hno. unfold local_common. run.
  unfold py_contains, dmem. rewrite Hno, Hd. reflexivity.
Qed.

(** X10. A plaintext local message without [online], for a known device,
    records the host of the message on the record ([None] when the message
    has none), keeps the other attributes and the registry, and publishes
    the device signal once with the params. *)
Theorem local_update_telemetry
    (m : memory) (msg : dict) (did : string) (a : addr)
    (device params : dict) :
  dget "deviceid" msg = Some (VStr did) ->
  lookup_device did (devices m) = Some a ->
  heap m !! a = Some device ->
  truthy (VDict device) = true ->
  dget "params" msg = Some (VDict params) ->
  params <> [] ->
  dget "online" params = None ->
  exists m',
    local_update msg m
    = (m', [DispatcherSend did (Params (VDict params))], Ok tt)
    /\ field m' a "host" = Some (dget_none "host" msg)
    /\ (forall k, k <> "host" -> field m' a k = dget k device)
    /\ (forall b, b <> a -> heap m' !! b = heap m !! b)
    /\ devices m' = devices m.
Proof.
  intros Hid Hreg Hheap Hdev Hparams Hne Hno.
  assert (Hp : dget_none "params" msg = VDict params)
    by (unfold dget_none; now rewrite Hparams).
  assert (Ht : truthy (VDict params) = true)
    by (destruct params; [contradiction|reflexivity]).
  eexists. split; [|split; [|split; [|split]]].
  - unfold Registry.local_update. run.
    rewrite (deviceid_of_intro _ _ Hid).
    rewrite (known_device_intro _ _ _ _ Hreg Hheap Hdev).
    rewrite Hp, Ht. cbn [negb].
    rewrite (local_common_telemetry m msg did a device params Hheap Hno).
    reflexivity.
  - unfold field. rewrite heap_with_heap.
    rewrite list_lookup_insert_eq by (eapply lookup_lt_Some; eassumption).
    apply dget_dset_eq.
  - intros k Hk. unfold field. rewrite heap_with_heap.
    rewrite list_lookup_insert_eq by (eapply lookup_lt_Some; eassumption).
    apply dget_dset_ne. congruence.
  - intros b Hb. rewrite heap_with_heap. apply list_lookup_insert_ne. congruence.
  - reflexivity.
Qed.

(** X11. An encrypted local message for a known device is dropped without
    any effect when the record has no [devicekey], and when the
    decryption with the record's key fails. *)
Theorem local_update_encrypted_dropped
    (m : memory) (msg : dict) (did : string) (a : addr) (device : dict) :
  dget "deviceid" msg = Some (VStr did) ->
  lookup_device did (devices m) = Some a ->
  heap m !! a = Some device ->
  truthy (VDict device) = true ->
  truthy (dget_none "params" msg) = false ->
  (dget "devicekey" device = None
   \/ exists key e, dget "devicekey" device = Some key
                    /\ decrypt_msg msg key = Raise e) ->
  local_update msg m = (m, [], Ok tt).
Proof.
  intros Hid Hreg Hheap Hdev Hparams Hkey.
  unfold Registry.local_update. run.
  rewrite (deviceid_of_intro _ _ Hid).
  rewrite (known_device_intro _ _ _ _ Hreg Hheap Hdev).
  rewrite Hparams. cbn [negb]. unfold dmem, dindex.
  destruct Hkey as [Hk|(key & e & Hk & Hdec)]; rewrite Hk; cbn [negb].
  - reflexivity.
  - now rewrite Hdec.
Qed.

(** The common handling looks at the message for its device id and its
    host only. *)
Lemma local_common_msg (did : string) (msg msg' : dict) (a : addr)
    (params : pyval) (m : memory) :
  deviceid_of msg' = deviceid_of msg ->
  dget_none "host" msg' = dget_none "host" msg ->
  local_common did msg' a params m = local_common did msg a params m.
Proof.
  intros Hid Hhost. unfold local_common. run. now rewrite Hid, Hhost.
Qed.

(** X12. Encryption is transparent for a known device: an encrypted
    message that the record's [devicekey] decrypts to (non-empty) params
    is handled exactly as the same message carrying those params in
    plaintext. *)
Theorem local_update_decrypt_transparent
    (m : memory) (msg : dict) (did : string) (a : addr) (device : dict)
    (key params : pyval) :
  dget "deviceid" msg = Some (VStr did) ->
  lookup_device did (devices m) = Some a ->
  heap m !! a = Some device ->
  truthy (VDict device) = true ->
  truthy (dget_none "params" msg) = false ->
  dget "devicekey" device = Some key ->
  decrypt_msg msg key = Ok params ->
  truthy params = true ->
  local_update msg m = local_update (dset "params" params msg) m.
Proof.
  intros Hid Hreg Hheap Hdev Hparams Hkey Hdec Ht.
  assert (Hid' : dget "deviceid" (dset "params" params msg) = Some (VStr did))
    by (rewrite dget_dset_ne by discriminate; exact Hid).
  unfold Registry.local_update. run.
  rewrite (deviceid_of_intro _ _ Hid), (deviceid_of_intro _ _ Hid').
  rewrite (known_device_intro _ _ _ _ Hreg Hheap Hdev).
  rewrite Hparams. cbn [negb]. unfold dmem, dindex. rewrite Hkey, Hdec.
  cbn [negb].
  assert (Hp : dget_none "params" (dset "params" params msg) = params)
    by (unfold dget_none; now rewrite dget_dset_eq).
  rewrite Hp, Ht. cbn [negb].
  rewrite (local_common_msg did msg (dset "params" params msg) a params m).
  - destruct (local_common did msg a params m) as [[m' tr] r]. reflexivity.
  - now rewrite (deviceid_of_intro _ _ Hid), (deviceid_of_intro _ _ Hid').
  - apply dget_none_dset_ne. discriminate.
Qed.

(** X13. The placeholder does its work: after an encrypted broadcast of an
    unknown device could not be decrypted, the same broadcast again (a
    message without [devicekey]) is dropped without any effect, and the
    configuration is not consulted a second time. *)
Theorem local_update_placeholder_twice
    (m : memory) (msg : dict) (did : string) (e : exn) :
  dget "deviceid" msg = Some (VStr did) ->
  lookup_device did (devices m) = None ->
  truthy (dget_none "params" msg) = false ->
  dget "devicekey" msg = None ->
  decrypt_with_config decrypt_msg (config m) did msg = Raise e ->
  let m1 := fst (fst (local_update msg m)) in
  forall cfg,
    let m2 := Memory (heap m1) (devices m1) cfg (local_online m1) (cloud_online m1) in
    local_update msg m2 = (m2, [], Ok tt).
Proof.
  intros Hid Hreg Hparams Hnokey Hdec m1 cfg m2.
  assert (Hm1 : m1 = Memory (heap m ++ [msg]) (devices m ++ [(did, length (heap m))])
                       (config m) (local_online m) (cloud_online m)).
  { unfold m1, Registry.local_update. run.
    rewrite (deviceid_of_intro _ _ Hid), (known_device_absent _ _ Hreg).
    rewrite Hparams, Hdec. cbn [negb]. run.
    autorewrite with memory.
    now rewrite (store_device_new _ _ _ Hreg). }
  unfold m2. rewrite Hm1. cbn [heap devices local_online cloud_online].
  unfold Registry.local_update. run.
  rewrite (deviceid_of_intro _ _ Hid).
  erewrite known_device_intro; cycle 1.
  - cbn [devices]. apply lookup_device_new. exact Hreg.
  - cbn [heap]. apply list_lookup_middle. reflexivity.
  - exact (dget_truthy _ _ _ Hid).
  - rewrite Hparams. cbn [negb]. unfold dmem. rewrite Hnokey. reflexivity.
Qed.

(** X14. A message that carries params is never decrypted: the handler
    gives the same result whatever the cipher does. *)
Theorem local_update_plaintext_no_decrypt
    (decrypt_msg' : dict -> pyval -> outcome pyval) (msg : dict) (m : memory) :
  truthy (dget_none "params" msg) = true ->
  local_update msg m
  = Registry.local_update decrypt_msg' setup_diy get_spec construct msg m.
Proof.
  intros Ht. unfold Registry.local_update. run. rewrite Ht. cbn [negb].
  destruct (deviceid_of msg) as [did|e]; [|reflexivity].
  destruct (known_device m did) as [[a device]|]; reflexivity.
Qed.

End LocalUpdateMore.

Lemma local_update_telemetry_witness :
  exists m',
    local_update Sample.decrypt_msg Sample.setup_diy Sample.get_spec Sample.construct
      Sample.telemetry_msg Sample.online_memory
    = (m', [DispatcherSend "A1" (Params (VDict Sample.switch_on))], Ok tt)
    /\ field m' 0 "host" = Some (dget_none "host" Sample.telemetry_msg)
    /\ (forall k, k <> "host" -> field m' 0 k = dget k Sample.online_record)
    /\ (forall b, b <> 0 -> heap m' !! b = heap Sample.online_memory !! b)
    /\ devices m' = devices Sample.online_memory.
Proof.
  apply (local_update_telemetry Sample.decrypt_msg Sample.setup_diy
           Sample.get_spec Sample.construct Sample.online_memory Sample.telemetry_msg "A1" 0
           Sample.online_record Sample.switch_on);
    try reflexivity; discriminate.
Defined.

Lemma local_update_encrypted_dropped_witness :
  local_update Sample.decrypt_msg Sample.setup_diy Sample.get_spec Sample.construct
    Sample.encrypted_msg Sample.online_memory
  = (Sample.online_memory, [], Ok tt).
Proof.
  apply (local_update_encrypted_dropped Sample.decrypt_msg Sample.setup_diy
           Sample.get_spec Sample.construct Sample.online_memory Sample.encrypted_msg "A1" 0
           Sample.online_record); try reflexivity.
  left. reflexivity.
Defined.

Lemma local_update_decrypt_transparent_witness :
  local_update Sample.decrypt_msg Sample.setup_diy Sample.get_spec Sample.construct
    Sample.encrypted_msg Sample.keyed_record_memory
  = local_update Sample.decrypt_msg Sample.setup_diy Sample.get_spec Sample.construct
      (dset "params" (VDict Sample.switch_on) Sample.encrypted_msg)
      Sample.keyed_record_memory.
Proof.
  apply (local_update_decrypt_transparent Sample.decrypt_msg Sample.setup_diy
           Sample.get_spec Sample.construct Sample.keyed_record_memory Sample.encrypted_msg
           "A1" 0 Sample.keyed_record (VStr "k1") (VDict Sample.switch_on));
    reflexivity.
Defined.

Lemma local_update_placeholder_twice_witness :
  let m1 := fst (fst (local_update Sample.decrypt_msg Sample.setup_diy
                        Sample.get_spec Sample.construct Sample.broadcast
                        Sample.wrong_key_memory)) in
  let m2 := Memory (heap m1) (devices m1) Sample.keyed_config (local_online m1)
              (cloud_online m1) in
  local_update Sample.decrypt_msg Sample.setup_diy Sample.get_spec Sample.construct
    Sample.broadcast m2 = (m2, [], Ok tt).
Proof.
  apply (local_update_placeholder_twice Sample.decrypt_msg Sample.setup_diy
           Sample.get_spec Sample.construct Sample.wrong_key_memory Sample.broadcast "B2"
           ValueError eq_refl eq_refl eq_refl eq_refl eq_refl
           Sample.keyed_config).
Defined.

Lemma local_update_plaintext_no_decrypt_witness :
  local_update Sample.decrypt_msg Sample.setup_diy Sample.get_spec Sample.construct
    Sample.telemetry_msg Sample.online_memory
  = local_update (fun _ _ => Raise TypeError) Sample.setup_diy Sample.get_spec Sample.construct
      Sample.telemetry_msg Sample.online_memory.
Proof.
  apply (local_update_plaintext_no_decrypt Sample.decrypt_msg Sample.setup_diy
           Sample.get_spec Sample.construct (fun _ _ => Raise TypeError)). reflexivity.
Defined.

(** ** The registry only grows *)

Import Frame.

Lemma lookup_store_device_eq did a (r : list (string * addr)) :
  lookup_device did (store_device did a r) = Some a.
Proof.
  induction r as [|[k b] r IH]; cbn [store_device lookup_device].
  - now rewrite String.eqb_refl.
  - destruct (String.eqb k did) eqn:E; cbn [lookup_device]; rewrite E;
      [reflexivity|exact IH].
Qed.

Lemma lookup_store_device_ne did k a (r : list (string * addr)) :
  k <> did -> lookup_device k (store_device did a r) = lookup_device k r.
Proof.
  intros Hne. induction r as [|[k0 b] r IH]; cbn [store_device lookup_device].
  - destruct (String.eqb did k) eqn:E; [|reflexivity].
    apply String.eqb_eq in E. congruence.
  - destruct (String.eqb k0 did) eqn:E; cbn [lookup_device].
    + apply String.eqb_eq in E. subst k0.
      destruct (String.eqb did k) eqn:E'; [|reflexivity].
      apply String.eqb_eq in E'. congruence.
    + destruct (String.eqb k0 k); [reflexivity|exact IH].
Qed.

Lemma length_store_device did a (r : list (string * addr)) :
  length (store_device did a r)
  = match lookup_device did r with
    | Some _ => length r
    | None => S (length r)
    end.
Proof.
  induction r as [|[k b] r IH]; cbn [store_device lookup_device length];
    [reflexivity|].
  destruct (String.eqb k did); cbn [length]; [reflexivity|].
  rewrite IH. now destruct (lookup_device did r).
Qed.

Lemma keeps_ids_same {A} (c : M A) :
  (forall m, devices (fst (fst (c m))) = devices m) -> keeps_ids c.
Proof. intros H m k Hk. now rewrite H. Qed.

Lemma keeps_ids_bind {A B} (c : M A) (k : A -> M B) :
  keeps_ids c -> (forall a, keeps_ids (k a)) -> keeps_ids (bind c k).
Proof.
  intros Hc Hk m key Hin. unfold bind.
  specialize (Hc m key Hin).
  destruct (c m) as [[m1 t1] [a|e]]; cbn [fst] in *; [|exact Hc].
  specialize (Hk a m1 key Hc).
  destruct (k a m1) as [[m2 t2] r]. exact Hk.
Qed.

Lemma keeps_ids_register did a : keeps_ids (register did a).
Proof.
  intros m k Hk. cbn. destruct (string_dec k did) as [->|Hne].
  - rewrite lookup_store_device_eq. eauto.
  - now rewrite lookup_store_device_ne.
Qed.

(** Closing a goal [keeps_ids c] along the structure of [c]. *)
Ltac keeps_ids :=
  repeat first
    [ apply keeps_ids_register
    | apply keeps_ids_bind; [|intros]
    | apply keeps_ids_same; reflexivity
    | apply keeps_ids_same; intros ?; unfold load;
      match goal with |- context [heap ?m !! ?a] => destruct (heap m !! a) end;
      reflexivity
    | match goal with
      | |- keeps_ids (if ?b then _ else _) => destruct b
      | |- keeps_ids (match ?x with _ => _ end) => destruct x
      end ].

Section RegistryGrows.

Variable decrypt_msg : dict -> pyval -> outcome pyval.
Variable setup_diy : dict -> outcome dict.
Variable get_spec : dict -> outcome (list string).
Variable construct : string -> addr -> memory -> list event * outcome entity.

(** The constructors leave the memory as it is. *)
Lemma construct_all_memory spec a m :
  fst (fst (construct_all construct spec a m)) = m.
Proof.
  induction spec as [|cls spec IH]; [reflexivity|].
  cbn [construct_all]. unfold bind at 1.
  destruct (construct cls a m) as [tr [e|ex]]; [|reflexivity].
  unfold bind at 1.
  destruct (construct_all construct spec a m) as [[m1 t1] [es|ex]];
    cbn [fst snd] in *; subst m1; reflexivity.
Qed.

Lemma keeps_ids_construct_all spec a :
  keeps_ids (construct_all construct spec a).
Proof. apply keeps_ids_same. intros m. now rewrite construct_all_memory. Qed.

Lemma keeps_ids_setup_devices devs :
  keeps_ids (setup_devices get_spec construct devs).
Proof.
  induction devs as [|a devs IH]; cbn [setup_devices]; [keeps_ids|].
  unfold dispatcher_send.
  keeps_ids; first [exact IH | apply keeps_ids_construct_all].
Qed.

Lemma keeps_ids_alloc_all records : keeps_ids (alloc_all records).
Proof. induction records as [|d r IH]; cbn [alloc_all]; keeps_ids. exact IH. Qed.

Lemma keeps_ids_local_common did msg a params :
  keeps_ids (local_common did msg a params).
Proof. unfold local_common, dispatcher_send. keeps_ids. Qed.

(** X15. No handler removes a device: an id that is in the registry is
    still there after [cloud_update], after [local_update] and after
    [setup_devices], whatever the message or the records and whether or
    not the handler raises. *)
Theorem handlers_keep_ids :
  (forall msg, keeps_ids (cloud_update msg))
  /\ (forall msg,
        keeps_ids (Registry.local_update decrypt_msg setup_diy get_spec construct msg))
  /\ (forall records, keeps_ids (setup_records get_spec construct records)).
Proof.
  split; [|split].
  - intros msg. apply keeps_ids_same. intros m.
    exact (proj1 (cloud_update_unchanged msg m)).
  - intros msg. unfold Registry.local_update, local_register. keeps_ids;
      first [apply keeps_ids_setup_devices | apply keeps_ids_local_common
            | apply keeps_ids_construct_all].
  - intros records. unfold setup_records. keeps_ids.
    + apply keeps_ids_alloc_all.
    + apply keeps_ids_setup_devices.
Qed.

End RegistryGrows.

Lemma handlers_keep_ids_witness :
  is_Some (lookup_device "A1"
             (devices (fst (fst (local_update Sample.decrypt_msg
                                   Sample.setup_diy Sample.get_spec Sample.construct
                                   Sample.broadcast Sample.online_memory))))).
Proof.
  apply (proj1 (proj2 (handlers_keep_ids Sample.decrypt_msg Sample.setup_diy
                         Sample.get_spec Sample.construct)) Sample.broadcast
           Sample.online_memory "A1").
  cbn. eauto.
Defined.

(** ** Bulk registration *)

Lemma dget_app_last k k0 v0 (d : dict) :
  dget k (d ++ [(k0, v0)])
  = match dget k d with
    | Some v => Some v
    | None => if String.eqb k0 k then Some v0 else None
    end.
Proof.
  induction d as [|[k' v'] d IH]; cbn [app dget]; [reflexivity|].
  destruct (String.eqb k' k); [reflexivity|exact IH].
Qed.

(** [d.update(other)]: the last binding of a key in [other] wins, and keys
    that [other] does not have are kept. *)
Lemma dget_dupdate k (other : dict) :
  forall d,
    dget k (dupdate d other)
    = match dget k (rev other) with
      | Some v => Some v
      | None => dget k d
      end.
Proof.
  unfold dupdate. induction other as [|[k0 v0] other IH]; intros d;
    cbn [fold_left rev fst snd]; [reflexivity|].
  rewrite IH, dget_app_last.
  destruct (dget k (rev other)); [reflexivity|].
  destruct (String.eqb k0 k) eqn:E.
  - apply String.eqb_eq in E. subst. apply dget_dset_eq.
  - apply dget_dset_ne. intros ->. now rewrite String.eqb_refl in E.
Qed.

Lemma dget_not_key k (d : dict) : ~ In k (map fst d) -> dget k d = None.
Proof.
  induction d as [|[k' v'] d IH]; cbn [map fst In dget]; [reflexivity|].
  intros H. destruct (String.eqb k' k) eqn:E.
  - apply String.eqb_eq in E. tauto.
  - apply IH. tauto.
Qed.

(** With distinct keys the order of the bindings does not matter. *)
Lemma dget_rev k (d : dict) : List.NoDup (map fst d) -> dget k (rev d) = dget k d.
Proof.
  induction d as [|[k0 v0] d IH]; cbn [map fst rev dget]; [reflexivity|].
  intros Hnd. apply List.NoDup_cons_iff in Hnd as [Hnotin Hnd].
  rewrite dget_app_last, (IH Hnd).
  destruct (String.eqb k0 k) eqn:E.
  - apply String.eqb_eq in E. subst. now rewrite (dget_not_key _ _ Hnotin).
  - now destruct (dget k d).
Qed.

Section SetupDevices.

Variable get_spec : dict -> outcome (list string).
Variable construct : string -> addr -> memory -> list event * outcome entity.

Local Abbreviation setup_devices := (Registry.setup_devices get_spec construct).

(** Registering the record at [a] when it is complete. *)
Lemma setup_devices_cons_ok
    (m : memory) (a : addr) (rest : list addr) (record merged : dict)
    (did : string) (uiid p : pyval) (spec : list string)
    (ctr : list event) (entities : list entity) :
  heap m !! a = Some record ->
  dget "deviceid" record = Some (VStr did) ->
  merge_override (config m) did record = Ok merged ->
  device_uiid merged = Ok uiid ->
  format_04 uiid = Ok tt ->
  dget "params" merged = Some p ->
  get_spec merged = Ok spec ->
  Frame.constructed construct a (with_heap (<[a := merged]> (heap m)) m)
    spec ctr entities ->
  setup_devices (a :: rest) m
  = (fst (fst (setup_devices rest
                 (Memory (<[a := merged]> (heap m))
                    (store_device did a (devices m))
                    (config m) (local_online m) (cloud_online m)))),
     (ctr ++ [DispatcherSend SIGNAL_ADD_ENTITIES (Entities entities)])
     ++ snd (fst (setup_devices rest
                    (Memory (<[a := merged]> (heap m))
                       (store_device did a (devices m))
                       (config m) (local_online m) (cloud_online m)))),
     snd (setup_devices rest
            (Memory (<[a := merged]> (heap m))
               (store_device did a (devices m))
               (config m) (local_online m) (cloud_online m)))).
Proof.
  intros Hd Hid Hm Huiid Hfmt Hp Hspec Hcons.
  cbn [Registry.setup_devices]. run. rewrite Hd.
  rewrite (deviceid_of_intro _ _ Hid). autorewrite with memory.
  rewrite Hm, Huiid, Hfmt. unfold dindex. rewrite Hp, Hspec.
  autorewrite with memory.
  rewrite (construct_all_constructed _ _ _ _ _ _ Hcons).
  cbn [fst snd app]. autorewrite with memory.
  destruct (setup_devices rest _) as [[m2 t2] r2].
  cbn [fst snd]. now rewrite <- app_assoc.
Qed.

(** A mapping as override is merged key by key. *)
Lemma merge_override_dict cfg did (record override : dict) :
  config_device cfg did = Ok (VDict override) ->
  merge_override cfg did record = Ok (dupdate record override).
Proof. intros H. unfold merge_override. now rewrite H. Qed.

(** X16. The configuration override wins: after [setup_devices] has
    registered a record whose device id has a mapping as override, each
    attribute that the override gives has the value of the override, every
    other attribute is as the record had it, the id refers to the record
    and ["add_entities"] is published with the entities of the merged
    record, after the calls that the constructors of these entities
    make. *)
Theorem setup_devices_override_wins
    (m : memory) (a : addr) (record override : dict) (did : string)
    (uiid p : pyval) (spec : list string)
    (ctr : list event) (entities : list entity) :
  heap m !! a = Some record ->
  dget "deviceid" record = Some (VStr did) ->
  config_device (config m) did = Ok (VDict override) ->
  List.NoDup (map fst override) ->
  device_uiid (dupdate record override) = Ok uiid ->
  format_04 uiid = Ok tt ->
  dget "params" (dupdate record override) = Some p ->
  get_spec (dupdate record override) = Ok spec ->
  Frame.constructed construct a
    (with_heap (<[a := dupdate record override]> (heap m)) m)
    spec ctr entities ->
  exists m',
    setup_devices [a] m
    = (m',
       ctr ++ [DispatcherSend SIGNAL_ADD_ENTITIES (Entities entities)],
       Ok tt)
    /\ lookup_device did (devices m') = Some a
    /\ forall k,
         field m' a k
         = match dget k override with
           | Some v => Some v
           | None => dget k record
           end.
Proof.
  intros Hd Hid Hcfg Hnd Huiid Hfmt Hp Hspec Hcons.
  pose proof (merge_override_dict _ _ record _ Hcfg) as Hm.
  eexists. split; [|split].
  - rewrite (setup_devices_cons_ok m a [] record _ did uiid p spec ctr entities
               Hd Hid Hm Huiid Hfmt Hp Hspec Hcons).
    cbn [Registry.setup_devices ret fst snd]. rewrite app_nil_r. reflexivity.
  - cbn [devices]. apply lookup_store_device_eq.
  - intros k. unfold field. cbn [heap].
    rewrite list_lookup_insert_eq by (eapply lookup_lt_Some; eassumption).
    rewrite dget_dupdate. now rewrite (dget_rev _ _ Hnd).
Qed.

(** When the lookup raises, and when it gives [None], a boolean, a number
    or a string, the record is left as it came. *)
Lemma merge_override_unusable cfg did (record : dict) :
  Frame.unusable (config_device cfg did) ->
  merge_override cfg did record = Ok record.
Proof.
  unfold Frame.unusable, merge_override.
  destruct (config_device cfg did) as [[| | |[|c s]| |]|e];
    try reflexivity; contradiction.
Qed.

(** X17. A configuration that cannot be used does not stop the
    registration: when the lookup [config["devices"][deviceid]] raises, or
    gives [None], a boolean, a number or a string, the record is
    registered with the attributes it came with. *)
Theorem setup_devices_bad_config
    (m : memory) (a : addr) (record : dict) (did : string)
    (uiid p : pyval) (spec : list string)
    (ctr : list event) (entities : list entity) :
  heap m !! a = Some record ->
  dget "deviceid" record = Some (VStr did) ->
  Frame.unusable (config_device (config m) did) ->
  device_uiid record = Ok uiid ->
  format_04 uiid = Ok tt ->
  dget "params" record = Some p ->
  get_spec record = Ok spec ->
  Frame.constructed construct a m spec ctr entities ->
  exists m',
    setup_devices [a] m
    = (m',
       ctr ++ [DispatcherSend SIGNAL_ADD_ENTITIES (Entities entities)],
       Ok tt)
    /\ lookup_device did (devices m') = Some a
    /\ heap m' = heap m.
Proof.
  intros Hd Hid Hcfg Huiid Hfmt Hp Hspec Hcons.
  pose proof (merge_override_unusable _ _ record Hcfg) as Hm.
  assert (Hh : <[a := record]> (heap m) = heap m) by now apply list_insert_id.
  assert (Hc : Frame.constructed construct a
                 (with_heap (<[a := record]> (heap m)) m) spec ctr entities).
  { rewrite Hh. now destruct m. }
  eexists. split; [|split].
  - rewrite (setup_devices_cons_ok m a [] record _ did uiid p spec ctr entities
               Hd Hid Hm Huiid Hfmt Hp Hspec Hc).
    cbn [Registry.setup_devices ret fst snd]. rewrite app_nil_r. reflexivity.
  - cbn [devices]. apply lookup_store_device_eq.
  - cbn [heap]. exact Hh.
Qed.

(** X18. Registering a device id again replaces its entry: the id then
    refers to the new record, the other ids refer to what they did, and
    the registry has one more entry only when the id was not there. *)
Theorem setup_devices_replaces
    (m : memory) (a : addr) (record merged : dict) (did : string)
    (uiid p : pyval) (spec : list string)
    (ctr : list event) (entities : list entity) :
  heap m !! a = Some record ->
  dget "deviceid" record = Some (VStr did) ->
  merge_override (config m) did record = Ok merged ->
  device_uiid merged = Ok uiid ->
  format_04 uiid = Ok tt ->
  dget "params" merged = Some p ->
  get_spec merged = Ok spec ->
  Frame.constructed construct a (with_heap (<[a := merged]> (heap m)) m)
    spec ctr entities ->
  let m' := fst (fst (setup_devices [a] m)) in
  snd (setup_devices [a] m) = Ok tt
  /\ lookup_device did (devices m') = Some a
  /\ (forall k, k <> did ->
        lookup_device k (devices m') = lookup_device k (devices m))
  /\ length (devices m')
     = match lookup_device did (devices m) with
       | Some _ => length (devices m)
       | None => S (length (devices m))
       end.
Proof.
  intros Hd Hid Hm Huiid Hfmt Hp Hspec Hcons m'. subst m'.
  rewrite (setup_devices_cons_ok m a [] record merged did uiid p spec ctr
             entities Hd Hid Hm Huiid Hfmt Hp Hspec Hcons).
  cbn [fst snd devices Registry.setup_devices ret].
  split; [|split; [|split]].
  - reflexivity.
  - apply lookup_store_device_eq.
  - intros k Hk. now apply lookup_store_device_ne.
  - apply length_store_device.
Qed.

Lemma setup_devices_app (l1 l2 : list addr) (m : memory) :
  setup_devices (l1 ++ l2) m
  = bind (setup_devices l1) (fun _ => setup_devices l2) m.
Proof.
  revert m. induction l1 as [|a l1 IH]; intros m; cbn [app Registry.setup_devices].
  - unfold bind, ret. destruct (setup_devices l2 m) as [[m2 t2] r2]. reflexivity.
  - run.
    destruct (heap m !! a) as [record|]; [|reflexivity].
    destruct (deviceid_of record) as [did|e]; [|reflexivity].
    destruct (merge_override (config m) did record) as [merged|e];
      [|reflexivity].
    destruct (device_uiid merged) as [uiid|e]; [|reflexivity].
    destruct (format_04 uiid) as [[]|e]; [|reflexivity].
    destruct (dindex "params" merged) as [p|e]; [|reflexivity].
    destruct (get_spec merged) as [spec|e]; [|reflexivity].
    match goal with
    | |- context [construct_all construct spec a ?x] =>
        destruct (construct_all construct spec a x) as [[m0 t0] [es|e]]
    end; [|reflexivity].
    rewrite IH. unfold bind.
    destruct (setup_devices l1 _) as [[m1 t1] [[]|e]];
      [destruct (setup_devices l2 m1) as [[m2 t2] r2]|];
      cbn [app]; rewrite <- ?app_assoc; cbn [app]; reflexivity.
Qed.

(** X19. A record without [extra] stops the batch: when the record, with
    the override of the configuration merged in, has no [extra],
    [setup_devices] raises [KeyError] at that record, which is neither
    registered nor announced; the records before it stay registered and
    announced, the records after it are not looked at. *)
Theorem setup_devices_missing_extra
    (m m1 : memory) (before rest : list addr) (a : addr)
    (record merged : dict) (did : string) (t1 : list event) :
  setup_devices before m = (m1, t1, Ok tt) ->
  heap m1 !! a = Some record ->
  dget "deviceid" record = Some (VStr did) ->
  merge_override (config m1) did record = Ok merged ->
  dget "extra" merged = None ->
  setup_devices (before ++ a :: rest) m
  = (with_heap (<[a := merged]> (heap m1)) m1, t1, Raise KeyError).
Proof.
  intros Hbefore Hd Hid Hm Hextra.
  rewrite setup_devices_app. unfold bind. rewrite Hbefore.
  cbn [Registry.setup_devices]. run. rewrite Hd.
  rewrite (deviceid_of_intro _ _ Hid). autorewrite with memory.
  rewrite Hm. unfold device_uiid, dindex, obind. rewrite Hextra.
  now rewrite app_nil_r.
Qed.

End SetupDevices.

Lemma setup_devices_override_wins_witness :
  exists m',
    setup_devices Sample.bridge_spec Sample.construct [0]
      (Sample.cloud_bridge_memory Sample.rename_config)
    = (m',
       ([DispatcherSend SIGNAL_ADD_ENTITIES
           (ChildValues [BuiltChild (Entity "XRemoteButton" 0)])] ++ [])
       ++ [DispatcherSend SIGNAL_ADD_ENTITIES (Entities [Entity "XRemote" 0])],
       Ok tt)
    /\ lookup_device "A1" (devices m') = Some 0
    /\ forall k,
         field m' 0 k
         = match dget k Sample.rename_override with
           | Some v => Some v
           | None => dget k Sample.cloud_bridge
           end.
Proof.
  apply (setup_devices_override_wins Sample.bridge_spec Sample.construct
           (Sample.cloud_bridge_memory Sample.rename_config) 0
           Sample.cloud_bridge Sample.rename_override "A1" (VInt 28)
           (VDict Sample.learned_params) ["XRemote"]
           ([DispatcherSend SIGNAL_ADD_ENTITIES
               (ChildValues [BuiltChild (Entity "XRemoteButton" 0)])] ++ [])
           [Entity "XRemote" 0]); try reflexivity.
  - repeat constructor; cbn; tauto.
  - apply Frame.constructed_cons; [reflexivity | apply Frame.constructed_nil].
Defined.

Lemma setup_devices_bad_config_witness :
  exists m',
    setup_devices Sample.get_spec Sample.construct [0]
      (Sample.fresh_memory (VDict [("devices", VDict [("A1", VStr "Desk")])]))
    = (m',
       [] ++ [DispatcherSend SIGNAL_ADD_ENTITIES (Entities [Entity "XSwitch" 0])],
       Ok tt)
    /\ lookup_device "A1" (devices m') = Some 0
    /\ heap m'
       = heap (Sample.fresh_memory
                 (VDict [("devices", VDict [("A1", VStr "Desk")])])).
Proof.
  apply (setup_devices_bad_config Sample.get_spec Sample.construct
           (Sample.fresh_memory (VDict [("devices", VDict [("A1", VStr "Desk")])]))
           0 Sample.cloud_record "A1" (VInt 1) (VDict Sample.switch_on)
           ["XSwitch"] ([] ++ []) [Entity "XSwitch" 0]);
    try reflexivity; try exact I.
  apply Frame.constructed_cons; [reflexivity | apply Frame.constructed_nil].
Defined.

Lemma setup_devices_replaces_witness :
  let m := Memory [Sample.online_record; Sample.cloud_record] [("A1", 0)]
             Sample.pairs_config true true in
  let m' := fst (fst (setup_devices Sample.get_spec Sample.construct [1] m)) in
  snd (setup_devices Sample.get_spec Sample.construct [1] m) = Ok tt
  /\ lookup_device "A1" (devices m') = Some 1
  /\ (forall k, k <> "A1" ->
        lookup_device k (devices m') = lookup_device k (devices m))
  /\ length (devices m')
     = match lookup_device "A1" (devices m) with
       | Some _ => length (devices m)
       | None => S (length (devices m))
       end.
Proof.
  intros m.
  apply (setup_devices_replaces Sample.get_spec Sample.construct m 1
           Sample.cloud_record (dset "name" (VStr "Desk") Sample.cloud_record)
           "A1" (VInt 1) (VDict Sample.switch_on) ["XSwitch"]
           ([] ++ []) [Entity "XSwitch" 1]); try reflexivity.
  apply Frame.constructed_cons; [reflexivity | apply Frame.constructed_nil].
Defined.

Lemma setup_devices_missing_extra_witness :
  setup_devices Sample.get_spec Sample.construct ([0] ++ 1 :: [0])
    (Sample.fresh_memory VNone)
  = (with_heap (<[1 := Sample.bare_record]>
                  (heap (Memory [Sample.cloud_record; Sample.bare_record]
                           [("A1", 0)] VNone true true)))
       (Memory [Sample.cloud_record; Sample.bare_record] [("A1", 0)]
          VNone true true),
     [DispatcherSend SIGNAL_ADD_ENTITIES (Entities [Entity "XSwitch" 0])],
     Raise KeyError).
Proof.
  apply (setup_devices_missing_extra Sample.get_spec Sample.construct
           (Sample.fresh_memory VNone)
           (Memory [Sample.cloud_record; Sample.bare_record] [("A1", 0)]
              VNone true true)
           [0] [0] 1 Sample.bare_record Sample.bare_record "C3"
           [DispatcherSend SIGNAL_ADD_ENTITIES (Entities [Entity "XSwitch" 0])]);
    reflexivity.
Defined.

(** A list of pairs as override is applied too, and the pairs before an
    element that is not a pair stay applied when [update] raises. *)
Example merge_override_pairs :
  merge_override Sample.pairs_config "A1" Sample.cloud_record
  = Ok (dset "name" (VStr "Desk") Sample.cloud_record)
  /\ merge_override
       (VDict [("devices",
                VDict [("A1", VList [VList [VStr "name"; VStr "Desk"]; VInt 7;
                                     VList [VStr "online"; VBool false]])])])
       "A1" Sample.cloud_record
     = Ok (dset "name" (VStr "Desk") Sample.cloud_record).
Proof. split; reflexivity. Qed.

(** ** Shutdown and reconnection *)

Section TasksMore.

Variable decrypt_msg : dict -> pyval -> outcome pyval.
Variable setup_diy : dict -> outcome dict.
Variable get_spec : dict -> outcome (list string).
Variable construct : string -> addr -> memory -> list event * outcome entity.
Variable POW_UI_ACTIVE : list (Z * (Z * pyval)).

Local Abbreviation reachable :=
  (Registry.reachable decrypt_msg setup_diy get_spec construct POW_UI_ACTIVE).

(** X20. After [cloud_connected] the activation task is running, and a
    second [cloud_connected] in a row creates no task: it publishes the
    device signals again and leaves the state as it is. *)
Theorem cloud_connected_ensures_task (s : state) :
  let s1 := fst (cloud_connected s) in
  task_running s1 = true
  /\ cloud_connected s1
     = (s1, map (fun kv => DispatcherSend (fst kv) NoArgs) (devices (mem s1))).
Proof.
  intros s1.
  assert (Hrun : task_running s1 = true).
  { unfold s1, cloud_connected.
    destruct (task_running s) eqn:E; cbn [fst]; [exact E|].
    unfold task_running. cbn [task tasks].
    rewrite list_lookup_middle by reflexivity. reflexivity. }
  split; [exact Hrun|]. unfold cloud_connected at 1. now rewrite Hrun.
Qed.

(** X21. Shutdown: [stop] empties the registry, so that a later
    [cloud_connected] publishes no device signal, and in a state the
    registry can reach, once the task [self.task] has run after [stop], no
    activation task is left running. *)
Theorem stop_ends_tasks (cfg : pyval) (s : state) (tid : nat) (now : Z) :
  reachable (init cfg) s ->
  task s = Some tid ->
  let s1 := fst (stop s) in
  devices (mem s1) = []
  /\ published (snd (cloud_connected s1)) = []
  /\ running_tasks (fst (run_task POW_UI_ACTIVE tid now s1)) = 0.
Proof.
  intros Hr Htask s1.
  pose proof (single_task_reachable decrypt_msg setup_diy get_spec construct POW_UI_ACTIVE
                _ _ (single_task_init cfg) Hr) as Hs.
  split; [reflexivity|]. split.
  { unfold cloud_connected. destruct (task_running s1); reflexivity. }
  unfold running_tasks. rewrite no_running_filter; [reflexivity|].
  intros i t Ht.
  destruct (done t) eqn:Hd; [reflexivity|]. exfalso.
  assert (Hother : tid <> i -> alter cancel tid (tasks s) !! i = Some t -> False).
  { intros Hne Hl. rewrite list_lookup_alter_ne in Hl by exact Hne.
    pose proof (Hs _ _ Hl Hd). congruence. }
  unfold s1, stop, run_task in Ht. cbn [fst tasks task mem] in Ht.
  rewrite Htask in Ht. rewrite list_lookup_alter_eq in Ht.
  destruct (tasks s !! tid) as [u|] eqn:Hu.
  - change (cancel <$> Some u) with (Some (cancel u)) in Ht.
    cbv beta iota in Ht. rewrite done_cancel in Ht.
    destruct (done u) eqn:Hdu; cbn [fst tasks] in Ht.
    + destruct (decide (tid = i)) as [<-|Hne]; [|exact (Hother Hne Ht)].
      rewrite list_lookup_alter_eq, Hu in Ht.
      change (cancel <$> Some u) with (Some (cancel u)) in Ht.
      injection Ht as <-. rewrite done_cancel in Hd. congruence.
    + assert (Hc : cancelling (cancel u) = true)
        by (unfold cancel; now rewrite Hdu).
      rewrite Hc in Ht. cbn [fst tasks] in Ht.
      destruct (decide (tid = i)) as [<-|Hne].
      * rewrite list_lookup_insert_eq in Ht.
        -- injection Ht as <-. discriminate Hd.
        -- rewrite length_alter. eapply lookup_lt_Some; eassumption.
      * rewrite list_lookup_insert_ne in Ht by exact Hne.
        exact (Hother Hne Ht).
  - change (cancel <$> None) with (@None task_state) in Ht.
    cbv beta iota in Ht. cbn [fst tasks] in Ht.
    destruct (decide (tid = i)) as [<-|Hne]; [|exact (Hother Hne Ht)].
    rewrite list_lookup_alter_eq, Hu in Ht. discriminate Ht.
Qed.

End TasksMore.

Lemma cloud_connected_ensures_task_witness :
  task_running (fst (cloud_connected (init VNone))) = true.
Proof. exact (proj1 (cloud_connected_ensures_task (init VNone))). Defined.

Lemma stop_ends_tasks_witness :
  let s := fst (cloud_connected (init VNone)) in
  let s1 := fst (stop s) in
  devices (mem s1) = []
  /\ published (snd (cloud_connected s1)) = []
  /\ running_tasks (fst (run_task Sample.POW_UI_ACTIVE 0 1000 s1)) = 0.
Proof.
  intros s.
  apply (stop_ends_tasks Sample.decrypt_msg Sample.setup_diy Sample.get_spec Sample.construct
           Sample.POW_UI_ACTIVE VNone s 0 1000%Z); [|reflexivity].
  eapply reachable_step; [|apply step_cloud_connected].
  apply reachable_start.
Defined.

(** ** The activation loop: throttling, errors, selection *)

Section PowHelperMore.

Variable POW_UI_ACTIVE : list (Z * (Z * pyval)).

Local Abbreviation pow_helper := (Registry.pow_helper POW_UI_ACTIVE).
Local Abbreviation pow_for := (Registry.pow_for POW_UI_ACTIVE).
Local Abbreviation pow_devices := (Registry.pow_devices POW_UI_ACTIVE).
Local Abbreviation pow_command := (Registry.pow_command POW_UI_ACTIVE).
Local Abbreviation pow_eligible := (Registry.pow_eligible POW_UI_ACTIVE).

Lemma pow_command_dset_pow_ts v (device : dict) :
  pow_command (dset "pow_ts" v device) = pow_command device.
Proof.
  unfold Registry.pow_command, device_uiid, dindex.
  rewrite dget_dset_ne by discriminate. reflexivity.
Qed.

(** X22. The activation is throttled by the refresh interval of the
    command: after the loop has sent to a device at [ts], any sweep at a
    time before [ts + dt] passes the device over, and a sweep at
    [ts + dt] or later sends to it again (if it is still online). *)
Theorem pow_helper_throttle
    devs ts a rest (m : memory) device online cmd :
  heap m !! a = Some device ->
  dget "online" device = Some online -> truthy online = true ->
  pow_ts_after device ts = Ok false ->
  pow_command device = Ok cmd ->
  let m1 := fst (fst (pow_for devs ts (a :: rest) m)) in
  (forall ts' devs' rest',
     (ts' < ts + fst cmd)%Z ->
     pow_for devs' ts' (a :: rest') m1 = pow_for devs' ts' rest' m1)
  /\ (forall ts' devs' rest',
        (ts + fst cmd <= ts')%Z ->
        snd (fst (pow_for devs' ts' (a :: rest') m1))
        = [CloudSend a (Some (snd cmd)) None (Some 0%Z)]
        /\ field (fst (fst (pow_for devs' ts' (a :: rest') m1))) a "pow_ts"
           = Some (VInt (ts' + fst cmd))).
Proof.
  intros Hd Ho Ht Hts Hc m1.
  set (device1 := dset "pow_ts" (VInt (ts + fst cmd)) device).
  assert (Hm1 : m1 = with_heap (<[a := device1]> (heap m)) m).
  { unfold m1.
    now rewrite (pow_for_send POW_UI_ACTIVE devs ts a rest m device online cmd). }
  assert (Hd1 : heap m1 !! a = Some device1).
  { rewrite Hm1, heap_with_heap. apply list_lookup_insert_eq.
    eapply lookup_lt_Some; eassumption. }
  assert (Ho1 : dget "online" device1 = Some online).
  { unfold device1. rewrite dget_dset_ne by discriminate. exact Ho. }
  assert (Hts1 : forall ts', pow_ts_after device1 ts' = Ok (ts + fst cmd >? ts')%Z).
  { intros ts'. unfold pow_ts_after, device1. now rewrite dget_dset_eq. }
  assert (Hc1 : pow_command device1 = Ok cmd).
  { unfold device1. rewrite pow_command_dset_pow_ts. exact Hc. }
  split.
  - intros ts' devs' rest' Hlt.
    apply (pow_for_skip POW_UI_ACTIVE devs' ts' a rest' m1 device1 online Hd1 Ho1).
    right. rewrite Hts1. f_equal. apply Z.gtb_lt. lia.
  - intros ts' devs' rest' Hle.
    assert (Hdue : pow_ts_after device1 ts' = Ok false).
    { rewrite Hts1. f_equal. destruct (Z.gtb_spec (ts + fst cmd) ts'); [lia|reflexivity]. }
    rewrite (pow_for_send POW_UI_ACTIVE devs' ts' a rest' m1 device1 online cmd
               Hd1 Ho1 Ht Hdue Hc1).
    cbn [fst snd]. split; [reflexivity|].
    unfold field. rewrite heap_with_heap.
    rewrite list_lookup_insert_eq by (eapply lookup_lt_Some; eassumption).
    apply dget_dset_eq.
Qed.

Lemma pow_for_raise_no_effect devs ts rest (m : memory) e :
  snd (pow_for devs ts rest m) = Raise e ->
  pow_for devs ts rest m = (m, [], Raise e).
Proof.
  induction rest as [|b rest IH]; cbn [Registry.pow_for]; run.
  - discriminate.
  - destruct (heap m !! b) as [device|]; [|now intros [= ->]].
    destruct (dindex "online" device) as [online|e0]; [|now intros [= ->]].
    destruct (truthy online); cbn [negb].
    + destruct (pow_ts_after device ts) as [[|]|e0]; [| |now intros [= ->]].
      * destruct (pow_for devs ts rest m) as [[m' tr] r] eqn:E. cbn [snd] in *.
        intros H. specialize (IH H). now injection IH as -> -> ->.
      * destruct (pow_command device) as [cmd|e0]; [|now intros [= ->]].
        discriminate.
    + destruct (pow_for devs ts rest m) as [[m' tr] r] eqn:E. cbn [snd] in *.
      intros H. specialize (IH H). now injection IH as -> -> ->.
Qed.

(** X23. When the coroutine raises, the step in which it does so has sent
    nothing and written nothing; this is what happens when the loop
    reaches a record without [online] ([KeyError]), and the event loop
    then marks the task as done. *)
Theorem pow_helper_raise_no_effect :
  (forall now pc (m : memory) e,
     snd (pow_helper now pc m) = Raise e ->
     pow_helper now pc m = (m, [], Raise e))
  /\ (forall devs ts a rest (m : memory) device,
        heap m !! a = Some device ->
        dget "online" device = None ->
        pow_for devs ts (a :: rest) m = (m, [], Raise KeyError))
  /\ (forall tid now (s : state) t e,
        tasks s !! tid = Some t -> done t = false -> cancelling t = false ->
        snd (pow_helper now (pc t) (mem s)) = Raise e ->
        run_task POW_UI_ACTIVE tid now s
        = (State (mem s) (task s) (<[tid := Task PowDone false]> (tasks s)), [])).
Proof.
  assert (H1 : forall now pc (m : memory) e,
     snd (pow_helper now pc m) = Raise e ->
     pow_helper now pc m = (m, [], Raise e)).
  { intros now pc m e. destruct pc as [|devs|devs ts rest|];
      cbn [Registry.pow_helper].
    - unfold pow_start. run.
      destruct (pow_devices (heap m) (devices m)) as [[|a devs]|e0];
        [discriminate| |now intros [= ->]].
      unfold pow_loop. run. destruct (cloud_online m); cbn [negb]; [|discriminate].
      destruct (pow_for (a :: devs) now (a :: devs) m) as [[m' tr] r] eqn:E.
      cbn [snd]. intros ->.
      pose proof (pow_for_raise_no_effect (a :: devs) now (a :: devs) m e) as H.
      rewrite E in H. specialize (H eq_refl). now injection H as -> ->.
    - unfold pow_loop. run. destruct (cloud_online m); cbn [negb]; [|discriminate].
      destruct (pow_for devs now devs m) as [[m' tr] r] eqn:E.
      cbn [snd]. intros ->.
      pose proof (pow_for_raise_no_effect devs now devs m e) as H.
      rewrite E in H. specialize (H eq_refl). now injection H as -> ->.
    - apply pow_for_raise_no_effect.
    - discriminate. }
  split; [exact H1|split].
  - intros devs ts a rest m device Hd Ho. cbn [Registry.pow_for]. run.
    unfold dindex. now rewrite Hd, Ho.
  - intros tid now s t e Ht Hd Hc Hr. unfold run_task.
    rewrite Ht, Hd, Hc. now rewrite (H1 _ _ _ _ Hr).
Qed.

(** The devices of the loop are the records of the registry, in the
    order of the registry, that have [extra] with a capability id in
    [POW_UI_ACTIVE]; a record without [extra], such as the placeholder of
    an undecrypted device, is never one of them. *)
Theorem pow_devices_selection (h : list dict) (r : list (string * addr)) devs :
  pow_devices h r = Ok devs ->
  devs
  = List.filter
      (fun a =>
         match h !! a with
         | Some device =>
             match pow_eligible device with Ok true => true | _ => false end
         | None => false
         end)
      (map snd r)
  /\ forall a device,
       In a devs -> h !! a = Some device -> dget "extra" device <> None.
Proof.
  revert devs. induction r as [|[k a] r IH]; intros devs; cbn [Registry.pow_devices];
    [intros [= <-]; split; [reflexivity|intros ? ? []]|].
  destruct (h !! a) as [device|] eqn:Hd; [|discriminate].
  destruct (pow_eligible device) as [keep|e] eqn:He; [|discriminate].
  cbn [obind].
  destruct (pow_devices h r) as [rest|e]; [|discriminate]. cbn [obind].
  intros [= <-]. destruct (IH rest eq_refl) as [IH1 IH2].
  cbn [map snd List.filter]. rewrite Hd, He.
  split.
  - destruct keep; [f_equal|]; exact IH1.
  - intros b device' Hin Hb.
    destruct keep; [destruct Hin as [<-|Hin]|]; try exact (IH2 _ _ Hin Hb).
    rewrite Hd in Hb. injection Hb as <-.
    unfold Registry.pow_eligible, dmem in He.
    destruct (dget "extra" device); [discriminate|discriminate He].
Qed.

End PowHelperMore.

Lemma pow_helper_throttle_witness :
  let m1 := fst (fst (Registry.pow_for Sample.POW_UI_ACTIVE [0; 1] 1000 [0; 1]
                        Sample.pow_memory)) in
  Registry.pow_for Sample.POW_UI_ACTIVE [0; 1] 1150 [0; 1] m1
  = Registry.pow_for Sample.POW_UI_ACTIVE [0; 1] 1150 [1] m1.
Proof.
  intros m1.
  apply (proj1 (pow_helper_throttle Sample.POW_UI_ACTIVE [0; 1] 1000%Z 0 [1]
           Sample.pow_memory (Sample.pow_record "P1" true) (VBool true)
           (3600%Z, VDict [("uiActive", VInt 7200)])
           eq_refl eq_refl eq_refl eq_refl eq_refl)).
  reflexivity.
Defined.

Lemma pow_helper_raise_no_effect_witness :
  Registry.pow_for Sample.POW_UI_ACTIVE [0] 1000 [0] Sample.unset_memory
  = (Sample.unset_memory, [], Raise KeyError).
Proof.
  apply (proj1 (proj2 (pow_helper_raise_no_effect Sample.POW_UI_ACTIVE))
           [0] 1000%Z 0 [] Sample.unset_memory Sample.unset_record);
    reflexivity.
Defined.

Lemma pow_devices_selection_witness :
  dget "extra" (Sample.pow_record "P1" true) <> None.
Proof.
  apply (proj2 (pow_devices_selection Sample.POW_UI_ACTIVE
                  (heap Sample.pow_memory) (devices Sample.pow_memory)
                  [0; 1] eq_refl) 0 (Sample.pow_record "P1" true)).
  - left. reflexivity.
  - reflexivity.
Defined.

(** * Properties of the RF bridge *)

Import Remote.

(** ** Dictionaries of children *)

Lemma dget_dremove_eq k (d : dict) : dget k (dremove k d) = None.
Proof.
  induction d as [|[k' v] d IH]; cbn [dremove dget]; [reflexivity|].
  destruct (String.eqb k' k) eqn:E; [exact IH|]. cbn [dget]. now rewrite E.
Qed.

Lemma dget_dremove_ne k k' (d : dict) :
  k <> k' -> dget k' (dremove k d) = dget k' d.
Proof.
  intros Hne. induction d as [|[k0 v] d IH]; cbn [dremove dget]; [reflexivity|].
  destruct (String.eqb k0 k) eqn:E.
  - apply String.eqb_eq in E. subst k0.
    destruct (String.eqb k k') eqn:E'; [|exact IH].
    apply String.eqb_eq in E'. contradiction.
  - cbn [dget]. destruct (String.eqb k0 k'); [reflexivity|exact IH].
Qed.

Lemma In_cset k v (c : childs_t) x :
  In x (cset k v c) -> x = (k, v) \/ In x c.
Proof.
  induction c as [|[k' v'] c IH]; cbn [cset In].
  - intros [<-|[]]. now left.
  - destruct (String.eqb k' k) eqn:E; cbn [In].
    + apply String.eqb_eq in E. subst k'. intros [<-|H]; auto.
    + intros [<-|H]; auto. destruct (IH H); auto.
Qed.

Lemma keys_cset k v (c : childs_t) :
  map fst (cset k v c)
  = if existsb (String.eqb k) (map fst c) then map fst c else map fst c ++ [k].
Proof.
  induction c as [|[k' v'] c IH]; cbn [cset map fst existsb app]; [reflexivity|].
  rewrite (String.eqb_sym k k').
  destruct (String.eqb k' k) eqn:E; cbn [map fst orb]; [reflexivity|].
  rewrite IH. now destruct (existsb (String.eqb k) (map fst c)).
Qed.

Lemma existsb_eqb_In k (l : list string) :
  existsb (String.eqb k) l = false -> ~ In k l.
Proof.
  induction l as [|x l IH]; cbn [existsb In]; [tauto|].
  intros H. apply orb_false_iff in H as [Hx Hl].
  intros [->|Hin]; [now rewrite String.eqb_refl in Hx|exact (IH Hl Hin)].
Qed.

Lemma NoDup_cset k v (c : childs_t) :
  List.NoDup (map fst c) -> List.NoDup (map fst (cset k v c)).
Proof.
  intros Hnd. rewrite keys_cset.
  destruct (existsb (String.eqb k) (map fst c)) eqn:E; [exact Hnd|].
  apply List.NoDup_app; repeat split.
  - exact Hnd.
  - repeat constructor. intros [].
  - intros x Hx [<-|[]]. exact (existsb_eqb_In _ _ E Hx).
Qed.

Lemma In_cremove k (c : childs_t) x : In x (cremove k c) -> In x c /\ fst x <> k.
Proof.
  induction c as [|[k' v'] c IH]; cbn [cremove In]; [tauto|].
  destruct (String.eqb k' k) eqn:E.
  - intros H. destruct (IH H). auto.
  - intros [<-|H].
    + split; [now left|]. cbn. intros ->. now rewrite String.eqb_refl in E.
    + destruct (IH H). auto.
Qed.

Lemma NoDup_cremove k (c : childs_t) :
  List.NoDup (map fst c) -> List.NoDup (map fst (cremove k c)).
Proof.
  induction c as [|[k' v'] c IH]; cbn [cremove map fst]; [auto|].
  intros Hnd. apply List.NoDup_cons_iff in Hnd as [Hnotin Hnd].
  destruct (String.eqb k' k); [exact (IH Hnd)|].
  cbn [map fst]. apply List.NoDup_cons; [|exact (IH Hnd)].
  intros Hin. apply Hnotin. apply in_map_iff in Hin as ([k0 v0] & <- & Hin).
  apply In_cremove in Hin as [Hin _]. apply in_map_iff. now exists (k0, v0).
Qed.

Lemma cget_In k v (c : childs_t) : cget k c = Some v -> In (k, v) c.
Proof.
  induction c as [|[k' v'] c IH]; cbn [cget]; [discriminate|].
  destruct (String.eqb k' k) eqn:E.
  - intros [= ->]. apply String.eqb_eq in E. subst. now left.
  - intros H. right. exact (IH H).
Qed.

Lemma find_named_inv name (c : childs_t) k :
  find_named name c = Val k ->
  (exists v n, In (k, v) c /\ dget "name" v = Some n /\ py_eq n name = true)
  /\ exists v, cget k c = Some v.
Proof.
  induction c as [|[k' v'] c IH]; cbn [find_named]; [discriminate|].
  unfold dindex. destruct (dget "name" v') as [n|] eqn:Hn; cbn [of_py rbind];
    [|discriminate].
  destruct (py_eq n name) eqn:E.
  - intros [= ->]. split.
    + exists v', n. repeat split; auto. now left.
    + exists v'. cbn [cget]. now rewrite String.eqb_refl.
  - intros H. destruct (IH H) as [(v & n' & Hin & Hname & Heq) [w Hw]]. split.
    + exists v, n'. repeat split; auto. now right.
    + cbn [cget]. destruct (String.eqb k' k); eauto.
Qed.

(** ** [rfbridge_childs] *)

(** What the inner loop makes of a button: a child with a name that is not
    a button with state, and then its channel. *)
Lemma make_child_shape yaml remote button ch child dual :
  make_child yaml remote button = Val (ch, child, dual) ->
  exists base,
    child = dset "channel" (VStr ch) base
    /\ (exists n, dget "name" base = Some n)
    /\ button_with_state base = false
    /\ (yaml = VDict [] ->
        dual = None /\ dget "channel_on" base = None
        /\ (dget "device_class" base = Some (VStr "button")
            \/ dget "device_class" base = None)).
Proof.
  unfold make_child.
  destruct (first_key button) as [channel|e]; cbn [rbind]; [|discriminate].
  destruct (of_py (py_index "remote_type" remote)) as [rt|e]; cbn [rbind];
    [|discriminate].
  assert (Hbase : forall name (base0 : dict),
    (base0 = [("name", name); ("device_class", VStr "button")]
     \/ base0 = [("name", name)]) ->
    rbind (of_py (dindex "name" base0)) (fun name =>
      rbind (yaml_has yaml name) (fun overridden =>
        if overridden then
          rbind (yaml_get yaml name) (fun override =>
          rbind (child_update base0 override) (fun child =>
          let dual := dget "payload_off" child in
          let child :=
            if button_with_state child then dremove "device_class" child
            else child in
          Val (channel, dset "channel" (VStr channel) child, dual)))
        else Val (channel, dset "channel" (VStr channel) base0, None)))
    = Val (ch, child, dual) ->
    exists base,
      child = dset "channel" (VStr ch) base
      /\ (exists n, dget "name" base = Some n)
      /\ button_with_state base = false
      /\ (yaml = VDict [] ->
          dual = None /\ dget "channel_on" base = None
          /\ (dget "device_class" base = Some (VStr "button")
              \/ dget "device_class" base = None))).
  { intros name base0 Hb0.
    assert (Hname0 : dget "name" base0 = Some name)
      by (destruct Hb0 as [-> | ->]; reflexivity).
    unfold dindex. rewrite Hname0. cbn [of_py rbind].
    destruct (yaml_has yaml name) as [[|]|e] eqn:Hhas; cbn [rbind];
      [| |discriminate].
    - destruct (yaml_get yaml name) as [override|e]; cbn [rbind]; [|discriminate].
      destruct (child_update base0 override) as [c1|e] eqn:Hup; cbn [rbind];
        [|discriminate].
      intros [= <- <- <-].
      assert (Hn1 : exists n, dget "name" c1 = Some n).
      { unfold child_update in Hup.
        destruct override as [| | | | |o]; try discriminate.
        injection Hup as <-. rewrite dget_dupdate.
        destruct (dget "name" (rev o)); eauto. }
      exists (if button_with_state c1 then dremove "device_class" c1 else c1).
      split; [reflexivity|]. split; [|split].
      + destruct (button_with_state c1); [|exact Hn1].
        destruct Hn1 as [n Hn]. exists n.
        rewrite dget_dremove_ne by discriminate. exact Hn.
      + destruct (button_with_state c1) eqn:Hb; [|exact Hb].
        unfold button_with_state, dget_none.
        now rewrite dget_dremove_eq.
      + intros ->. destruct name; cbn in Hhas; discriminate Hhas.
    - intros [= <- <- <-]. exists base0. split; [reflexivity|].
      split; [eauto|]. split.
      + destruct Hb0 as [-> | ->]; reflexivity.
      + intros _. destruct Hb0 as [-> | ->]; cbn; auto. }
  destruct (negb (py_eq rt (VStr "6"))).
  - destruct (of_py (py_index channel button)) as [name|e]; cbn [rbind];
      [|discriminate].
    intros H. exact (Hbase name _ (or_introl eq_refl) H).
  - destruct (of_py (py_index "name" remote)) as [name|e]; cbn [rbind];
      [|discriminate].
    intros H. exact (Hbase name _ (or_intror eq_refl) H).
Qed.

Section ChildsInvariant.

(** A property of a child under its channel that the inner loop
    establishes and that [channel_on] does not disturb. *)
Variable yaml : pyval.
Variable P : string -> dict -> Prop.
Hypothesis P_make : forall remote button ch child dual,
  make_child yaml remote button = Val (ch, child, dual) -> P ch child.
Hypothesis P_channel_on : forall ch child v,
  P ch child -> P ch (dset "channel_on" v child).

Local Abbreviation all_childs := (Frame.all_childs P).

Lemma buttons_loop_inv remote buttons :
  forall st st',
    all_childs (fst st) ->
    buttons_loop yaml remote buttons st = Val st' ->
    all_childs (fst st').
Proof.
  induction buttons as [|button rest IH]; intros st st' Hst; cbn [buttons_loop].
  - now intros [= <-].
  - destruct (make_child yaml remote button) as [[[ch child] dual]|e] eqn:Hmk;
      cbn [rbind]; [|discriminate].
    apply IH. cbn [fst]. destruct Hst as [Hnd Hall]. split.
    + now apply NoDup_cset.
    + intros ch' child' Hin. apply In_cset in Hin as [[= -> ->]|Hin].
      * exact (P_make _ _ _ _ _ Hmk).
      * exact (Hall _ _ Hin).
Qed.

Lemma remotes_loop_inv remotes :
  forall st st',
    all_childs (fst st) ->
    remotes_loop yaml remotes st = Val st' ->
    all_childs (fst st').
Proof.
  induction remotes as [|remote rest IH]; intros st st' Hst; cbn [remotes_loop].
  - now intros [= <-].
  - destruct (of_py (py_index "buttonName" remote)) as [names|e]; cbn [rbind];
      [|discriminate].
    destruct (as_list names) as [buttons|e]; cbn [rbind]; [|discriminate].
    destruct (buttons_loop yaml remote buttons st) as [st1|e] eqn:Hb;
      cbn [rbind]; [|discriminate].
    apply IH. exact (buttons_loop_inv _ _ _ _ Hst Hb).
Qed.

Lemma duals_loop_inv duals :
  forall c c', all_childs c -> duals_loop duals c = Val c' -> all_childs c'.
Proof.
  induction duals as [|[ch name] rest IH]; intros c c' Hc; cbn [duals_loop].
  - now intros [= <-].
  - destruct (find_named name c) as [ch_off|e] eqn:Hf; cbn [rbind]; [|discriminate].
    destruct (cget ch_off c) as [child|] eqn:Hg; [|discriminate].
    apply IH. destruct Hc as [Hnd Hall]. split.
    + rewrite map_app. cbn [map fst]. apply List.NoDup_app; repeat split.
      * now apply NoDup_cremove.
      * repeat constructor. intros [].
      * intros x Hx [<-|[]].
        apply in_map_iff in Hx as ([k0 v0] & Hk & Hin). cbn in Hk. subst k0.
        apply In_cremove in Hin as [_ Hne]. now apply Hne.
    + intros ch' child' Hin. apply in_app_or in Hin as [Hin|[[= <- <-]|[]]].
      * apply In_cremove in Hin as [Hin _]. exact (Hall _ _ Hin).
      * apply P_channel_on. apply Hall. now apply cget_In.
Qed.

Lemma rfbridge_childs_inv config remotes c :
  rfbridge_yaml config = yaml ->
  rfbridge_childs config remotes = Val c ->
  all_childs c.
Proof.
  intros Hy. unfold rfbridge_childs. rewrite Hy.
  destruct (remotes_loop yaml remotes ([], [])) as [st|e] eqn:Hr; cbn [rbind];
    [|discriminate].
  apply duals_loop_inv.
  apply (remotes_loop_inv remotes ([], []) st); [|exact Hr].
  split; [constructor|intros ? ? []].
Qed.

End ChildsInvariant.

Lemma button_with_state_dset k v (child : dict) :
  k <> "device_class" -> k <> "payload_off" -> k <> "timeout" ->
  button_with_state (dset k v child) = button_with_state child.
Proof.
  intros H1 H2 H3. unfold button_with_state, dget_none, dmem.
  now rewrite !dget_dset_ne by assumption.
Qed.

(** X24. In the result of [rfbridge_childs] the channels are distinct and
    every child carries, under [channel], the channel it is filed under,
    and has a name. *)
Theorem rfbridge_childs_channels (config : pyval) (remotes : list pyval)
    (c : childs_t) :
  rfbridge_childs config remotes = Val c ->
  List.NoDup (map fst c)
  /\ forall ch child,
       In (ch, child) c ->
       dget "channel" child = Some (VStr ch)
       /\ exists name, dget "name" child = Some name.
Proof.
  intros H.
  apply (rfbridge_childs_inv (rfbridge_yaml config)
           (fun ch child => dget "channel" child = Some (VStr ch)
                            /\ exists name, dget "name" child = Some name))
    with (config := config) (remotes := remotes); auto.
  - intros remote button ch child dual Hmk.
    destruct (make_child_shape _ _ _ _ _ _ Hmk) as (base & -> & [n Hn] & _).
    split; [apply dget_dset_eq|]. exists n.
    rewrite dget_dset_ne by discriminate. exact Hn.
  - intros ch child v [Hc [n Hn]]. split.
    + rewrite dget_dset_ne by discriminate. exact Hc.
    + exists n. rewrite dget_dset_ne by discriminate. exact Hn.
Qed.

(** X25. A child with [payload_off] or [timeout] is never a button: in the
    result of [rfbridge_childs] no child has the device class ["button"]
    together with one of these keys. *)
Theorem rfbridge_childs_no_button_with_state (config : pyval)
    (remotes : list pyval) (c : childs_t) :
  rfbridge_childs config remotes = Val c ->
  forall ch child,
    In (ch, child) c ->
    dmem "payload_off" child || dmem "timeout" child = true ->
    py_eq (dget_none "device_class" child) (VStr "button") = false.
Proof.
  intros H ch child Hin Hstate.
  assert (Hinv : all_childs (fun _ child => button_with_state child = false) c).
  { apply (rfbridge_childs_inv (rfbridge_yaml config)
             (fun _ child => button_with_state child = false))
      with (config := config) (remotes := remotes); auto.
    - intros remote button ch' child' dual Hmk.
      destruct (make_child_shape _ _ _ _ _ _ Hmk) as (base & -> & _ & Hb & _).
      rewrite button_with_state_dset by discriminate. exact Hb.
    - intros ch' child' v Hb.
      rewrite button_with_state_dset by discriminate. exact Hb. }
  pose proof (proj2 Hinv ch child Hin) as Hb. cbv beta in Hb.
  unfold button_with_state in Hb. rewrite Hstate, andb_true_r in Hb. exact Hb.
Qed.

(** X26. Without a usable [rfbridge] configuration (the lookup raises, or
    the mapping is empty) there are no dual sensors: no child has
    [channel_on], and every child is a button or, for an alarm remote, has
    no device class. *)
Theorem rfbridge_childs_without_config (config : pyval)
    (remotes : list pyval) (c : childs_t) :
  (py_index "rfbridge" config = Ok (VDict [])
   \/ exists e, py_index "rfbridge" config = Raise e) ->
  rfbridge_childs config remotes = Val c ->
  forall ch child,
    In (ch, child) c ->
    dget "channel_on" child = None
    /\ (dget "device_class" child = Some (VStr "button")
        \/ dget "device_class" child = None).
Proof.
  intros Hcfg H.
  assert (Hy : rfbridge_yaml config = VDict []).
  { unfold rfbridge_yaml. destruct Hcfg as [-> | [e ->]]; reflexivity. }
  assert (Hduals : forall remotes st st',
            snd st = [] -> remotes_loop (VDict []) remotes st = Val st' ->
            snd st' = []).
  { clear. induction remotes as [|remote rest IH]; intros st st' Hst;
      cbn [remotes_loop]; [now intros [= <-]|].
    destruct (of_py (py_index "buttonName" remote)) as [names|e]; cbn [rbind];
      [|discriminate].
    destruct (as_list names) as [buttons|e]; cbn [rbind]; [|discriminate].
    destruct (buttons_loop (VDict []) remote buttons st) as [st1|e] eqn:Hb;
      cbn [rbind]; [|discriminate].
    apply IH. revert st st1 Hst Hb. clear.
    induction buttons as [|button rest IH]; intros st st1 Hst; cbn [buttons_loop];
      [now intros [= <-]|].
    destruct (make_child (VDict []) remote button) as [[[ch child] dual]|e] eqn:Hmk;
      cbn [rbind]; [|discriminate].
    destruct (make_child_shape _ _ _ _ _ _ Hmk) as (base & _ & _ & _ & Hnone).
    destruct (Hnone eq_refl) as [-> _]. apply IH. exact Hst. }
  unfold rfbridge_childs in H. rewrite Hy in H.
  destruct (remotes_loop (VDict []) remotes ([], [])) as [st|e] eqn:Hr;
    cbn [rbind] in H; [|discriminate].
  rewrite (Hduals remotes ([], []) st eq_refl Hr) in H.
  cbn [duals_loop] in H. injection H as <-.
  assert (Hinv : all_childs
            (fun _ child =>
               dget "channel_on" child = None
               /\ (dget "device_class" child = Some (VStr "button")
                   \/ dget "device_class" child = None)) (fst st)).
  { apply (remotes_loop_inv (VDict []) _) with (remotes := remotes)
      (st := ([], [])); [| |exact Hr].
    - intros remote button ch' child' dual Hmk.
      destruct (make_child_shape _ _ _ _ _ _ Hmk) as (base & -> & _ & _ & Hnone).
      destruct (Hnone eq_refl) as (_ & Hon & Hdc).
      rewrite !dget_dset_ne by discriminate. auto.
    - split; [constructor|intros ? ? []]. }
  exact (proj2 Hinv).
Qed.

(** X27. A [payload_off] that names no child makes [rfbridge_childs] raise
    [StopIteration]: when, after the buttons have been read, [duals] holds
    a name that no child has, the second loop cannot find its channel. *)
Theorem rfbridge_childs_unknown_payload_off (config : pyval)
    (remotes : list pyval) (c : childs_t) (duals : dict) (ch : string)
    (name : pyval) :
  remotes_loop (rfbridge_yaml config) remotes ([], []) = Val (c, duals) ->
  In (ch, name) duals ->
  (forall k child n,
     In (k, child) c -> dget "name" child = Some n -> py_eq n name = false) ->
  rfbridge_childs config remotes = Err StopIteration.
Proof.
  intros Hr Hin Hnone. unfold rfbridge_childs. rewrite Hr. cbn [rbind fst snd].
  assert (Hnamed : forall k child, In (k, child) c ->
                     exists n, dget "name" child = Some n).
  { assert (Hinv : all_childs
              (fun _ child => exists n, dget "name" child = Some n)
              (fst (c, duals))).
    { apply (remotes_loop_inv (rfbridge_yaml config) _) with (remotes := remotes)
        (st := ([], [])); [| |exact Hr].
      - intros remote button ch' child' dual Hmk.
        destruct (make_child_shape _ _ _ _ _ _ Hmk) as (base & -> & [n Hn] & _).
        exists n. rewrite dget_dset_ne by discriminate. exact Hn.
      - split; [constructor|intros ? ? []]. }
    exact (proj2 Hinv). }
  clear Hr. revert c Hnone Hnamed.
  induction duals as [|[ch0 name0] rest IH]; intros c Hnone Hnamed;
    [destruct Hin|].
  cbn [duals_loop].
  destruct (find_named name0 c) as [ch_off|e] eqn:Hf; cbn [rbind].
  - destruct (find_named_inv _ _ _ Hf) as [(v & n & Hv & Hn & Heq) [w Hw]].
    rewrite Hw.
    destruct Hin as [[= -> ->]|Hin].
    + rewrite (Hnone _ _ _ Hv Hn) in Heq. discriminate.
    + apply (IH Hin).
      * intros k child n' Hk Hn'. apply in_app_or in Hk as [Hk|[[= <- <-]|[]]].
        -- apply In_cremove in Hk as [Hk _]. exact (Hnone _ _ _ Hk Hn').
        -- rewrite dget_dset_ne in Hn' by discriminate.
           exact (Hnone _ _ _ (cget_In _ _ _ Hw) Hn').
      * intros k child Hk. apply in_app_or in Hk as [Hk|[[= <- <-]|[]]].
        -- apply In_cremove in Hk as [Hk _]. exact (Hnamed _ _ Hk).
        -- destruct (Hnamed _ _ (cget_In _ _ _ Hw)) as [n' Hn'].
           exists n'. rewrite dget_dset_ne by discriminate. exact Hn'.
  - (* the search itself can only end in StopIteration *)
    f_equal. revert Hf. clear - Hnamed.
    induction c as [|[k v] c IHc]; cbn [find_named]; [now intros [= <-]|].
    destruct (Hnamed k v (or_introl eq_refl)) as [n Hn].
    unfold dindex. rewrite Hn. cbn [of_py rbind].
    destruct (py_eq n name0); [discriminate|].
    apply IHc. intros k' child Hk. apply (Hnamed k' child). now right.
Qed.

Lemma rfbridge_childs_channels_witness :
  List.NoDup (map fst Sample.rf_childs)
  /\ forall ch child,
       In (ch, child) Sample.rf_childs ->
       dget "channel" child = Some (VStr ch)
       /\ exists name, dget "name" child = Some name.
Proof.
  apply (rfbridge_childs_channels Sample.rf_config Sample.rf_remotes).
  reflexivity.
Defined.

Lemma rfbridge_childs_no_button_with_state_witness :
  py_eq (dget_none "device_class"
           [("name", VStr "Alarm1"); ("timeout", VInt 5); ("channel", VStr "2")])
    (VStr "button") = false.
Proof.
  apply (rfbridge_childs_no_button_with_state Sample.rf_config Sample.rf_remotes
           Sample.rf_childs eq_refl "2").
  - right. left. reflexivity.
  - reflexivity.
Defined.

Lemma rfbridge_childs_without_config_witness :
  dget "channel_on" [("name", VStr "Alarm1"); ("channel", VStr "2")] = None
  /\ (dget "device_class" [("name", VStr "Alarm1"); ("channel", VStr "2")]
      = Some (VStr "button")
      \/ dget "device_class" [("name", VStr "Alarm1"); ("channel", VStr "2")]
         = None).
Proof.
  apply (rfbridge_childs_without_config VNone Sample.rf_remotes
           Sample.rf_plain_childs) with (ch := "2").
  - right. exists TypeError. reflexivity.
  - reflexivity.
  - right. right. left. reflexivity.
Defined.

Lemma rfbridge_childs_unknown_payload_off_witness :
  rfbridge_childs Sample.rf_typo_config Sample.rf_remotes = Err StopIteration.
Proof.
  apply (rfbridge_childs_unknown_payload_off Sample.rf_typo_config
           Sample.rf_remotes Sample.rf_typo_childs [("0", VStr "Nope")]
           "0" (VStr "Nope")).
  - reflexivity.
  - left. reflexivity.
  - intros k child n [[= <- <-]|[[= <- <-]|[[= <- <-]|[]]]] [= <-]; reflexivity.
Defined.

(** ** [XRemote.set_state] *)

Section SetStateFacts.

Variable int_of_str : string -> option Z.

Local Abbreviation set_state := (Remote.set_state int_of_str).
Local Abbreviation set_state_loop := (Remote.set_state_loop int_of_str).

Lemma with_ts_same (x : xremote) : with_ts (ts x) x = x.
Proof. now destruct x. Qed.

Lemma set_state_loop_no_trigger params items (x : xremote) :
  triggers items = [] -> set_state_loop params items x = (x, [], Val tt).
Proof.
  unfold triggers. induction items as [|[param t] items IH];
    cbn [List.filter fst Remote.set_state_loop]; [reflexivity|].
  destruct (is_trigger param); [discriminate|]. exact IH.
Qed.

(** The loop looks at the trigger only. *)
Lemma set_state_loop_one_trigger params items param t (x : xremote) :
  triggers items = [(param, t)] ->
  set_state_loop params items x = set_state_loop params [(param, t)] x.
Proof.
  unfold triggers. induction items as [|[p0 t0] items IH];
    cbn [List.filter fst]; [discriminate|].
  destruct (is_trigger p0) eqn:E.
  - intros [= -> -> Hrest]. cbn [Remote.set_state_loop]. rewrite E. cbn [negb].
    destruct (is_None (ts x) && truthy (dget_none "arming" params)); [reflexivity|].
    destruct (py_eq t (ts x)); [reflexivity|].
    destruct (childs (with_ts t x)) as [cs|]; [|reflexivity].
    destruct (child_get (trigger_channel param) cs) as [[channel name|[|kv d]]|];
      try reflexivity.
    destruct (py_int int_of_str channel) as [command|e]; [|reflexivity].
    now rewrite (set_state_loop_no_trigger params items _ Hrest).
  - intros H. cbn [Remote.set_state_loop]. rewrite E. cbn [negb]. exact (IH H).
Qed.

(** After the loop has handled the trigger [(param, t)], the stored [ts]
    equals [t] whenever the call could have acted. *)
Lemma set_state_loop_single params param t (x : xremote) :
  let x1 := fst (fst (set_state_loop params [(param, t)] x)) in
  is_trigger param = true ->
  (x1 = x /\ py_eq t (ts x) = true
            /\ is_None (ts x) && truthy (dget_none "arming" params) = false)
  \/ (ts x1 = t /\ is_on x1 = is_on x).
Proof.
  intros x1 Htrig. subst x1. cbn [Remote.set_state_loop]. rewrite Htrig.
  cbn [negb].
  destruct (is_None (ts x) && truthy (dget_none "arming" params)) eqn:Harm;
    [right; split; reflexivity|].
  destruct (py_eq t (ts x)) eqn:Heq; [left; auto|].
  right.
  destruct (childs (with_ts t x)) as [cs|]; [|split; reflexivity].
  destruct (child_get (trigger_channel param) cs) as [[channel name|[|kv d]]|];
    try (split; reflexivity).
  destruct (py_int int_of_str channel) as [command|e]; split; reflexivity.
Qed.

(** A second delivery to a state whose [ts] is already [t] is silent. *)
Lemma set_state_loop_seen params param t (x : xremote) :
  is_trigger param = true ->
  py_eq t (ts x) = true ->
  exists x',
    set_state_loop params [(param, t)] x = (x', [], Val tt)
    /\ (x' = x \/ x' = with_ts t x).
Proof.
  intros Htrig Heq. cbn [Remote.set_state_loop]. rewrite Htrig. cbn [negb].
  destruct (is_None (ts x) && truthy (dget_none "arming" params)).
  - eexists. split; [reflexivity|now right].
  - rewrite Heq. eexists. split; [reflexivity|now left].
Qed.

(** X28. The same message delivered twice (by the LAN and by the cloud,
    say) acts once: for params with at most one trigger, [set_state] on
    the state that the first delivery left calls no child, fires no event
    and leaves that state as it is. *)
Theorem set_state_twice (params : dict) (x : xremote) :
  length (triggers params) <= 1 ->
  let x1 := fst (fst (set_state params x)) in
  set_state params x1 = (x1, [], Val tt).
Proof.
  intros Hone x1. subst x1. unfold Remote.set_state.
  destruct (negb (is_on x) || dmem "init" params) eqn:Hskip; cbn [fst].
  { now rewrite Hskip. }
  destruct (triggers params) as [|[param t] [|kv rest]] eqn:Htr;
    [| |cbn in Hone; lia].
  { rewrite (set_state_loop_no_trigger params params x Htr). cbn [fst].
    rewrite Hskip. apply set_state_loop_no_trigger. exact Htr. }
  assert (Htrig : is_trigger param = true).
  { assert (Hin : In (param, t) (triggers params)) by (rewrite Htr; now left).
    unfold triggers in Hin. apply filter_In in Hin as [_ H]. exact H. }
  rewrite (set_state_loop_one_trigger params params param t x Htr).
  destruct (set_state_loop_single params param t x Htrig)
    as [(Hx & Heq & Harm)|[Hts Hon]].
  - rewrite Hx, Hskip.
    rewrite (set_state_loop_one_trigger params params param t x Htr).
    cbn [Remote.set_state_loop]. rewrite Htrig, Harm, Heq. reflexivity.
  - set (x1 := fst (fst (set_state_loop params [(param, t)] x))) in *.
    rewrite Hon, Hskip.
    rewrite (set_state_loop_one_trigger params params param t x1 Htr).
    destruct (set_state_loop_seen params param t x1 Htrig) as (x' & -> & Hx').
    { rewrite Hts. apply py_eq_refl. }
    destruct Hx' as [-> | ->]; [reflexivity|].
    now rewrite <- Hts, with_ts_same.
Qed.

(** X29. The first LAN message after start-up (no [ts] yet, [arming] in the
    params) only records the time of its trigger, and the cloud copy of
    the same trigger (equal [ts]) that follows is silent too. *)
Theorem set_state_first_lan_message
    (lan cloud : dict) (x : xremote) param t param' t' :
  is_on x = true ->
  dmem "init" lan = false -> dmem "init" cloud = false ->
  ts x = VNone ->
  truthy (dget_none "arming" lan) = true ->
  triggers lan = [(param, t)] ->
  triggers cloud = [(param', t')] ->
  py_eq t' t = true ->
  set_state lan x = (with_ts t x, [], Val tt)
  /\ snd (fst (set_state cloud (with_ts t x))) = [].
Proof.
  intros Hon Hil Hic Hts Harm Hlan Hcloud Heq.
  assert (Htrig : forall ps p v, triggers ps = [(p, v)] -> is_trigger p = true).
  { intros ps p v H.
    assert (Hin : In (p, v) (triggers ps)) by (rewrite H; now left).
    unfold triggers in Hin. apply filter_In in Hin as [_ H']. exact H'. }
  split.
  - unfold Remote.set_state. rewrite Hon, Hil. cbn [negb orb].
    rewrite (set_state_loop_one_trigger lan lan param t x Hlan).
    cbn [Remote.set_state_loop]. rewrite (Htrig _ _ _ Hlan), Hts, Harm.
    reflexivity.
  - unfold Remote.set_state. cbn [is_on with_ts]. rewrite Hon, Hic.
    cbn [negb orb].
    rewrite (set_state_loop_one_trigger cloud cloud param' t' _ Hcloud).
    destruct (set_state_loop_seen cloud param' t' (with_ts t x)
                (Htrig _ _ _ Hcloud) Heq) as (x' & -> & _).
    reflexivity.
Qed.

(** The loop keeps [self.childs] and [self.is_on]. *)
Lemma set_state_loop_fires params items :
  forall (x : xremote) ty data,
    In (BusFire ty data) (snd (fst (set_state_loop params items x))) ->
    ty = "sonoff.remote"
    /\ exists param t cs channel name,
         In (param, t) items /\ is_trigger param = true
         /\ childs x = Some cs
         /\ child_get (trigger_channel param) cs = Some (ChildEntity channel name)
         /\ dget "ts" data = Some t /\ dget "name" data = Some name
         /\ In (InternalUpdate (trigger_channel param) t)
              (snd (fst (set_state_loop params items x))).
Proof.
  induction items as [|[param t] items IH]; intros x ty data;
    cbn [Remote.set_state_loop]; [intros []|].
  destruct (is_trigger param) eqn:Htrig; cbn [negb].
  - destruct (is_None (ts x) && truthy (dget_none "arming" params)); [intros []|].
    destruct (py_eq t (ts x)); [intros []|].
    destruct (childs (with_ts t x)) as [cs|] eqn:Hcs; [|intros []].
    destruct (child_get (trigger_channel param) cs)
      as [[channel name|[|kv d]]|] eqn:Hget; try (intros []).
    destruct (py_int int_of_str channel) as [command|e];
      [|intros [H|[]]; discriminate H].
    destruct (set_state_loop params items _) as [[x' tr] r] eqn:Hrest.
    cbn [fst snd]. intros [H|[H|H]]; [discriminate H| |].
    + injection H as <- <-. split; [reflexivity|].
      exists param, t, cs, channel, name. repeat split; auto; now left.
    + specialize (IH (with_attributes
                        [("command", VInt command); ("name", name);
                         ("entity_id", entity_id (with_ts t x)); ("ts", t)]
                        (with_ts t x)) ty data).
      rewrite Hrest in IH. cbn [fst snd] in IH.
      destruct (IH H) as (Hty & p & t0 & cs0 & ch0 & n0 & Hin & Ht0 & Hc0 & Hg0
                          & Hd1 & Hd2 & Hup).
      split; [exact Hty|]. exists p, t0, cs0, ch0, n0.
      repeat split; auto; try (now right); right; right; exact Hup.
  - intros H. destruct (IH x ty data H)
      as (Hty & p & t0 & cs0 & ch0 & n0 & Hin & Ht0 & Hc0 & Hg0 & Hd1 & Hd2 & Hup).
    split; [exact Hty|]. exists p, t0, cs0, ch0, n0. repeat split; auto.
    now right.
Qed.

(** X30. [set_state] fires the bus event ["sonoff.remote"] only for a
    bridge that is on, for params without [init], and for a trigger param
    whose channel has an entity in [self.childs]; the event carries the
    time of the trigger and the name of that child, and the child has been
    updated with that time in the same call. *)
Theorem set_state_fires (params : dict) (x : xremote) ty data :
  In (BusFire ty data) (snd (fst (set_state params x))) ->
  ty = "sonoff.remote"
  /\ is_on x = true /\ dmem "init" params = false
  /\ exists param t cs channel name,
       In (param, t) params /\ is_trigger param = true
       /\ childs x = Some cs
       /\ child_get (trigger_channel param) cs = Some (ChildEntity channel name)
       /\ dget "ts" data = Some t /\ dget "name" data = Some name
       /\ In (InternalUpdate (trigger_channel param) t)
            (snd (fst (set_state params x))).
Proof.
  unfold Remote.set_state.
  destruct (is_on x); cbn [negb orb]; [|intros []].
  destruct (dmem "init" params); [intros []|].
  intros H. destruct (set_state_loop_fires params params x ty data H) as [Hty Hex].
  auto.
Qed.

End SetStateFacts.

Lemma set_state_twice_witness :
  let x1 := fst (fst (set_state Sample.int_of_str Sample.cloud_trigger
                        Sample.bridge)) in
  set_state Sample.int_of_str Sample.cloud_trigger x1 = (x1, [], Val tt).
Proof.
  apply (set_state_twice Sample.int_of_str Sample.cloud_trigger Sample.bridge).
  cbn. lia.
Defined.

Lemma set_state_first_lan_message_witness :
  set_state Sample.int_of_str Sample.lan_trigger Sample.bridge
  = (with_ts Sample.trigger_time Sample.bridge, [], Val tt)
  /\ snd (fst (set_state Sample.int_of_str Sample.cloud_trigger
                 (with_ts Sample.trigger_time Sample.bridge))) = [].
Proof.
  apply (set_state_first_lan_message Sample.int_of_str Sample.lan_trigger
           Sample.cloud_trigger Sample.bridge "rfTrig0" Sample.trigger_time
           "rfTrig0" Sample.trigger_time); reflexivity.
Defined.

Lemma set_state_fires_witness :
  let data := [("command", VInt 0); ("name", VStr "Button1");
               ("entity_id", VStr "remote.bridge");
               ("ts", Sample.trigger_time)] in
  "sonoff.remote" = "sonoff.remote"
  /\ is_on Sample.bridge = true /\ dmem "init" Sample.cloud_trigger = false
  /\ exists param t cs channel name,
       In (param, t) Sample.cloud_trigger /\ is_trigger param = true
       /\ childs Sample.bridge = Some cs
       /\ child_get (trigger_channel param) cs = Some (ChildEntity channel name)
       /\ dget "ts" data = Some t /\ dget "name" data = Some name
       /\ In (InternalUpdate (trigger_channel param) t)
            (snd (fst (set_state Sample.int_of_str Sample.cloud_trigger
                         Sample.bridge))).
Proof.
  intros data.
  apply (set_state_fires Sample.int_of_str Sample.cloud_trigger Sample.bridge
           "sonoff.remote" data).
  right. left. reflexivity.
Defined.
